(** * create_headers.py: classification and re-emission of GraphBLAS declarations

    A shallow embedding of [suitesparse_graphblas/create_headers.py].

    Conventions of the embedding.
    - A Python [str] is a [string] whose characters are code points below 256
      (the headers processed by the script are ASCII); comparison of strings
      is comparison of code points, as in Python.
    - A Python [set] of strings is a [gset string].  Python does not specify
      the order in which a set is iterated (it changes with the hash seed of
      the process), so every iteration over a set goes through a [set_order],
      an arbitrary enumeration of the elements.
    - What pycparser computes from the header is input data: the record [ast]
      holds the text of the translation unit and the nodes the visitors of the
      script look at.
    - Exceptions are values of [exn]; code that can raise returns a [result]. *)

From stdpp Require Import gmap strings list sorting.
From Stdlib Require Import Ascii String.

Open Scope string_scope.
Open Scope list_scope.

(** ** Python string operations *)

Module Py.

(** [needle in hay] for strings. *)
Fixpoint str_in (needle hay : string) : bool :=
  String.prefix needle hay ||
  match hay with
  | "" => false
  | String _ t => str_in needle t
  end.

Definition startswith (p s : string) : bool := String.prefix p s.

(** [s.endswith(suf)]. *)
Fixpoint endswith (suf s : string) : bool :=
  match s with
  | "" => String.eqb suf ""
  | String _ t => String.eqb s suf || endswith suf t
  end.

(** [s[:-1]]. *)
Fixpoint drop_last (s : string) : string :=
  match s with
  | "" => ""
  | String c t => match t with "" => "" | _ => String c (drop_last t) end
  end.

(** [s[1:]]. *)
Definition drop_first (s : string) : string :=
  match s with "" => "" | String _ t => t end.

(** [s[n:]]. *)
Fixpoint drop_chars (n : nat) (s : string) : string :=
  match n, s with
  | S k, String _ t => drop_chars k t
  | _, _ => s
  end.

(** [str.isspace] on one code point below 256. *)
Definition is_space (c : ascii) : bool :=
  let n := nat_of_ascii c in
  (((9 <=? n) && (n <=? 13)) || ((28 <=? n) && (n <=? 32))
   || (n =? 133) || (n =? 160))%nat.

(** The line boundaries of [str.splitlines] below 256. *)
Definition is_linebreak (c : ascii) : bool :=
  let n := nat_of_ascii c in
  (((10 <=? n) && (n <=? 13)) || ((28 <=? n) && (n <=? 30)) || (n =? 133))%nat.

(** [\w] of the [re] module on one code point below 256:
    [str.isalnum] or an underscore. *)
Definition is_word (c : ascii) : bool :=
  let n := nat_of_ascii c in
  (((48 <=? n) && (n <=? 57)) || ((65 <=? n) && (n <=? 90))
   || ((97 <=? n) && (n <=? 122)) || (n =? 95)
   || (n =? 170) || (n =? 178) || (n =? 179) || (n =? 181)
   || (n =? 185) || (n =? 186) || ((188 <=? n) && (n <=? 190))
   || ((192 <=? n) && (n <=? 214)) || ((216 <=? n) && (n <=? 246))
   || (248 <=? n))%nat.

Fixpoint lstrip (s : string) : string :=
  match s with
  | "" => ""
  | String c t => if is_space c then lstrip t else s
  end.

Fixpoint rstrip (s : string) : string :=
  match s with
  | "" => ""
  | String c t =>
      let t' := rstrip t in
      if is_space c && String.eqb t' "" then "" else String c t'
  end.

(** [s.strip()]. *)
Definition strip (s : string) : string := rstrip (lstrip s).

(** [s.splitlines()]: a carriage return followed by a line feed is one
    boundary, and no empty line is reported after a final boundary. *)
Fixpoint splitlines (s : string) : list string :=
  match s with
  | "" => []
  | String c t =>
      if is_linebreak c then
        "" :: match t with
              | String c' t' =>
                  if Ascii.eqb c "013" && Ascii.eqb c' "010"
                  then splitlines t' else splitlines t
              | "" => []
              end
      else
        match splitlines t with
        | [] => [String c ""]
        | l :: ls => String c l :: ls
        end
  end.

(** [s.split(sep)] for a separator of one character, which is what every
    call of the script passes. *)
Fixpoint split (sep : ascii) (s : string) : list string :=
  match s with
  | "" => [""]
  | String c t =>
      if Ascii.eqb c sep then "" :: split sep t
      else match split sep t with
           | [] => [String c ""]
           | l :: ls => String c l :: ls
           end
  end.

(** [s.rsplit(sep, 1)[-1]]: what follows the last separator, the whole
    string when there is none. *)
Definition rsplit_last (sep : ascii) (s : string) : string :=
  List.last (split sep s) "".

(** [s.replace(old, new)] for a non-empty [old]: occurrences are replaced
    from the left and do not overlap.  [skip] counts the characters of a
    matched occurrence still to be dropped. *)
Fixpoint replace_from (old new : string) (skip : nat) (s : string) : string :=
  match s with
  | "" => ""
  | String c t =>
      match skip with
      | S k => replace_from old new k t
      | O =>
          if String.prefix old s
          then new +:+ replace_from old new (String.length old - 1) t
          else String c (replace_from old new 0 t)
      end
  end.

Definition replace (old new s : string) : string := replace_from old new 0 s.

(** [sep.join(l)]. *)
Definition join (sep : string) (l : list string) : string := String.concat sep l.

(** [sorted(l, key=key)]: a stable sort, comparing keys with [<]. *)
Fixpoint insert_by {A} (key : A → string) (x : A) (l : list A) : list A :=
  match l with
  | [] => [x]
  | y :: l' =>
      if String.ltb (key y) (key x) then y :: insert_by key x l'
      else x :: y :: l'
  end.

Definition sorted {A} (key : A → string) (l : list A) : list A :=
  foldr (insert_by key) [] l.

End Py.

(** ** Sets and their iteration order *)

(** One way of enumerating every set of strings: what iterating a Python set
    does in one process. *)
Record set_order := SetOrder {
  iter : gset string → list string;
  iter_perm : ∀ X, iter X ≡ₚ elements X
}.

(** The enumeration of stdpp, and its reverse: two different orders. *)
Definition order_elements : set_order := SetOrder elements (λ _, reflexivity _).

Definition order_reversed : set_order :=
  SetOrder (λ X, reverse (elements X)) (λ X, reverse_Permutation (elements X)).

(** [{x for x in l if p(x)}]. *)
Definition set_of (p : string → bool) (l : list string) : gset string :=
  list_to_set (List.filter p l).

(** ** Exceptions *)

Inductive exn :=
  | AssertionError
  | ValueError (msg : string)
  | KeyError (key : string)
  | IndexError
  | FileNotFoundError (msg : string)
  | SameFileError
  | RuntimeError (msg : string)
  | ParseError.

Inductive result (A : Type) :=
  | Ok (a : A)
  | Raise (e : exn).
Arguments Ok {A} a.
Arguments Raise {A} e.

(** [result] is a monad: stdpp's [x ← r; k] and [r;; k] sequence code that
    can raise. *)
#[global] Instance result_ret : MRet result := λ A a, Ok a.

#[global] Instance result_bind : MBind result := λ A B k r,
  match r with
  | Ok a => k a
  | Raise e => Raise e
  end.

(** [assert b]. *)
Definition assert (b : bool) : result unit :=
  if b then Ok tt else Raise AssertionError.

(** ** Constants of the script *)

Definition sort_key (s : string) : string := Py.replace "8" "08" s.

Definition has_complex (s : string) : bool :=
  Py.str_in "FC32" s || Py.str_in "FC64" s.

Definition AUTO : string := "/* This file is automatically generated */".

(** Deprecated names (of declarations and of enum fields) to exclude. *)
Definition DEPRECATED : gset string :=
  list_to_set [
    "GxB_IS_HYPER"; "GrB_SCMP"; "GxB_kron"; "GxB_Matrix_resize";
    "GxB_Vector_resize"; "GxB_ABS_BOOL"; "GxB_ABS_INT8"; "GxB_ABS_INT16";
    "GxB_ABS_INT32"; "GxB_ABS_INT64"; "GxB_ABS_UINT8"; "GxB_ABS_UINT16";
    "GxB_ABS_UINT32"; "GxB_ABS_UINT64"; "GxB_ABS_FP32"; "GxB_ABS_FP64";
    "GxB_MIN_INT8_MONOID"; "GxB_MIN_INT16_MONOID"; "GxB_MIN_INT32_MONOID";
    "GxB_MIN_INT64_MONOID"; "GxB_MIN_UINT8_MONOID"; "GxB_MIN_UINT16_MONOID";
    "GxB_MIN_UINT32_MONOID"; "GxB_MIN_UINT64_MONOID"; "GxB_MIN_FP32_MONOID";
    "GxB_MIN_FP64_MONOID"; "GxB_MAX_INT8_MONOID"; "GxB_MAX_INT16_MONOID";
    "GxB_MAX_INT32_MONOID"; "GxB_MAX_INT64_MONOID"; "GxB_MAX_UINT8_MONOID";
    "GxB_MAX_UINT16_MONOID"; "GxB_MAX_UINT32_MONOID"; "GxB_MAX_UINT64_MONOID";
    "GxB_MAX_FP32_MONOID"; "GxB_MAX_FP64_MONOID"; "GxB_PLUS_INT8_MONOID";
    "GxB_PLUS_INT16_MONOID"; "GxB_PLUS_INT32_MONOID"; "GxB_PLUS_INT64_MONOID";
    "GxB_PLUS_UINT8_MONOID"; "GxB_PLUS_UINT16_MONOID";
    "GxB_PLUS_UINT32_MONOID"; "GxB_PLUS_UINT64_MONOID";
    "GxB_PLUS_FP32_MONOID"; "GxB_PLUS_FP64_MONOID"; "GxB_TIMES_INT8_MONOID";
    "GxB_TIMES_INT16_MONOID"; "GxB_TIMES_INT32_MONOID";
    "GxB_TIMES_INT64_MONOID"; "GxB_TIMES_UINT8_MONOID";
    "GxB_TIMES_UINT16_MONOID"; "GxB_TIMES_UINT32_MONOID";
    "GxB_TIMES_UINT64_MONOID"; "GxB_TIMES_FP32_MONOID";
    "GxB_TIMES_FP64_MONOID"; "GxB_LOR_BOOL_MONOID"; "GxB_LAND_BOOL_MONOID";
    "GxB_LXOR_BOOL_MONOID"; "GxB_LXNOR_BOOL_MONOID"; "GxB_PLUS_TIMES_INT8";
    "GxB_PLUS_TIMES_INT16"; "GxB_PLUS_TIMES_INT32"; "GxB_PLUS_TIMES_INT64";
    "GxB_PLUS_TIMES_UINT8"; "GxB_PLUS_TIMES_UINT16"; "GxB_PLUS_TIMES_UINT32";
    "GxB_PLUS_TIMES_UINT64"; "GxB_PLUS_TIMES_FP32"; "GxB_PLUS_TIMES_FP64";
    "GxB_PLUS_MIN_INT8"; "GxB_PLUS_MIN_INT16"; "GxB_PLUS_MIN_INT32";
    "GxB_PLUS_MIN_INT64"; "GxB_PLUS_MIN_UINT8"; "GxB_PLUS_MIN_UINT16";
    "GxB_PLUS_MIN_UINT32"; "GxB_PLUS_MIN_UINT64"; "GxB_PLUS_MIN_FP32";
    "GxB_PLUS_MIN_FP64"; "GxB_MIN_PLUS_INT8"; "GxB_MIN_PLUS_INT16";
    "GxB_MIN_PLUS_INT32"; "GxB_MIN_PLUS_INT64"; "GxB_MIN_PLUS_UINT8";
    "GxB_MIN_PLUS_UINT16"; "GxB_MIN_PLUS_UINT32"; "GxB_MIN_PLUS_UINT64";
    "GxB_MIN_PLUS_FP32"; "GxB_MIN_PLUS_FP64"; "GxB_MIN_TIMES_INT8";
    "GxB_MIN_TIMES_INT16"; "GxB_MIN_TIMES_INT32"; "GxB_MIN_TIMES_INT64";
    "GxB_MIN_TIMES_UINT8"; "GxB_MIN_TIMES_UINT16"; "GxB_MIN_TIMES_UINT32";
    "GxB_MIN_TIMES_UINT64"; "GxB_MIN_TIMES_FP32"; "GxB_MIN_TIMES_FP64";
    "GxB_MIN_FIRST_INT8"; "GxB_MIN_FIRST_INT16"; "GxB_MIN_FIRST_INT32";
    "GxB_MIN_FIRST_INT64"; "GxB_MIN_FIRST_UINT8"; "GxB_MIN_FIRST_UINT16";
    "GxB_MIN_FIRST_UINT32"; "GxB_MIN_FIRST_UINT64"; "GxB_MIN_FIRST_FP32";
    "GxB_MIN_FIRST_FP64"; "GxB_MIN_SECOND_INT8"; "GxB_MIN_SECOND_INT16";
    "GxB_MIN_SECOND_INT32"; "GxB_MIN_SECOND_INT64"; "GxB_MIN_SECOND_UINT8";
    "GxB_MIN_SECOND_UINT16"; "GxB_MIN_SECOND_UINT32"; "GxB_MIN_SECOND_UINT64";
    "GxB_MIN_SECOND_FP32"; "GxB_MIN_SECOND_FP64"; "GxB_MIN_MAX_INT8";
    "GxB_MIN_MAX_INT16"; "GxB_MIN_MAX_INT32"; "GxB_MIN_MAX_INT64";
    "GxB_MIN_MAX_UINT8"; "GxB_MIN_MAX_UINT16"; "GxB_MIN_MAX_UINT32";
    "GxB_MIN_MAX_UINT64"; "GxB_MIN_MAX_FP32"; "GxB_MIN_MAX_FP64";
    "GxB_MAX_PLUS_INT8"; "GxB_MAX_PLUS_INT16"; "GxB_MAX_PLUS_INT32";
    "GxB_MAX_PLUS_INT64"; "GxB_MAX_PLUS_UINT8"; "GxB_MAX_PLUS_UINT16";
    "GxB_MAX_PLUS_UINT32"; "GxB_MAX_PLUS_UINT64"; "GxB_MAX_PLUS_FP32";
    "GxB_MAX_PLUS_FP64"; "GxB_MAX_TIMES_INT8"; "GxB_MAX_TIMES_INT16";
    "GxB_MAX_TIMES_INT32"; "GxB_MAX_TIMES_INT64"; "GxB_MAX_TIMES_UINT8";
    "GxB_MAX_TIMES_UINT16"; "GxB_MAX_TIMES_UINT32"; "GxB_MAX_TIMES_UINT64";
    "GxB_MAX_TIMES_FP32"; "GxB_MAX_TIMES_FP64"; "GxB_MAX_FIRST_INT8";
    "GxB_MAX_FIRST_INT16"; "GxB_MAX_FIRST_INT32"; "GxB_MAX_FIRST_INT64";
    "GxB_MAX_FIRST_UINT8"; "GxB_MAX_FIRST_UINT16"; "GxB_MAX_FIRST_UINT32";
    "GxB_MAX_FIRST_UINT64"; "GxB_MAX_FIRST_FP32"; "GxB_MAX_FIRST_FP64";
    "GxB_MAX_SECOND_INT8"; "GxB_MAX_SECOND_INT16"; "GxB_MAX_SECOND_INT32";
    "GxB_MAX_SECOND_INT64"; "GxB_MAX_SECOND_UINT8"; "GxB_MAX_SECOND_UINT16";
    "GxB_MAX_SECOND_UINT32"; "GxB_MAX_SECOND_UINT64"; "GxB_MAX_SECOND_FP32";
    "GxB_MAX_SECOND_FP64"; "GxB_MAX_MIN_INT8"; "GxB_MAX_MIN_INT16";
    "GxB_MAX_MIN_INT32"; "GxB_MAX_MIN_INT64"; "GxB_MAX_MIN_UINT8";
    "GxB_MAX_MIN_UINT16"; "GxB_MAX_MIN_UINT32"; "GxB_MAX_MIN_UINT64";
    "GxB_MAX_MIN_FP32"; "GxB_MAX_MIN_FP64"; "GxB_LOR_LAND_BOOL";
    "GxB_LAND_LOR_BOOL"; "GxB_LXOR_LAND_BOOL";
    "GrB_eWiseMult_Vector_Semiring"; "GrB_eWiseMult_Vector_Monoid";
    "GrB_eWiseMult_Vector_BinaryOp"; "GrB_eWiseMult_Matrix_Semiring";
    "GrB_eWiseMult_Matrix_Monoid"; "GrB_eWiseMult_Matrix_BinaryOp";
    "GrB_eWiseAdd_Vector_Semiring"; "GrB_eWiseAdd_Vector_Monoid";
    "GrB_eWiseAdd_Vector_BinaryOp"; "GrB_eWiseAdd_Matrix_Semiring";
    "GrB_eWiseAdd_Matrix_Monoid"; "GrB_eWiseAdd_Matrix_BinaryOp" ].

(** The integer [#define] constants. *)
Definition DEFINES : gset string :=
  list_to_set [
    "GxB_STDC_VERSION"; "GxB_IMPLEMENTATION_MAJOR";
    "GxB_IMPLEMENTATION_MINOR"; "GxB_IMPLEMENTATION_SUB"; "GxB_SPEC_MAJOR";
    "GxB_SPEC_MINOR"; "GxB_SPEC_SUB"; "GxB_IMPLEMENTATION";
    "GxB_SPEC_VERSION"; "GxB_INDEX_MAX"; "GRB_VERSION"; "GRB_SUBVERSION";
    "GxB_NTHREADS"; "GxB_CHUNK"; "GxB_GPU_CONTROL"; "GxB_GPU_CHUNK";
    "GxB_HYPERSPARSE"; "GxB_SPARSE"; "GxB_BITMAP"; "GxB_FULL";
    "GxB_NBITMAP_SWITCH"; "GxB_ANY_SPARSITY"; "GxB_AUTO_SPARSITY";
    "GxB_RANGE"; "GxB_STRIDE"; "GxB_BACKWARDS"; "GxB_BEGIN"; "GxB_END";
    "GxB_INC" ].

(** The [char*] [#define] constants. *)
Definition CHAR_DEFINES : gset string :=
  list_to_set [
    "GxB_IMPLEMENTATION_NAME"; "GxB_IMPLEMENTATION_DATE"; "GxB_SPEC_DATE";
    "GxB_IMPLEMENTATION_ABOUT"; "GxB_IMPLEMENTATION_LICENSE"; "GxB_SPEC_ABOUT" ].

(** [#define] names that the check of [main] ignores. *)
Definition IGNORE_DEFINES : gset string :=
  list_to_set [
    "CMPLX"; "CMPLXF"; "GB_PUBLIC"; "GRAPHBLAS_H"; "GrB_INVALID_HANDLE";
    "GrB_NULL"; "GxB_SUITESPARSE_GRAPHBLAS"; "NMACRO"; "GxB_HYPER" ].


(** Instance search never needs the elements of these sets. *)
#[global] Typeclasses Opaque DEPRECATED DEFINES CHAR_DEFINES IGNORE_DEFINES.

(** ** What pycparser provides *)

(** A [Typedef] node of the tree, with what [VisitEnumTypedef.visit_Typedef]
    reads from it. *)
Record typedef_node := TypedefNode {
  typedef_text : string;   (* super().visit_Typedef(node) *)
  typedef_is_enum : bool   (* isinstance(node.type.type, c_ast.Enum) *)
}.

(** A [Decl] node of the tree, with what [FuncDeclVisitor.visit_Decl] and
    [handle_function_node] read from it. *)
Record decl_node := DeclNode {
  decl_name : string;           (* node.name *)
  decl_is_func : bool;          (* isinstance(node.type, c_ast.FuncDecl) *)
  decl_storage : list string;   (* node.storage *)
  decl_return : string;         (* generator.visit(node.type.type) *)
  decl_text : string            (* generator.visit(node) *)
}.

(** The parsed header: the text [CGenerator().visit(ast)] and the nodes in
    the order in which a visitor reaches them. *)
Record ast := Ast {
  unit_text : string;
  typedef_nodes : list typedef_node;
  decl_nodes : list decl_node
}.

(** [VisitEnumTypedef]: [g.results] after [g.visit(ast)]. *)
Definition VisitEnumTypedef (a : ast) : list string :=
  (λ n, typedef_text n +:+ ";") <$> List.filter typedef_is_enum (typedef_nodes a).

(** ** Groups of declaration lines *)

(** The dictionary returned by [get_groups]: it has exactly these keys. *)
Record groups := Groups {
  GxB_methods : list string;        (* "GxB methods" *)
  GrB_methods : list string;        (* "GrB methods" *)
  GB_methods : list string;         (* "GB methods" *)
  GrB_objects : list string;        (* "GrB objects" *)
  GxB_objects : list string;        (* "GxB objects" *)
  GxB_const : list string;          (* "GxB const" *)
  GrB_const : list string;          (* "GrB const" *)
  GxB_typedef : list string;        (* "GxB typedef" *)
  GrB_typedef : list string;        (* "GrB typedef" *)
  GrB_typedef_enums : list string;  (* "GrB typedef enums" *)
  GxB_typedef_enums : list string;  (* "GxB typedef enums" *)
  GxB_typedef_funcs : list string;  (* "GxB typedef funcs" *)
  not_seen : list string            (* "not seen" *)
}.

Section with_order.

(** The iteration order of sets in the running process. *)
Variable ord : set_order.

(** [sorted(X, key=key)] for a set [X]. *)
Definition sorted_set (key : string → string) (X : gset string) : list string :=
  Py.sorted key (iter ord X).

(** [for val in vals: seen.update(val.splitlines())]. *)
Definition update_splitlines (seen vals : gset string) : gset string :=
  foldl (λ seen val, seen ∪ list_to_set (Py.splitlines val)) seen (iter ord vals).

(** The sort key of the enum groups: [sort_key(x.rsplit("}", 1)[-1])]. *)
Definition enum_key (x : string) : string := sort_key (Py.rsplit_last "}" x).

Definition get_groups (a : ast) : result groups :=
  let lines := Py.splitlines (unit_text a) in
  let seen : gset string := ∅ in
  let vals := set_of (Py.str_in "extern GrB_Info GxB") lines ∖ seen in
  let seen := seen ∪ vals in
  let gxb_methods := sorted_set sort_key vals in

  let vals := set_of (Py.str_in "extern GrB_Info GrB") lines ∖ seen in
  let seen := seen ∪ vals in
  let grb_methods := sorted_set sort_key vals in

  let vals := set_of (Py.str_in "extern GrB_Info GB") lines ∖ seen in
  let seen := seen ∪ vals in
  let gb_methods := sorted_set sort_key vals in

  let missing_methods := set_of (Py.str_in "extern GrB_Info ") lines ∖ seen in
  assert (bool_decide (missing_methods = ∅));;

  let vals := set_of (Py.str_in "extern GrB") lines ∖ seen in
  let seen := seen ∪ vals in
  let grb_objects := sorted_set sort_key vals in

  let vals := set_of (Py.str_in "extern GxB") lines ∖ seen in
  let seen := seen ∪ vals in
  let gxb_objects := sorted_set sort_key vals in

  let vals :=
    set_of (λ x, Py.str_in "extern const" x && Py.str_in "GxB" x) lines ∖ seen in
  let seen := seen ∪ vals in
  let gxb_const := sorted_set sort_key vals in

  let vals :=
    set_of (λ x, Py.str_in "extern const" x && Py.str_in "GrB" x) lines ∖ seen in
  let seen := seen ∪ vals in
  let grb_const := sorted_set sort_key vals in

  let missing_const := set_of (Py.str_in "extern const") lines ∖ seen in
  assert (bool_decide (missing_const = ∅));;

  let vals :=
    set_of (λ x, Py.str_in "typedef" x && Py.str_in "GxB" x
                 && negb (Py.str_in "(" x)) lines ∖ seen in
  let seen := seen ∪ vals in
  let gxb_typedef := sorted_set sort_key vals in

  let vals :=
    set_of (λ x, Py.str_in "typedef" x && Py.str_in "GrB" x
                 && negb (Py.str_in "(" x)) lines ∖ seen in
  let seen := seen ∪ vals in
  let grb_typedef := sorted_set sort_key vals in

  let missing_typedefs :=
    set_of (λ x, Py.str_in "typedef" x && Py.str_in "GB" x
                 && negb (Py.str_in "(" x)) lines ∖ seen in
  assert (bool_decide (missing_typedefs = ∅));;
  assert (forallb (Py.endswith ";") (iter ord seen));;

  let enums := VisitEnumTypedef a in

  let vals := set_of (Py.str_in "} GrB") enums in
  let seen := update_splitlines seen vals in
  let grb_typedef_enums := sorted_set enum_key vals in

  let vals := set_of (Py.str_in "} GxB") enums in
  let seen := update_splitlines seen vals in
  let gxb_typedef_enums := sorted_set enum_key vals in

  let missing_enums : gset string :=
    list_to_set enums ∖ list_to_set grb_typedef_enums
                     ∖ list_to_set gxb_typedef_enums in
  assert (bool_decide (missing_enums = ∅));;

  let vals :=
    set_of (λ x, Py.str_in "typedef" x && Py.str_in "GxB" x) lines ∖ seen in
  let seen := seen ∪ vals in
  let gxb_typedef_funcs := sorted_set sort_key vals in

  let vals :=
    set_of (λ x, Py.str_in "typedef" x && Py.str_in "GrB" x) lines ∖ seen in
  assert (bool_decide (vals = ∅));;
  let not_seen := sorted_set sort_key (list_to_set lines ∖ seen) in
  assert (forallb (λ group, negb (Py.str_in "extern" group)) not_seen);;
  Ok {| GxB_methods := gxb_methods;
        GrB_methods := grb_methods;
        GB_methods := gb_methods;
        GrB_objects := grb_objects;
        GxB_objects := gxb_objects;
        GxB_const := gxb_const;
        GrB_const := grb_const;
        GxB_typedef := gxb_typedef;
        GrB_typedef := grb_typedef;
        GrB_typedef_enums := grb_typedef_enums;
        GxB_typedef_enums := gxb_typedef_enums;
        GxB_typedef_funcs := gxb_typedef_funcs;
        not_seen := not_seen |}.

End with_order.

(** ** Declaration records *)

(** The dictionary built for a constant, an object, a typedef or an enum:
    the key ["text"], and ["orig_text"] for an enum. *)
Record info := Info {
  orig_text : option string;
  text : string
}.

(** The dictionary built for a function: the keys ["name"], ["group"],
    ["node"] and ["text"]. *)
Record func_info := FuncInfo {
  name : string;
  group : string;
  node : decl_node;
  func_text : string
}.

(** The dictionary returned by [get_group_info]: the keys of [groups], with
    records in place of lines except under ["not seen"]. *)
Record group_info := GroupInfo {
  rv_GrB_const : list info;
  rv_GxB_const : list info;
  rv_GrB_objects : list info;
  rv_GxB_objects : list info;
  rv_GrB_typedef_enums : list info;
  rv_GxB_typedef_enums : list info;
  rv_GrB_typedef : list info;
  rv_GxB_typedef : list info;
  rv_GxB_typedef_funcs : list info;
  rv_GrB_methods : list func_info;
  rv_GxB_methods : list func_info;
  rv_GB_methods : list func_info;
  rv_not_seen : list string
}.

(** A generator run to its end by [list(...)]: the body of the loop either
    skips its item ([continue], [None]) or yields a value. *)
Fixpoint generate {A B} (body : A → result (option B)) (l : list A)
    : result (list B) :=
  match l with
  | [] => Ok []
  | x :: l' =>
      r ← body x;
      rest ← generate body l';
      Ok (match r with Some y => y :: rest | None => rest end)
  end.

(** [first, *middle, last = l]. *)
Definition unpack_ends (l : list string) : result (string * list string * string) :=
  match l with
  | x :: (_ :: _) as l' => Ok (x, removelast l', List.last l' "")
  | _ => Raise (ValueError "not enough values to unpack")
  end.

(** The naming scheme of the function groups in [handle_function_node]. *)
Definition function_groups : gmap string string :=
  list_to_map [
    ("GrB_Matrix", "matrix"); ("GrB_Vector", "vector"); ("GxB_Scalar", "scalar");
    ("SelectOp", "selectop"); ("BinaryOp", "binary"); ("Desc", "descriptor");
    ("Descriptor", "descriptor"); ("Monoid", "monoid"); ("Semiring", "semiring");
    ("Type", "type"); ("UnaryOp", "unary");
    ("getVersion", "core"); ("Global", "core"); ("cuda", "core");
    ("finalize", "core"); ("init", "core"); ("wait", "core") ].

Section get_group_info.

Variable skip_complex : bool.

Definition handle_constants_line (line : string) : result (option info) :=
  match Py.split " " line with
  | [extern; const; ctype; name] =>
      assert (Py.endswith ";" name);;
      let name := Py.replace "(void)" "()" (Py.drop_last name) in
      assert (String.eqb extern "extern");;
      assert (String.eqb const "const");;
      if bool_decide (name ∈ DEPRECATED) then Ok None
      else if skip_complex && has_complex line then Ok None
      else Ok (Some {| orig_text := None; text := line |})
  | _ => Raise (ValueError "unpack")
  end.

Definition handle_constants (group : list string) : result (list info) :=
  generate handle_constants_line group.

Definition handle_objects_line (line : string) : result (option info) :=
  match Py.split " " line with
  | [extern; ctype; name] =>
      assert (Py.endswith ";" name);;
      let name := Py.drop_last name in
      assert (String.eqb extern "extern");;
      if bool_decide (name ∈ DEPRECATED) then Ok None
      else if skip_complex && has_complex line then Ok None
      else Ok (Some {| orig_text := None; text := line |})
  | _ => Raise (ValueError "unpack")
  end.

Definition handle_objects (group : list string) : result (list info) :=
  generate handle_objects_line group.

(** The inner loop of [handle_enums]: the fields that are kept. *)
Definition handle_enums_field (field : string) : result (option string) :=
  let field := if Py.endswith "," field then Py.drop_last field else field in
  let field := Py.strip field in
  match Py.split " " field with
  | [cfieldname; eq; val] =>
      assert (String.eqb eq "=");;
      if bool_decide (cfieldname ∈ DEPRECATED) then Ok None
      else if skip_complex && has_complex cfieldname then Ok None
      else Ok (Some field)
  | _ => Raise (ValueError "unpack")
  end.

(** [lines[-1] = lines[-1][:-1]] on a non-empty list. *)
Definition drop_last_of_last (lines : list string) : list string :=
  removelast lines ++ [Py.drop_last (List.last lines "")].

Definition handle_enums_text (text : string) : result (option info) :=
  let text := Py.replace ("enum " +:+ String "010" "") ("enum" +:+ String "010" "") text in
  '(typedef, rest, name) ← unpack_ends (Py.splitlines text);
  match rest with
  | [] => Raise (ValueError "unpack")
  | bracket :: fields =>
      assert (String.eqb (Py.strip typedef) "typedef enum");;
      assert (String.eqb bracket "{");;
      assert (Py.startswith "}" name);;
      assert (Py.endswith ";" name);;
      let cname := name in
      let name := Py.strip (Py.drop_last (Py.drop_first name)) in
      if bool_decide (name ∈ DEPRECATED) then Ok None
      else if skip_complex && has_complex name then Ok None
      else
        let typedef := Py.strip typedef in
        assert (String.eqb (Py.strip typedef) "typedef enum");;
        assert (String.eqb bracket "{");;
        assert (Py.startswith "}" cname);;
        assert (Py.endswith ";" cname);;
        new_fields ← generate handle_enums_field fields;
        match new_fields with
        | [] => Ok None
        | _ =>
            let lines := [typedef; bracket] in
            let lines := lines ++ ((λ field, "  " +:+ field +:+ ",") <$> new_fields) in
            let lines := drop_last_of_last lines in
            let lines := lines ++ [cname] in
            Ok (Some {| orig_text := Some text;
                        text := Py.join (String "010" "") lines |})
        end
  end.

Definition handle_enums (group : list string) : result (list info) :=
  generate handle_enums_text group.

Definition handle_typedefs_line (line : string) : result (option info) :=
  match Py.split " " line with
  | typedef :: (_ :: _) as rest =>
      let name := List.last rest "" in
      assert (String.eqb typedef "typedef");;
      assert (Py.endswith ";" name);;
      let name := Py.drop_last name in
      if bool_decide (name ∈ DEPRECATED) then Ok None
      else if skip_complex && has_complex line then Ok None
      else Ok (Some {| orig_text := None; text := line |})
  | _ => Raise (ValueError "unpack")
  end.

Definition handle_typedefs (group : list string) : result (list info) :=
  generate handle_typedefs_line group.

Definition handle_typedef_funcs_line (line : string) : result (option info) :=
  assert (Py.endswith ";" line && Py.startswith "typedef" line);;
  if skip_complex && has_complex line then Ok None
  else Ok (Some {| orig_text := None; text := line |}).

Definition handle_typedef_funcs (group : list string) : result (list info) :=
  generate handle_typedef_funcs_line group.

(** [FuncDeclVisitor]: [visitor.functions] after [visitor.visit(ast)]. *)
Definition FuncDeclVisitor (a : ast) : list decl_node :=
  List.filter
    (λ node, decl_is_func node && bool_decide (decl_storage node = ["extern"]))
    (decl_nodes a).

Definition handle_function_node (node : decl_node) : result (option func_info) :=
  if negb (String.eqb (decl_return node) "GrB_Info")
  then Raise (ValueError (decl_text node))
  else if bool_decide (decl_name node ∈ DEPRECATED) then Ok None
  else
    let text := decl_text node +:+ ";" in
    if skip_complex && has_complex text then Ok None
    else
      group ←
        (if Py.str_in "GrB_Matrix" text then Ok "matrix"
         else if Py.str_in "GrB_Vector" text then Ok "vector"
         else if Py.str_in "GxB_Scalar" text then Ok "scalar"
         else
           match Py.split "_" (decl_name node) !! 1%nat with
           | None => Raise IndexError
           | Some group =>
               match function_groups !! group with
               | None => Raise (KeyError group)
               | Some group => Ok group
               end
           end);
      Ok (Some {| name := decl_name node; group := group;
                  node := node; func_text := text |}).

Definition get_group_info (groups : groups) (a : ast) : result group_info :=
  grb_const ← handle_constants (GrB_const groups);
  gxb_const ← handle_constants (GxB_const groups);
  grb_objects ← handle_objects (GrB_objects groups);
  gxb_objects ← handle_objects (GxB_objects groups);
  grb_typedef_enums ← handle_enums (GrB_typedef_enums groups);
  gxb_typedef_enums ← handle_enums (GxB_typedef_enums groups);
  grb_typedef ← handle_typedefs (GrB_typedef groups);
  gxb_typedef ← handle_typedefs (GxB_typedef groups);
  gxb_typedef_funcs ← handle_typedef_funcs (GxB_typedef_funcs groups);
  let functions := FuncDeclVisitor a in
  let grb_nodes := List.filter (λ node, Py.startswith "GrB_" (decl_name node)) functions in
  let gxb_nodes := List.filter (λ node, Py.startswith "GxB_" (decl_name node)) functions in
  let gb_nodes := List.filter (λ node, Py.startswith "GB_" (decl_name node)) functions in
  assert (List.length grb_nodes =? List.length (GrB_methods groups))%nat;;
  assert (List.length gxb_nodes =? List.length (GxB_methods groups))%nat;;
  assert (List.length gb_nodes =? List.length (GB_methods groups))%nat;;
  grb_funcs ← generate handle_function_node grb_nodes;
  gxb_funcs ← generate handle_function_node gxb_nodes;
  gb_funcs ← generate handle_function_node gb_nodes;
  Ok {| rv_GrB_const := grb_const;
        rv_GxB_const := gxb_const;
        rv_GrB_objects := grb_objects;
        rv_GxB_objects := gxb_objects;
        rv_GrB_typedef_enums := grb_typedef_enums;
        rv_GxB_typedef_enums := gxb_typedef_enums;
        rv_GrB_typedef := grb_typedef;
        rv_GxB_typedef := gxb_typedef;
        rv_GxB_typedef_funcs := gxb_typedef_funcs;
        rv_GrB_methods := Py.sorted (λ x, sort_key (func_text x)) grb_funcs;
        rv_GxB_methods := Py.sorted (λ x, sort_key (func_text x)) gxb_funcs;
        rv_GB_methods := Py.sorted (λ x, sort_key (func_text x)) gb_funcs;
        rv_not_seen := not_seen groups |}.

End get_group_info.

(** ** Emitting the header and the source *)

(** [groupby(index, seq)]: a dictionary keeps its keys in the order of their
    first insertion, so the result is an association list. *)
Fixpoint groupby_add {A} (key : string) (item : A) (rv : list (string * list A))
    : list (string * list A) :=
  match rv with
  | [] => [(key, [item])]
  | (k, items) :: rv' =>
      if String.eqb k key then (k, items ++ [item]) :: rv'
      else (k, items) :: groupby_add key item rv'
  end.

Definition groupby {A} (index : A → string) (seq : list A)
    : list (string * list A) :=
  foldl (λ rv item, groupby_add (index item) item rv) [] seq.

(** [groups[name]] for a key of the dictionary. *)
Fixpoint groupby_get {A} (key : string) (rv : list (string * list A)) : list A :=
  match rv with
  | [] => []
  | (k, items) :: rv' => if String.eqb k key then items else groupby_get key rv'
  end.

(** The double quote character. *)
Definition dquote : string := String "034" "".

(** The generator [handle_funcs] of [create_header_text]. *)
Definition handle_funcs (infos : list func_info) : list string :=
  let groups := groupby group infos in
  flat_map
    (λ name, [""; "/* " +:+ name +:+ " */"] ++ (func_text <$> groupby_get name groups))
    (Py.sorted sort_key (fst <$> groups)).

Section emit.

Variable ord : set_order.

Definition create_header_text (groups : group_info)
    (char_defines defines : option (gset string)) : list string :=
  let char_defines := default CHAR_DEFINES char_defines in
  let defines := default DEFINES defines in
  let txt := [AUTO] in
  let txt := txt ++ ["/* GrB typedefs */"] in
  let txt := txt ++ (text <$> rv_GrB_typedef groups) in
  let txt := txt ++ [""] in
  let txt := txt ++ ["/* GxB typedefs */"] in
  let txt := txt ++ (text <$> rv_GxB_typedef groups) in
  let txt := txt ++ [""] in
  let txt := txt ++ ["/* GxB typedefs (functions) */"] in
  let txt := txt ++ (text <$> rv_GxB_typedef_funcs groups) in
  let txt := txt ++ [""] in
  let txt := txt ++ ["/* GrB enums */"] in
  let txt := txt ++ flat_map (λ group, [text group; ""]) (rv_GrB_typedef_enums groups) in
  let txt := txt ++ ["/* GxB enums */"] in
  let txt := txt ++ flat_map (λ group, [text group; ""]) (rv_GxB_typedef_enums groups) in
  let txt := txt ++ ["/* GrB consts */"] in
  let txt := txt ++ (text <$> rv_GrB_const groups) in
  let txt := txt ++ [""] in
  let txt := txt ++ ["/* GxB consts */"] in
  let txt := txt ++ (text <$> rv_GxB_const groups) in
  let txt := txt ++ [""] in
  let txt := txt ++ ["/* GrB objects */"] in
  let txt := txt ++ List.filter (λ t, negb (Py.str_in "GxB" t))
                        (text <$> rv_GrB_objects groups) in
  let txt := txt ++ [""] in
  let txt := txt ++ ["/* GrB objects (extended) */"] in
  let txt := txt ++ List.filter (Py.str_in "GxB") (text <$> rv_GrB_objects groups) in
  let txt := txt ++ [""] in
  let txt := txt ++ ["/* GxB objects */"] in
  let txt := txt ++ (text <$> rv_GxB_objects groups) in

  let txt := txt ++ [""] in
  let txt := txt ++ ["/****************"] in
  let txt := txt ++ ["* GrB functions *"] in
  let txt := txt ++ ["****************/"] in
  let txt := txt ++ handle_funcs (rv_GrB_methods groups) in

  let txt := txt ++ [""] in
  let txt := txt ++ ["/***************"] in
  let txt := txt ++ ["* GB functions *"] in
  let txt := txt ++ ["***************/"] in
  let txt := txt ++ handle_funcs (rv_GB_methods groups) in

  let txt := txt ++ [""] in
  let txt := txt ++ ["/****************"] in
  let txt := txt ++ ["* GxB functions *"] in
  let txt := txt ++ ["****************/"] in
  let txt := txt ++ handle_funcs (rv_GxB_methods groups) in

  let txt := txt ++ [""] in
  let txt := txt ++ ["/* int DEFINES */"] in
  let txt := txt ++ ((λ item, "#define " +:+ item +:+ " ...")
                         <$> sorted_set ord sort_key defines) in

  let txt := txt ++ [""] in
  let txt := txt ++ ["/* char* DEFINES */"] in
  let txt := txt ++ ((λ item, "extern char *" +:+ item +:+ "_STR;")
                         <$> sorted_set ord sort_key char_defines) in
  txt.

Definition create_source_text (char_defines : option (gset string)) : list string :=
  let char_defines := default CHAR_DEFINES char_defines in
  let txt := [AUTO; "#include " +:+ dquote +:+ "GraphBLAS.h" +:+ dquote] in
  let txt := txt ++ ((λ item, "char *" +:+ item +:+ "_STR = " +:+ item +:+ ";")
                         <$> sorted_set ord sort_key char_defines) in
  txt.

End emit.

(** ** The [#define] names of a header *)

(** The longest prefix of [s] whose characters satisfy [p], and the rest. *)
Fixpoint span (p : ascii → bool) (s : string) : string * string :=
  match s with
  | "" => ("", "")
  | String c t =>
      if p c then let '(a, b) := span p t in (String c a, b) else ("", s)
  end.

(** A match of [#define\s+\w+\s+] at the start of [s].  No character is both
    a space and a word character, so the greedy match is the only one. *)
Definition match_define (s : string) : option string :=
  if String.prefix "#define" s then
    let '(ws1, r1) := span Py.is_space (Py.drop_chars 7 s) in
    let '(w, r2) := span Py.is_word r1 in
    let '(ws2, _) := span Py.is_space r2 in
    if String.eqb ws1 "" || String.eqb w "" || String.eqb ws2 "" then None
    else Some ("#define" +:+ ws1 +:+ w +:+ ws2)
  else None.

(** [define_pattern.findall(text)]: the matches from left to right, which do
    not overlap.  [skip] counts the characters of the last match still to be
    passed. *)
Fixpoint findall_define (skip : nat) (text : string) : list string :=
  match text with
  | "" => []
  | String _ t =>
      match skip with
      | S k => findall_define k t
      | O =>
          match match_define text with
          | Some m => m :: findall_define (String.length m - 1) t
          | None => findall_define 0 t
          end
      end
  end.

(** [{x[len("#define"):].strip() for x in define_pattern.findall(text)}]. *)
Definition find_defines (text : string) : gset string :=
  list_to_set ((λ x, Py.strip (Py.drop_chars (String.length "#define") x))
                 <$> findall_define 0 text).

(** ** The script *)

(** What a run of the script finds around it. *)
Record world := World {
  arg_graphblas : string;      (* args.graphblas *)
  arg_show_skipped : bool;     (* args.show_skipped *)
  thisdir : string;            (* os.path.dirname(__file__) *)
  pycparser_dir : string;      (* os.path.dirname(pycparser.__file__) *)
  (* subprocess.run(command, shell=True): the return code and the files
     after the command *)
  shell : string → gmap string string → Z * gmap string string;
  (* pycparser.parse_file on the content of a file *)
  pycparser : string → result ast;
  (* the iteration order of sets in this process *)
  order : set_order
}.

(** The files (path to content) and the lines printed so far. *)
Record state := State {
  files : gmap string string;
  stdout : list string
}.

(** Code that reads and changes the state and can raise. *)
Definition io (A : Type) : Type := state → state * result A.

#[global] Instance io_ret : MRet io := λ A a s, (s, Ok a).

#[global] Instance io_bind : MBind io := λ A B k m s,
  match m s with
  | (s', Ok a) => k a s'
  | (s', Raise e) => (s', Raise e)
  end.

Definition raise {A} (e : exn) : io A := λ s, (s, Raise e).

Definition lift {A} (r : result A) : io A := λ s, (s, r).

Definition print (line : string) : io unit := λ s,
  ({| files := files s; stdout := stdout s ++ [line] |}, Ok tt).

(** [os.path.exists(path)]. *)
Definition path_exists (path : string) : io bool := λ s,
  (s, Ok (bool_decide (is_Some (files s !! path)))).

(** [shutil.copyfile(src, dst)]. *)
Definition copyfile (src dst : string) : io unit := λ s,
  if bool_decide (src = dst) then (s, Raise SameFileError)
  else match files s !! src with
       | Some content =>
           ({| files := <[dst := content]> (files s); stdout := stdout s |}, Ok tt)
       | None => (s, Raise (FileNotFoundError src))
       end.

(** [with open(path, "w") as f: f.write(content)]. *)
Definition write_file (path content : string) : io unit := λ s,
  ({| files := <[path := content]> (files s); stdout := stdout s |}, Ok tt).

(** [with open(path) as f: text = f.read()]. *)
Definition read_file (path : string) : io string := λ s,
  match files s !! path with
  | Some content => (s, Ok content)
  | None => (s, Raise (FileNotFoundError path))
  end.

(** [os.path.join(a, b)]. *)
Definition path_join (a b : string) : string :=
  if Py.startswith "/" b then b
  else if String.eqb a "" || Py.endswith "/" a then a +:+ b
  else a +:+ "/" +:+ b.

(** The character U+1F680 of the last message; a [string] cannot hold it, its
    UTF-8 encoding stands for it. *)
Definition ROCKET : string :=
  String "240" (String "159" (String "154" (String "128" ""))).

Section script.

Variable w : world.

(** [subprocess.run(command, shell=True)]: the return code. *)
Definition subprocess_run (command : string) : io Z := λ s,
  let '(returncode, files') := shell w command (files s) in
  ({| files := files'; stdout := stdout s |}, Ok returncode).

(** [get_ast(filename)]: the include path it computes is not used by
    [parse_file], which reads the file as it is. *)
Definition get_ast (filename : string) : io ast :=
  content ← read_file filename;
  lift (pycparser w content).

Definition parse_header (filename : string) (skip_complex : bool) : io group_info :=
  ast ← get_ast filename;
  groups ← lift (get_groups (order w) ast);
  lift (get_group_info skip_complex groups ast).

Definition graphblas_h : string := path_join (thisdir w) "GraphBLAS-orig.h".
Definition processed_h : string := path_join (thisdir w) "GraphBLAS-processed.h".
Definition final_h : string := path_join (thisdir w) "suitesparse_graphblas.h".
Definition final_no_complex_h : string :=
  path_join (thisdir w) "suitesparse_graphblas_no_complex.h".
Definition source_c : string := path_join (thisdir w) "source.c".

(** Steps 1 to 5 of [main]: copy, preprocess, and write the three files. *)
Definition main_generate : io group_info :=
  (* Copy original file *)
  print ("Step 1: copy " +:+ arg_graphblas w +:+ " to " +:+ graphblas_h);;
  found ← path_exists (arg_graphblas w);
  (if negb found
   then raise (FileNotFoundError ("File not found: " +:+ arg_graphblas w))
   else mret tt);;
  copyfile (arg_graphblas w) graphblas_h;;

  (* Run it through the preprocessor *)
  print ("Step 2: run preprocessor to create " +:+ processed_h);;
  let include :=
    path_join (path_join (pycparser_dir w) "utils") "fake_libc_include" in
  let command :=
    "gcc -nostdinc -E -I" +:+ include +:+ " " +:+ graphblas_h +:+ " "
    +:+ "| sed 's/ complex / _Complex /g' > " +:+ processed_h in
  returncode ← subprocess_run command;
  (if bool_decide (returncode ≠ 0%Z)
   then raise (RuntimeError "Subprocess command failed")
   else mret tt);;

  (* Create final header file *)
  print ("Step 3: parse header file to create " +:+ final_h);;
  groups ← parse_header processed_h false;
  let text := create_header_text (order w) groups None None in
  write_file final_h (Py.join (String "010" "") text);;

  (* Create final header file (no complex) *)
  print ("Step 4: parse header file to create " +:+ final_no_complex_h);;
  groups_no_complex ← parse_header processed_h true;
  let text := create_header_text (order w) groups_no_complex None None in
  write_file final_no_complex_h (Py.join (String "010" "") text);;

  (* Create source *)
  print ("Step 5: create " +:+ source_c);;
  let text := create_source_text (order w) None in
  write_file source_c (Py.join (String "010" "") text);;
  mret groups.

(** [extra_defines] and [unknown_defines] of step 6. *)
Definition extra_defines (defines : gset string) : gset string :=
  (DEFINES ∪ CHAR_DEFINES) ∖ defines.

Definition unknown_defines (defines : gset string) : gset string :=
  defines ∖ DEFINES ∖ CHAR_DEFINES ∖ IGNORE_DEFINES.

Definition warning_message (extra : gset string) : string :=
  "WARNING: the following #define values weren't found in " +:+ graphblas_h
  +:+ ": " +:+ Py.join ", " (sorted_set (order w) id extra).

Definition unknown_message (unknown : gset string) : string :=
  "Unknown #define values found in " +:+ graphblas_h +:+ ": "
  +:+ Py.join ", " (sorted_set (order w) id unknown).

(** Step 6 of [main], and what follows it. *)
Definition main_check (groups : group_info) : io unit :=
  print "Step 6: check #define definitions";;
  text ← read_file graphblas_h;
  let defines := find_defines text in
  let extra_defines := extra_defines defines in
  (if bool_decide (extra_defines ≠ ∅)
   then print (warning_message extra_defines)
   else mret tt);;
  let unknown_defines := unknown_defines defines in
  (if bool_decide (unknown_defines ≠ ∅)
   then raise (ValueError (unknown_message unknown_defines))
   else mret tt);;
  print ("Success! " +:+ ROCKET);;
  if arg_show_skipped w then
    print "";;
    print ("Showing lines from " +:+ processed_h
           +:+ " that were skipped when creating " +:+ final_h +:+ ":");;
    print (String.concat "" (replicate 80 "-"));;
    foldr (λ line k, print line;; k) (mret tt)
          (Py.sorted sort_key (rv_not_seen groups))
  else mret tt.

Definition main : io unit :=
  groups ← main_generate;
  main_check groups.

End script.

(** A line feed, and a text made of lines. *)
Definition nl : string := String "010" "".

Definition unlines (l : list string) : string :=
  Py.join nl l +:+ nl.

(** ** Definitions used to state the theorems *)

(** The replacement [sort_key] performs, character by character. *)
Fixpoint pad8 (s : string) : string :=
  match s with
  | "" => ""
  | String c t =>
      if Ascii.eqb c "8" then String "0" (String "8" (pad8 t))
      else String c (pad8 t)
  end.

(** The order in which [sorted] leaves a list. *)
Definition key_le {A} (key : A → string) (x y : A) : Prop :=
  String.le (key x) (key y).

(** The groups of [get_groups] whose members are lines of the text, in the
    order in which they are filled, and the two groups of enum typedefs. *)
Definition line_groups (g : groups) : list (string * list string) :=
  [ ("GxB methods", GxB_methods g); ("GrB methods", GrB_methods g);
    ("GB methods", GB_methods g); ("GrB objects", GrB_objects g);
    ("GxB objects", GxB_objects g); ("GxB const", GxB_const g);
    ("GrB const", GrB_const g); ("GxB typedef", GxB_typedef g);
    ("GrB typedef", GrB_typedef g); ("GxB typedef funcs", GxB_typedef_funcs g);
    ("not seen", not_seen g) ].

Definition enum_groups (g : groups) : list (string * list string) :=
  [ ("GrB typedef enums", GrB_typedef_enums g);
    ("GxB typedef enums", GxB_typedef_enums g) ].

(** The items of the dictionary. *)
Definition all_groups (g : groups) : list (string * list string) :=
  line_groups g ++ enum_groups g.

(** A line is a line of an enum typedef kept in an enum group. *)
Definition enum_line (g : groups) (x : string) : Prop :=
  ∃ e, (e ∈ GrB_typedef_enums g ∨ e ∈ GxB_typedef_enums g) ∧ x ∈ Py.splitlines e.

(** The tests of the classification buckets of lines. *)
Definition bucket_tests : list (string → bool) :=
  [ Py.str_in "extern GrB_Info GxB"; Py.str_in "extern GrB_Info GrB";
    Py.str_in "extern GrB_Info GB"; Py.str_in "extern GrB"; Py.str_in "extern GxB";
    (λ x, Py.str_in "extern const" x && Py.str_in "GxB" x);
    (λ x, Py.str_in "extern const" x && Py.str_in "GrB" x);
    (λ x, Py.str_in "typedef" x && Py.str_in "GxB" x && negb (Py.str_in "(" x));
    (λ x, Py.str_in "typedef" x && Py.str_in "GrB" x && negb (Py.str_in "(" x));
    (λ x, Py.str_in "typedef" x && Py.str_in "GxB" x) ].

(** Sets filled one after the other, each without what was seen before. *)
Inductive seen_chain : gset string → list (gset string) → Prop :=
  | seen_chain_nil seen : seen_chain seen []
  | seen_chain_cons seen vals seen' rest :
      vals ## seen → seen ∪ vals ⊆ seen' → seen_chain seen' rest →
      seen_chain seen (vals :: rest).

(** No two enum typedefs of the header have the same sort key. *)
Definition enum_keys_distinct (a : ast) : Prop :=
  ∀ x y, x ∈ VisitEnumTypedef a → y ∈ VisitEnumTypedef a →
         enum_key x = enum_key y → x = y.

(** ** The enum typedefs, as the claims describe them *)
(** A field line without its trailing comma and surrounding spaces. *)
Definition field_norm (field : string) : string :=
  Py.strip (if Py.endswith "," field then Py.drop_last field else field).

(** The name of a (normalised) field: what precedes its first space. *)
Definition field_name (field : string) : string :=
  List.hd "" (Py.split " " field).

(** A name is removed from the output: it is deprecated or, when complex
    types are skipped, complex. *)
Definition removed (skip_complex : bool) (name : string) : bool :=
  bool_decide (name ∈ DEPRECATED) || (skip_complex && has_complex name).

(** The surviving fields of an enum, in their original order. *)
Definition kept_fields (skip_complex : bool) (fields : list string) : list string :=
  List.filter (λ field, negb (removed skip_complex (field_name field)))
              (field_norm <$> fields).

(** The name of the enum type read from the closing line of its typedef. *)
Definition enum_name (cname : string) : string :=
  Py.strip (Py.drop_last (Py.drop_first cname)).

(** The text of an enum with the given fields: every field but the last is
    followed by a comma. *)
Definition enum_text (fields : list string) (cname : string) : string :=
  Py.join nl (["typedef enum"; "{"]
              ++ ((λ field, "  " +:+ field +:+ ",") <$> removelast fields)
              ++ ["  " +:+ List.last fields ""]
              ++ [cname]).

(** [text.replace("enum \n", "enum\n")]. *)
Definition enum_orig (text : string) : string :=
  Py.replace ("enum " +:+ nl) ("enum" +:+ nl) text.

(** ** The declarations that are removed *)
(** The word the handlers look up in [DEPRECATED] for a declaration line: its
    last word without the semicolon.  The star of a pointer declarator stays
    in it. *)
Definition line_name (line : string) : string :=
  Py.drop_last (List.last (Py.split " " line) "").

(** The word looked up for a constant: a [(void)] in it is written [()]. *)
Definition constant_name (line : string) : string :=
  Py.replace "(void)" "()" (line_name line).

(** A declaration of the given name and text is left out. *)
Definition dropped (skip_complex : bool) (name text : string) : bool :=
  bool_decide (name ∈ DEPRECATED) || (skip_complex && has_complex text).

(** The records of the lines of a group that are not left out, [namer] giving
    the name of a line. *)
Definition kept_lines (skip_complex : bool) (namer : string → string)
    (group : list string) : list info :=
  Info None <$> List.filter (λ line, negb (dropped skip_complex (namer line) line)) group.

(** The function declarations whose name has the given prefix. *)
Definition nodes_with (prefix : string) (a : ast) : list decl_node :=
  List.filter (λ node, Py.startswith prefix (decl_name node)) (FuncDeclVisitor a).

(** The function declarations that are not left out. *)
Definition kept_nodes (skip_complex : bool) (nodes : list decl_node) : list decl_node :=
  List.filter (λ n, negb (dropped skip_complex (decl_name n) (decl_text n +:+ ";"))) nodes.

(** The record of a function follows its declaration. *)
Definition follows_node (f : func_info) : Prop :=
  name f = decl_name (node f) ∧ func_text f = decl_text (node f) +:+ ";".

(** What [handle_enums] emits for the enums of a group: the enums whose name
    is not removed and that keep a field, with their surviving fields. *)
Definition emitted_enum (skip_complex : bool) (group : list string) (i : info) : Prop :=
  ∃ text typedef fields cname,
    text ∈ group
    ∧ Py.splitlines (enum_orig text) = typedef :: "{" :: fields ++ [cname]
    ∧ removed skip_complex (enum_name cname) = false
    ∧ kept_fields skip_complex fields ≠ []
    ∧ i = {| orig_text := Some (enum_orig text);
             text := enum_text (kept_fields skip_complex fields) cname |}.

(** The output of steps 1 to 5. *)
Definition generate_stdout (w : world) : list string :=
  [ "Step 1: copy " +:+ arg_graphblas w +:+ " to " +:+ graphblas_h w;
    "Step 2: run preprocessor to create " +:+ processed_h w;
    "Step 3: parse header file to create " +:+ final_h w;
    "Step 4: parse header file to create " +:+ final_no_complex_h w;
    "Step 5: create " +:+ source_c w ].

(** What is printed after the success message. *)
Definition skipped_stdout (w : world) (groups : group_info) : list string :=
  if arg_show_skipped w then
    [ ""; "Showing lines from " +:+ processed_h w
            +:+ " that were skipped when creating " +:+ final_h w +:+ ":";
      String.concat "" (replicate 80 "-") ]
    ++ Py.sorted sort_key (rv_not_seen groups)
  else [].

(** The output of step 6 up to the check of the unknown defines. *)
Definition check_stdout (w : world) (text : string) : list string :=
  ["Step 6: check #define definitions"]
  ++ (if bool_decide (extra_defines (find_defines text) ≠ ∅)
      then [warning_message w (extra_defines (find_defines text))] else []).

(** The texts on which complex types are looked for when they are skipped. *)
Definition line_infos (rv : group_info) : list info :=
  rv_GrB_const rv ++ rv_GxB_const rv ++ rv_GrB_objects rv ++ rv_GxB_objects rv
  ++ rv_GrB_typedef rv ++ rv_GxB_typedef rv ++ rv_GxB_typedef_funcs rv.

Definition enum_infos (rv : group_info) : list info :=
  rv_GrB_typedef_enums rv ++ rv_GxB_typedef_enums rv.

Definition method_infos (rv : group_info) : list func_info :=
  rv_GrB_methods rv ++ rv_GxB_methods rv ++ rv_GB_methods rv.

(** The text of a header generated from a file, and that of the source:
    [parse_header] followed by [create_header_text], next to
    [create_source_text], each joined as [main] writes it. *)
Definition generated_texts (w : world) (file : string) (skip_complex : bool)
    (char_defines defines : option (gset string)) : io (string * string) :=
  groups ← parse_header w file skip_complex;
  mret (Py.join nl (create_header_text (order w) groups char_defines defines),
        Py.join nl (create_source_text (order w) char_defines)).

(** ** Sample inputs *)
(** The text pycparser generates for an enum typedef. *)
Definition enum_typedef (fields : list string) (name : string) : string :=
  Py.join nl (["typedef enum "; "{"] ++ fields ++ ["} " +:+ name]).

Definition info_enum : string :=
  enum_typedef ["  GrB_SUCCESS = 0,"; "  GrB_NO_VALUE = 1"] "GrB_Info".
Definition desc_enum : string :=
  enum_typedef ["  GxB_DEFAULT = 0,"; "  GrB_REPLACE = 1,"; "  GrB_SCMP = 2"] "GrB_Desc_Value".
Definition format_enum : string :=
  enum_typedef ["  GxB_BY_ROW = 0,"; "  GxB_BY_COL = 1"] "GxB_Format_Value".

Definition init_decl : decl_node :=
  {| decl_name := "GrB_init"; decl_is_func := true; decl_storage := ["extern"];
     decl_return := "GrB_Info";
     decl_text := "extern GrB_Info GrB_init(GrB_Mode mode)" |}.
Definition matrix_new_decl : decl_node :=
  {| decl_name := "GrB_Matrix_new"; decl_is_func := true; decl_storage := ["extern"];
     decl_return := "GrB_Info";
     decl_text := "extern GrB_Info GrB_Matrix_new(GrB_Matrix *A, GrB_Type type, GrB_Index nrows, GrB_Index ncols)" |}.
Definition resize_decl : decl_node :=
  {| decl_name := "GxB_Matrix_resize"; decl_is_func := true; decl_storage := ["extern"];
     decl_return := "GrB_Info";
     decl_text := "extern GrB_Info GxB_Matrix_resize(GrB_Matrix C, GrB_Index nrows_new, GrB_Index ncols_new)" |}.
Definition int8_decl : decl_node :=
  {| decl_name := "GrB_INT8"; decl_is_func := false; decl_storage := ["extern"];
     decl_return := ""; decl_text := "extern GrB_Type GrB_INT8" |}.

(** A small header with one declaration of each kind. *)
Definition sample_ast : ast :=
  {| unit_text := unlines [
       "typedef unsigned long int uint64_t;";
       "typedef uint64_t GrB_Index;";
       "typedef float _Complex GxB_FC32_t;";
       info_enum +:+ ";";
       desc_enum +:+ ";";
       format_enum +:+ ";";
       "extern GrB_Type GrB_INT8;";
       "extern GrB_Type GrB_INT16;";
       "extern GrB_Type GxB_FC32;";
       "extern const uint64_t *GrB_ALL;";
       "extern GrB_Info GrB_init(GrB_Mode mode);";
       "extern GrB_Info GrB_Matrix_new(GrB_Matrix *A, GrB_Type type, GrB_Index nrows, GrB_Index ncols);";
       "extern GrB_Info GxB_Matrix_resize(GrB_Matrix C, GrB_Index nrows_new, GrB_Index ncols_new);";
       "typedef void (*GxB_unary_function)(void *, const void *);" ];
     typedef_nodes := [
       TypedefNode "typedef unsigned long int uint64_t" false;
       TypedefNode "typedef uint64_t GrB_Index" false;
       TypedefNode "typedef float _Complex GxB_FC32_t" false;
       TypedefNode info_enum true;
       TypedefNode desc_enum true;
       TypedefNode format_enum true;
       TypedefNode "typedef void (*GxB_unary_function)(void *, const void *)" false ];
     decl_nodes := [int8_decl; init_decl; matrix_new_decl; resize_decl] |}.

Definition empty_groups : groups := Groups [] [] [] [] [] [] [] [] [] [] [] [] [].
Definition empty_group_info : group_info := GroupInfo [] [] [] [] [] [] [] [] [] [] [] [] [].

Definition sample_groups : groups :=
  Eval vm_compute in
    match get_groups order_elements sample_ast with Ok g => g | Raise _ => empty_groups end.

(** A header whose only enum has one line per field. *)
Definition enum_only_ast : ast :=
  {| unit_text := unlines [info_enum +:+ ";"];
     typedef_nodes := [TypedefNode info_enum true];
     decl_nodes := [] |}.

Definition enum_only_groups : groups :=
  Eval vm_compute in
    match get_groups order_elements enum_only_ast with Ok g => g | Raise _ => empty_groups end.

(** The reading of the claim on [get_groups] word for word: the thirteen
    groups are pairwise disjoint and every line of the text is a member of
    one of them. *)
Definition classifies_every_line (a : ast) (g : groups) : Prop :=
  (∀ i j k1 l1 k2 l2,
     all_groups g !! i = Some (k1, l1) → all_groups g !! j = Some (k2, l2) →
     i ≠ j → l1 ## l2)
  ∧ ∀ x, x ∈ Py.splitlines (unit_text a) → ∃ k l, (k, l) ∈ all_groups g ∧ x ∈ l.

(** A header whose only enum loses its only field. *)
Definition scmp_enum : string := enum_typedef ["  GrB_SCMP = 2"] "GrB_Desc_Value".

Definition scmp_ast : ast :=
  {| unit_text := unlines [scmp_enum +:+ ";"];
     typedef_nodes := [TypedefNode scmp_enum true];
     decl_nodes := [] |}.

Definition scmp_groups : groups :=
  Eval vm_compute in
    match get_groups order_elements scmp_ast with Ok g => g | Raise _ => empty_groups end.

(** The reading of the claim on [get_group_info] for the enums: an enum of
    the input is emitted unless its name is deprecated or, when complex types
    are skipped, it refers to a complex type. *)
Definition emits_enums_not_dropped (skip_complex : bool) (group : list string)
    (out : list info) : Prop :=
  ∀ text typedef fields cname,
    text ∈ group →
    Py.splitlines (enum_orig text) = typedef :: "{" :: fields ++ [cname] →
    dropped skip_complex (enum_name cname) text = false →
    ∃ i, i ∈ out ∧ orig_text i = Some (enum_orig text).

(** A header whose enum has a field with a complex value. *)
Definition code_enum : string :=
  enum_typedef ["  GxB_FC64_CODE = 13,"; "  GxB_LAST_CODE = GxB_FC64_CODE"] "GxB_Type_Code".

Definition code_ast : ast :=
  {| unit_text := unlines [code_enum +:+ ";"];
     typedef_nodes := [TypedefNode code_enum true];
     decl_nodes := [] |}.

(** A run of the script: the header is at [/usr/include/GraphBLAS.h], the
    preprocessor writes [processed], and pycparser returns [a]. *)
Definition sample_world (a : ast) (ord : set_order) : world :=
  {| arg_graphblas := "/usr/include/GraphBLAS.h";
     arg_show_skipped := true;
     thisdir := "pkg";
     pycparser_dir := "/lib/pycparser";
     shell := λ _ fs, (0%Z, <["pkg/GraphBLAS-processed.h" := unit_text a]> fs);
     pycparser := λ _, Ok a;
     order := ord |}.

Definition sample_state (header : string) : state :=
  {| files := {[ "/usr/include/GraphBLAS.h" := header ]}; stdout := [] |}.

Definition processed_state (a : ast) : state :=
  {| files := {[ "pkg/GraphBLAS-processed.h" := unit_text a ]}; stdout := [] |}.

(** The reading of the claim on complex-skip mode word for word: no record
    has a text with [FC32] or [FC64]. *)
Definition no_complex_text (rv : group_info) : Prop :=
  Forall (λ i, has_complex (text i) = false) (line_infos rv ++ enum_infos rv)
  ∧ Forall (λ f, has_complex (func_text f) = false) (method_infos rv).

(** A header with two enum typedefs of the same name. *)
Definition mode_enum_a : string := enum_typedef ["  GrB_NONBLOCKING = 0"] "GrB_Mode".
Definition mode_enum_b : string := enum_typedef ["  GrB_BLOCKING = 1"] "GrB_Mode".

Definition tie_ast : ast :=
  {| unit_text := unlines [mode_enum_a +:+ ";"; mode_enum_b +:+ ";"];
     typedef_nodes := [TypedefNode mode_enum_a true; TypedefNode mode_enum_b true];
     decl_nodes := [] |}.

(** The header text of a result, empty when the run raised. *)
Definition header_of (r : state * result (string * string)) : string :=
  match r.2 with Ok (header, _) => header | Raise _ => "" end.

Definition unknown_header : string :=
  unlines ["#define GxB_STDC_VERSION 201112L"; "#define GxB_NEW_THING 1"].

Definition known_header : string :=
  unlines ["#ifndef GRAPHBLAS_H"; "#define GRAPHBLAS_H";
           "#define GxB_STDC_VERSION 201112L"; "#define GxB_CHUNK (7070)"].

(** ** Definitions used to state further properties *)

(** The lines of the first nine groups: the function, object, constant and
    typedef lines. *)
Definition declaration_lines (g : groups) : list string :=
  GxB_methods g ++ GrB_methods g ++ GB_methods g ++ GrB_objects g ++ GxB_objects g
  ++ GxB_const g ++ GrB_const g ++ GxB_typedef g ++ GrB_typedef g.

(** The names [handle_function_node] gives to the groups of functions. *)
Definition known_function_groups : list string :=
  ["matrix"; "vector"; "scalar"; "selectop"; "binary"; "descriptor"; "monoid";
   "semiring"; "type"; "unary"; "core"].

(** What skipping complex types does to the result of a loop body. *)
Definition skip_complex_of {B} (c : B → bool) (r : option B) : option B :=
  match r with Some y => if c y then None else Some y | None => None end.

(** The errors of the checks of [get_group_info]. *)
Definition checked_error (e : exn) : Prop :=
  e = AssertionError ∨ (∃ msg, e = ValueError msg) ∨ (∃ key, e = KeyError key).

(** The command of step 2 of [main]. *)
Definition preprocess_command (w : world) : string :=
  "gcc -nostdinc -E -I"
  +:+ path_join (path_join (pycparser_dir w) "utils") "fake_libc_include"
  +:+ " " +:+ graphblas_h w +:+ " "
  +:+ "| sed 's/ complex / _Complex /g' > " +:+ processed_h w.

(** What [parse_header] returns for a file of the given files. *)
Definition parse_files (w : world) (file : string) (skip_complex : bool)
    (fs : gmap string string) : result group_info :=
  match fs !! file with
  | Some content =>
      a ← pycparser w content;
      groups ← get_groups (order w) a;
      get_group_info skip_complex groups a
  | None => Raise (FileNotFoundError file)
  end.

(** The files after steps 3 to 5 of [main]. *)
Definition with_outputs (w : world) (rv rv_no_complex : group_info)
    (fs : gmap string string) : gmap string string :=
  <[source_c w := Py.join nl (create_source_text (order w) None)]>
    (<[final_no_complex_h w :=
         Py.join nl (create_header_text (order w) rv_no_complex None None)]>
       (<[final_h w := Py.join nl (create_header_text (order w) rv None None)]> fs)).

(** Every character of a string passes a test. *)
Fixpoint all_chars (p : ascii → bool) (s : string) : bool :=
  match s with
  | "" => true
  | String c t => p c && all_chars p t
  end.

(** An occurrence of [#define], white space, a name and a space character in
    a text. *)
Definition defines_name (text n : string) : Prop :=
  ∃ pre ws c post,
    text = pre +:+ "#define" +:+ ws +:+ n +:+ String c post
    ∧ ws ≠ "" ∧ all_chars Py.is_space ws = true ∧ Py.is_space c = true.

(** The first [k] characters of a string hold no [#]. *)
Fixpoint no_hash (k : nat) (s : string) : bool :=
  match k, s with
  | S k', String c t => negb (Ascii.eqb c "#") && no_hash k' t
  | _, _ => true
  end.

(** A header that declares a function whose name has no known prefix. *)
Definition unprefixed_ast : ast :=
  {| unit_text := unlines ["extern GrB_Info foo(void);"];
     typedef_nodes := [];
     decl_nodes := [ {| decl_name := "foo"; decl_is_func := true;
                        decl_storage := ["extern"]; decl_return := "GrB_Info";
                        decl_text := "extern GrB_Info foo(void)" |} ] |}.

(** A header with a function typedef that names only [GrB]. *)
Definition function_typedef_ast : ast :=
  {| unit_text := unlines ["typedef void (*GrB_unary_function)(void *, const void *);"];
     typedef_nodes :=
       [TypedefNode "typedef void (*GrB_unary_function)(void *, const void *)" false];
     decl_nodes := [] |}.

(** A header with a function the naming scheme has no group for. *)
Definition unknown_group_ast : ast :=
  {| unit_text := unlines ["extern GrB_Info GrB_Context_engage(int x);"];
     typedef_nodes := [];
     decl_nodes := [ {| decl_name := "GrB_Context_engage"; decl_is_func := true;
                        decl_storage := ["extern"]; decl_return := "GrB_Info";
                        decl_text := "extern GrB_Info GrB_Context_engage(int x)" |} ] |}.

Definition unknown_group_groups : groups :=
  Eval vm_compute in
    match get_groups order_elements unknown_group_ast with
    | Ok g => g
    | Raise _ => empty_groups
    end.

(** A run whose preprocessor fails. *)
Definition failing_world : world :=
  {| arg_graphblas := "/usr/include/GraphBLAS.h";
     arg_show_skipped := false;
     thisdir := "pkg";
     pycparser_dir := "/lib/pycparser";
     shell := λ _ fs, (1%Z, fs);
     pycparser := λ _, Raise ParseError;
     order := order_elements |}.

(** A run given its own copy of the header as input. *)
Definition copy_world : world :=
  {| arg_graphblas := "pkg/GraphBLAS-orig.h";
     arg_show_skipped := false;
     thisdir := "pkg";
     pycparser_dir := "/lib/pycparser";
     shell := λ _ fs, (0%Z, fs);
     pycparser := λ _, Raise ParseError;
     order := order_elements |}.

(** A run whose parser rejects the preprocessed header. *)
Definition unparsable_world : world :=
  {| arg_graphblas := "/usr/include/GraphBLAS.h";
     arg_show_skipped := false;
     thisdir := "pkg";
     pycparser_dir := "/lib/pycparser";
     shell := λ _ fs, (0%Z, <["pkg/GraphBLAS-processed.h" := "int"]> fs);
     pycparser := λ _, Raise ParseError;
     order := order_elements |}.

(** ** Definitions used to state what the handlers return *)

(** A word that begins with the star of a pointer declarator. *)
Definition starts_with_star (s : string) : bool :=
  match s with
  | String c _ => Ascii.eqb c "*"
  | "" => false
  end.

Fixpoint drop_stars (s : string) : string :=
  match s with
  | String c t => if Ascii.eqb c "*" then drop_stars t else s
  | "" => ""
  end.

(** The name a line declares: its last word without the final semicolon and
    without the stars of a pointer declarator; for a constant, as
    [handle_constants] reads it, with [(void)] written [()]. *)
Definition declared_name (line : string) : string := drop_stars (line_name line).

Definition declared_constant_name (line : string) : string :=
  drop_stars (constant_name line).

(** The line declares its name through a pointer declarator. *)
Definition pointer_declarator (line : string) : bool :=
  starts_with_star (List.last (Py.split " " line) "").

(** What [get_group_info] does with a group of constant, object or typedef
    lines: a record is a line of the group that passes the test on complex
    types; a line that passes it and declares a name that is not deprecated
    has a record; a line that declares a deprecated name without a pointer
    declarator has none. *)
Definition emits_lines (skip_complex : bool) (declared : string → string)
    (group : list string) (out : list info) : Prop :=
  (∀ i, i ∈ out →
     ∃ line, line ∈ group ∧ i = {| orig_text := None; text := line |}
             ∧ (skip_complex = true → has_complex line = false))
  ∧ (∀ line, line ∈ group → declared line ∉ DEPRECATED →
       (skip_complex = true → has_complex line = false) →
       {| orig_text := None; text := line |} ∈ out)
  ∧ (∀ line, line ∈ group → pointer_declarator line = false →
       declared line ∈ DEPRECATED →
       {| orig_text := None; text := line |} ∉ out).

(** What it does with the function typedefs: a record is a line of the group
    that passes the test on complex types, and a line that passes it and in
    which no deprecated name occurs has a record. *)
Definition emits_function_typedefs (skip_complex : bool)
    (group : list string) (out : list info) : Prop :=
  (∀ i, i ∈ out →
     ∃ line, line ∈ group ∧ i = {| orig_text := None; text := line |}
             ∧ (skip_complex = true → has_complex line = false))
  ∧ (∀ line, line ∈ group →
       (∀ d, d ∈ DEPRECATED → Py.str_in d line = false) →
       (skip_complex = true → has_complex line = false) →
       {| orig_text := None; text := line |} ∈ out).

(** A string without a line boundary. *)
Definition no_linebreak (s : string) : Prop :=
  all_chars (λ c, negb (Py.is_linebreak c)) s = true.

(** ** Checks of the embedding on small inputs *)

Example splitlines_ex :
  Py.splitlines ("a" +:+ String "010" ("" +:+ String "010" "b" +:+ String "013" (String "010" "")))
  = ["a"; ""; "b"].
Proof. reflexivity. Qed.

Example split_ex : Py.split " " "extern  GrB x;" = ["extern"; ""; "GrB"; "x;"].
Proof. reflexivity. Qed.

Example sort_key_ex : sort_key "GrB_INT8 and UINT8" = "GrB_INT08 and UINT08".
Proof. reflexivity. Qed.

Example replace_ex : Py.replace "(void)" "()" "f(void);" = "f();".
Proof. reflexivity. Qed.

Example sorted_ex :
  Py.sorted sort_key ["GrB_INT8"; "GrB_INT16"; "GrB_INT64"; "GrB_INT32"]
  = ["GrB_INT8"; "GrB_INT16"; "GrB_INT32"; "GrB_INT64"].
Proof. reflexivity. Qed.

(** ** Lemmas and theorems *)

Lemma str_app_cons c s t : String c s +:+ t = String c (s +:+ t).
Proof. reflexivity. Qed.

Lemma str_app_nil_l t : "" +:+ t = t.
Proof. reflexivity. Qed.

Lemma str_app_nil_r s : s +:+ "" = s.
Proof. induction s as [|c s IH]; [done|]. by rewrite str_app_cons, IH. Qed.

Lemma prefix_app s t : String.prefix s (s +:+ t) = true.
Proof.
  induction s as [|c s IH]; [by destruct t|].
  rewrite str_app_cons. simpl. destruct (ascii_dec c c); [done|congruence].
Qed.

Lemma join_cons_prefix sep x l : Py.startswith x (Py.join sep (x :: l)) = true.
Proof.
  unfold Py.startswith, Py.join. simpl. destruct l.
  - rewrite <- (str_app_nil_r x) at 2. apply prefix_app.
  - apply prefix_app.
Qed.

Lemma insert_by_perm {A} (key : A → string) x l : Py.insert_by key x l ≡ₚ x :: l.
Proof.
  induction l as [|y l IH]; simpl; [done|].
  destruct (String.ltb (key y) (key x)); [|done].
  rewrite IH. apply Permutation_swap.
Qed.

Lemma sorted_perm {A} (key : A → string) l : Py.sorted key l ≡ₚ l.
Proof.
  induction l as [|x l IH]; simpl; [done|].
  rewrite insert_by_perm. by rewrite IH.
Qed.

Lemma elem_of_sorted {A} (key : A → string) l x : x ∈ Py.sorted key l ↔ x ∈ l.
Proof. by rewrite sorted_perm. Qed.

Lemma elem_of_iter ord X x : x ∈ iter ord X ↔ x ∈ X.
Proof. rewrite (iter_perm ord X). apply elem_of_elements. Qed.

Lemma elem_of_sorted_set ord key X x : x ∈ sorted_set ord key X ↔ x ∈ X.
Proof. unfold sorted_set. by rewrite elem_of_sorted, elem_of_iter. Qed.

Lemma prefix_char c c' t :
  String.prefix (String c "") (String c' t) = Ascii.eqb c' c.
Proof.
  change (String.prefix (String c "") (String c' t))
    with (if ascii_dec c c' then String.prefix "" t else false).
  destruct (ascii_dec c c') as [<-|Hne].
  - rewrite Ascii.eqb_refl. by destruct t.
  - symmetry. apply Ascii.eqb_neq. congruence.
Qed.

Lemma sort_key_pad8 s : sort_key s = pad8 s.
Proof.
  unfold sort_key, Py.replace.
  induction s as [|c t IH]; [done|].
  change (Py.replace_from "8" "08" 0 (String c t))
    with (if String.prefix "8" (String c t)
          then "08" +:+ Py.replace_from "8" "08" 0 t
          else String c (Py.replace_from "8" "08" 0 t)).
  rewrite prefix_char, IH. simpl. by destruct (Ascii.eqb c "8").
Qed.

Lemma pad8_app p s : pad8 (p +:+ s) = pad8 p +:+ pad8 s.
Proof.
  induction p as [|c p IH]; [done|].
  rewrite str_app_cons. simpl. rewrite IH. by destruct (Ascii.eqb c "8").
Qed.

Lemma compare_app_l p x y : String.compare (p +:+ x) (p +:+ y) = String.compare x y.
Proof.
  induction p as [|c p IH]; [done|].
  rewrite !str_app_cons. simpl.
  assert (Ascii.compare c c = Eq) as ->; [|done].
  unfold Ascii.compare. apply N.compare_refl.
Qed.

Lemma ltb_not_le a b : String.ltb a b = true → ¬ String.le b a.
Proof.
  unfold String.ltb, String.le, String.leb. rewrite (String.compare_antisym a b).
  destruct (String.compare b a); simpl; try done. intros _ [].
Qed.

Lemma not_ltb_le a b : String.ltb a b = false → String.le b a.
Proof.
  unfold String.ltb, String.le, String.leb. rewrite (String.compare_antisym a b).
  destruct (String.compare b a); simpl; done.
Qed.

Lemma ltb_le a b : String.ltb a b = true → String.le a b.
Proof.
  unfold String.ltb, String.le, String.leb.
  destruct (String.compare a b); simpl; done.
Qed.

Lemma insert_by_sorted {A} (key : A → string) x l :
  StronglySorted (key_le key) l → StronglySorted (key_le key) (Py.insert_by key x l).
Proof.
  induction 1 as [|y l Hl IH Hy]; simpl.
  - repeat constructor.
  - destruct (String.ltb (key y) (key x)) eqn:Hlt.
    + constructor; [done|].
      rewrite insert_by_perm. constructor; [|done]. by apply ltb_le.
    + apply not_ltb_le in Hlt. constructor; [by constructor|].
      constructor; [done|].
      eapply Forall_impl; [exact Hy|]. intros z Hz. unfold key_le in *.
      by etrans.
Qed.

Lemma sorted_StronglySorted {A} (key : A → string) l :
  StronglySorted (key_le key) (Py.sorted key l).
Proof.
  induction l as [|x l IH]; simpl; [constructor|]. by apply insert_by_sorted.
Qed.

Lemma StronglySorted_lookup_lt {A} (R : relation A) l i j x y :
  StronglySorted R l → l !! i = Some x → l !! j = Some y → (i < j)%nat → R x y.
Proof.
  intros Hs. revert i j. induction Hs as [|z l Hl IH Hz]; intros i j Hi Hj Hlt; [done|].
  destruct i as [|i], j as [|j]; try lia; simpl in *.
  - simplify_eq. rewrite Forall_forall in Hz. apply Hz. by eapply list_elem_of_lookup_2.
  - eapply IH; eauto. lia.
Qed.

(** Claim C8.  [sort_key] writes [08] for every [8]; the key of a name with
    [8] is then below the key of the same name with [16] in its place, while
    the names themselves compare the other way, and a list sorted with
    [sort_key] has the name with [8] before the name with [16]. *)
Theorem sort_key_orders_8_before_16 :
  (∀ s, sort_key s = pad8 s)
  ∧ ∀ p s : string,
      String.ltb (sort_key (p +:+ "8" +:+ s)) (sort_key (p +:+ "16" +:+ s)) = true
      ∧ String.ltb (p +:+ "16" +:+ s) (p +:+ "8" +:+ s) = true
      ∧ ∀ (group : list string) (i j : nat),
          Py.sorted sort_key group !! i = Some (p +:+ "8" +:+ s) →
          Py.sorted sort_key group !! j = Some (p +:+ "16" +:+ s) →
          (i < j)%nat.
Proof.
  split; [apply sort_key_pad8|]. intros p s.
  assert (Hkey : String.ltb (sort_key (p +:+ "8" +:+ s)) (sort_key (p +:+ "16" +:+ s)) = true).
  { rewrite !sort_key_pad8, !pad8_app. unfold String.ltb.
    by rewrite compare_app_l. }
  split; [done|]. split.
  { unfold String.ltb. by rewrite compare_app_l. }
  intros group i j Hi Hj.
  destruct (decide (i < j)%nat) as [|Hge]; [done|]. exfalso.
  apply ltb_not_le in Hkey. apply Hkey.
  destruct (decide (i = j)) as [->|Hne].
  - rewrite Hi in Hj. by simplify_eq.
  - apply (StronglySorted_lookup_lt (key_le sort_key) _ j i _ _
             (sorted_StronglySorted sort_key group) Hj Hi). lia.
Qed.

Lemma io_bind_eq {A B} (m : io A) (k : A → io B) s :
  (m ≫= k) s =
  match m s with
  | (s', Ok a) => k a s'
  | (s', Raise e) => (s', Raise e)
  end.
Proof. reflexivity. Qed.

Lemma bind_print {B} l (k : unit → io B) s :
  (print l ≫= k) s = k tt {| files := files s; stdout := stdout s ++ [l] |}.
Proof. reflexivity. Qed.

Lemma bind_path_exists {B} p (k : bool → io B) s :
  (path_exists p ≫= k) s = k (bool_decide (is_Some (files s !! p))) s.
Proof. reflexivity. Qed.

Lemma bind_raise {A B} e (k : A → io B) s : (raise e ≫= k) s = (s, Raise e).
Proof. reflexivity. Qed.

Lemma bind_mret {A B} (a : A) (k : A → io B) s : (mret a ≫= k) s = k a s.
Proof. reflexivity. Qed.

(** Claim C7.  When the input header does not exist, [main] raises
    [FileNotFoundError] after printing the first message: no file is copied
    or written. *)
Theorem main_missing_input w s :
  files s !! arg_graphblas w = None →
  main w s =
    ({| files := files s;
        stdout := stdout s ++ ["Step 1: copy " +:+ arg_graphblas w +:+ " to " +:+ graphblas_h w] |},
     Raise (FileNotFoundError ("File not found: " +:+ arg_graphblas w))).
Proof.
  intros Hnone. unfold main, main_generate.
  rewrite io_bind_eq, bind_print, bind_path_exists.
  simpl files.
  rewrite (bool_decide_eq_false_2 (is_Some (files s !! arg_graphblas w)))
    by (rewrite Hnone; by intros [? ?]).
  simpl negb. cbv iota. by rewrite bind_raise.
Qed.

Lemma assert_bind_ok {A} b (k : unit → result A) r :
  (assert b ≫= k) = Ok r → b = true ∧ k tt = Ok r.
Proof. destruct b; [done|]. discriminate. Qed.

Lemma let_elim {A B} (v : A) (f : A → B) (r : B) (P : Prop) :
  (∀ x, x = v → f x = r → P) → (let x := v in f x) = r → P.
Proof. intros H Heq. exact (H v eq_refl Heq). Qed.

(** Name the next [let] of a computation, or split off its next [assert]. *)
Ltac intro_let :=
  lazymatch goal with
  | |- (let x := ?v in @?f x) = ?r → ?P =>
      let y := fresh x in
      let E := fresh "E" y in
      refine (let_elim v f r P _); intros y E; cbv beta
  | |- (assert ?b ≫= ?k) = _ → _ =>
      let H := fresh "Hassert" in
      let H' := fresh "H" in
      intros H; apply assert_bind_ok in H as [H H']; revert H'; cbv beta
  end.

Lemma seen_chain_seen seen rest :
  seen_chain seen rest → ∀ vals, vals ∈ rest → vals ## seen.
Proof.
  induction 1 as [|seen vals seen' rest Hd Hs _ IH]; intros v Hv.
  - by apply elem_of_nil in Hv.
  - apply elem_of_cons in Hv as [->|Hv]; [done|].
    specialize (IH v Hv). set_solver.
Qed.

Lemma seen_chain_disjoint seen rest :
  seen_chain seen rest →
  ∀ i j vi vj, rest !! i = Some vi → rest !! j = Some vj → i ≠ j → vi ## vj.
Proof.
  induction 1 as [|seen vals seen' rest Hd Hs Hc IH]; intros i j vi vj Hi Hj Hne.
  - done.
  - destruct i as [|i], j as [|j]; simpl in *; simplify_eq.
    + pose proof (seen_chain_seen _ _ Hc vj (list_elem_of_lookup_2 _ _ _ Hj)).
      set_solver.
    + pose proof (seen_chain_seen _ _ Hc vi (list_elem_of_lookup_2 _ _ _ Hi)).
      set_solver.
    + eapply IH; eauto.
Qed.

Lemma elem_of_set_of p l x : x ∈ set_of p l ↔ x ∈ l ∧ p x = true.
Proof.
  unfold set_of. rewrite elem_of_list_to_set, list_elem_of_In, filter_In.
  by rewrite list_elem_of_In.
Qed.

Lemma elem_of_update_splitlines ord seen vals x :
  x ∈ update_splitlines ord seen vals ↔
  x ∈ seen ∨ ∃ val, val ∈ vals ∧ x ∈ Py.splitlines val.
Proof.
  unfold update_splitlines.
  setoid_rewrite <- (elem_of_iter ord vals).
  generalize (iter ord vals) as l. intros l. revert seen.
  induction l as [|v l IH]; intros seen; simpl.
  - split; [auto|]. intros [?|(?&Hv&_)]; [done|]. by apply elem_of_nil in Hv.
  - rewrite IH, elem_of_union, elem_of_list_to_set. split.
    + intros [[?|?]|(val&?&?)]; eauto.
      * right. exists v. split; [left|done].
      * right. exists val. split; [by right|done].
    + intros [?|(val&Hv&?)]; [auto|].
      apply elem_of_cons in Hv as [->|?]; eauto.
Qed.

Lemma step_disjoint (X seen : gset string) : X ∖ seen ## seen.
Proof. set_solver. Qed.

Lemma elem_of_line_groups_sorted ord (G : list (string * gset string)) i k l :
  (prod_map id (sorted_set ord sort_key) <$> G) !! i = Some (k, l) →
  ∃ v, G !! i = Some (k, v) ∧ l = sorted_set ord sort_key v.
Proof.
  rewrite list_lookup_fmap. destruct (G !! i) as [[k' v]|]; [|done].
  intros [= <- <-]. eauto.
Qed.

Lemma get_groups_partition ord a g :
  get_groups ord a = Ok g →
  let lines := Py.splitlines (unit_text a) in
  (∀ i j k1 l1 k2 l2,
     line_groups g !! i = Some (k1, l1) → line_groups g !! j = Some (k2, l2) →
     i ≠ j → l1 ## l2)
  ∧ (∀ x, x ∈ lines →
       (∃ k l, (k, l) ∈ line_groups g ∧ x ∈ l) ∨ enum_line g x)
  ∧ (∀ x, x ∈ not_seen g ↔
       x ∈ lines ∧ ¬ enum_line g x
       ∧ ∀ k l, (k, l) ∈ line_groups g → k ≠ "not seen" → x ∉ l)
  ∧ (∀ x, x ∈ not_seen g → Forall (λ test, test x = false) bucket_tests).
Proof.
  cbv delta [get_groups]; cbv beta.
  do 62 try intro_let.
  rename not_seen0 into ns, Enot_seen0 into Ens.
  intros [= <-]. intros lines'. subst lines'. rewrite <- Elines.
  set (NS := list_to_set lines ∖ seen11 : gset string) in *.
  set (G := [ ("GxB methods", vals); ("GrB methods", vals0); ("GB methods", vals1);
              ("GrB objects", vals2); ("GxB objects", vals3); ("GxB const", vals4);
              ("GrB const", vals5); ("GxB typedef", vals6); ("GrB typedef", vals7);
              ("GxB typedef funcs", vals10); ("not seen", NS) ]).
  assert (HG : line_groups
      {| GxB_methods := gxb_methods; GrB_methods := grb_methods;
         GB_methods := gb_methods; GrB_objects := grb_objects;
         GxB_objects := gxb_objects; GxB_const := gxb_const;
         GrB_const := grb_const; GxB_typedef := gxb_typedef;
         GrB_typedef := grb_typedef; GrB_typedef_enums := grb_typedef_enums;
         GxB_typedef_enums := gxb_typedef_enums;
         GxB_typedef_funcs := gxb_typedef_funcs; not_seen := ns |}
      = prod_map id (sorted_set ord sort_key) <$> G).
  { unfold line_groups, G.
    cbn [GxB_methods GrB_methods GB_methods GrB_objects GxB_objects GxB_const
         GrB_const GxB_typedef GrB_typedef GxB_typedef_funcs not_seen fmap list_fmap prod_map fst snd id].
    rewrite Egxb_methods, Egrb_methods, Egb_methods, Egrb_objects, Egxb_objects,
      Egxb_const, Egrb_const, Egxb_typedef, Egrb_typedef, Egxb_typedef_funcs, Ens.
    reflexivity. }
  assert (Hs9 : ∀ x, x ∈ seen9 ↔ x ∈ seen8 ∨ ∃ val, val ∈ vals8 ∧ x ∈ Py.splitlines val).
  { intros x. rewrite Eseen9. apply elem_of_update_splitlines. }
  assert (Hs10 : ∀ x, x ∈ seen10 ↔ x ∈ seen9 ∨ ∃ val, val ∈ vals9 ∧ x ∈ Py.splitlines val).
  { intros x. rewrite Eseen10. apply elem_of_update_splitlines. }
  assert (Hchain : seen_chain seen (snd <$> G)).
  { unfold G. simpl.
    eapply (seen_chain_cons _ _ seen0);
      [rewrite Evals; apply step_disjoint | by rewrite Eseen0 |].
    eapply (seen_chain_cons _ _ seen1);
      [rewrite Evals0; apply step_disjoint | by rewrite Eseen1 |].
    eapply (seen_chain_cons _ _ seen2);
      [rewrite Evals1; apply step_disjoint | by rewrite Eseen2 |].
    eapply (seen_chain_cons _ _ seen3);
      [rewrite Evals2; apply step_disjoint | by rewrite Eseen3 |].
    eapply (seen_chain_cons _ _ seen4);
      [rewrite Evals3; apply step_disjoint | by rewrite Eseen4 |].
    eapply (seen_chain_cons _ _ seen5);
      [rewrite Evals4; apply step_disjoint | by rewrite Eseen5 |].
    eapply (seen_chain_cons _ _ seen6);
      [rewrite Evals5; apply step_disjoint | by rewrite Eseen6 |].
    eapply (seen_chain_cons _ _ seen7);
      [rewrite Evals6; apply step_disjoint | by rewrite Eseen7 |].
    eapply (seen_chain_cons _ _ seen10);
      [rewrite Evals7; apply step_disjoint | |].
    { rewrite <- Eseen8. intros x Hx. apply Hs10. left. apply Hs9. by left. }
    eapply (seen_chain_cons _ _ seen11);
      [rewrite Evals10; apply step_disjoint | by rewrite Eseen11 |].
    eapply (seen_chain_cons _ _ (seen11 ∪ NS)); [apply step_disjoint | done |].
    constructor. }
  split.
  { rewrite HG. intros i j k1 l1 k2 l2 Hi Hj Hne.
    apply elem_of_line_groups_sorted in Hi as (vi & Hi & ->).
    apply elem_of_line_groups_sorted in Hj as (vj & Hj & ->).
    intros x. rewrite !elem_of_sorted_set.
    apply (seen_chain_disjoint _ _ Hchain i j).
    - by rewrite list_lookup_fmap, Hi.
    - by rewrite list_lookup_fmap, Hj.
    - done. }
  assert (M1 : ∀ x, x ∈ seen0 → x ∈ seen1)
    by (intros x Hx; rewrite Eseen1; apply elem_of_union; by left).
  assert (M2 : ∀ x, x ∈ seen1 → x ∈ seen2)
    by (intros x Hx; rewrite Eseen2; apply elem_of_union; by left).
  assert (M3 : ∀ x, x ∈ seen2 → x ∈ seen3)
    by (intros x Hx; rewrite Eseen3; apply elem_of_union; by left).
  assert (M4 : ∀ x, x ∈ seen3 → x ∈ seen4)
    by (intros x Hx; rewrite Eseen4; apply elem_of_union; by left).
  assert (M5 : ∀ x, x ∈ seen4 → x ∈ seen5)
    by (intros x Hx; rewrite Eseen5; apply elem_of_union; by left).
  assert (M6 : ∀ x, x ∈ seen5 → x ∈ seen6)
    by (intros x Hx; rewrite Eseen6; apply elem_of_union; by left).
  assert (M7 : ∀ x, x ∈ seen6 → x ∈ seen7)
    by (intros x Hx; rewrite Eseen7; apply elem_of_union; by left).
  assert (M8 : ∀ x, x ∈ seen7 → x ∈ seen8)
    by (intros x Hx; rewrite Eseen8; apply elem_of_union; by left).
  assert (M11 : ∀ x, x ∈ seen10 → x ∈ seen11)
    by (intros x Hx; rewrite Eseen11; apply elem_of_union; by left).
  assert (M9 : ∀ x, x ∈ seen8 → x ∈ seen9) by (intros x Hx; apply Hs9; by left).
  assert (M10 : ∀ x, x ∈ seen9 → x ∈ seen10) by (intros x Hx; apply Hs10; by left).
  assert (Hv : ∀ (p : string → bool) (seen' seen'' vals' : gset string) x,
             vals' = set_of p lines ∖ seen' → seen'' = seen' ∪ vals' →
             x ∈ lines → p x = true → x ∈ seen'').
  { intros p s' s'' v' x -> -> Hx Hp. rewrite elem_of_union, elem_of_difference.
    destruct (decide (x ∈ s')); [by left|right]. split; [|done].
    by apply elem_of_set_of. }
  assert (Hseen : ∀ x, x ∈ seen11 ↔
            (x ∈ vals ∨ x ∈ vals0 ∨ x ∈ vals1 ∨ x ∈ vals2 ∨ x ∈ vals3 ∨ x ∈ vals4
             ∨ x ∈ vals5 ∨ x ∈ vals6 ∨ x ∈ vals7 ∨ x ∈ vals10)
            ∨ ∃ val, (val ∈ vals8 ∨ val ∈ vals9) ∧ x ∈ Py.splitlines val).
  { intros x. rewrite Eseen11, elem_of_union, Hs10, Hs9, Eseen8, elem_of_union,
      Eseen7, elem_of_union, Eseen6, elem_of_union, Eseen5, elem_of_union,
      Eseen4, elem_of_union, Eseen3, elem_of_union, Eseen2, elem_of_union,
      Eseen1, elem_of_union, Eseen0, elem_of_union, Eseen, elem_of_empty.
    clear. naive_solver. }
  assert (Henum : ∀ x,
    enum_line {| GxB_methods := gxb_methods; GrB_methods := grb_methods;
         GB_methods := gb_methods; GrB_objects := grb_objects;
         GxB_objects := gxb_objects; GxB_const := gxb_const;
         GrB_const := grb_const; GxB_typedef := gxb_typedef;
         GrB_typedef := grb_typedef; GrB_typedef_enums := grb_typedef_enums;
         GxB_typedef_enums := gxb_typedef_enums;
         GxB_typedef_funcs := gxb_typedef_funcs; not_seen := ns |} x
    ↔ ∃ val, (val ∈ vals8 ∨ val ∈ vals9) ∧ x ∈ Py.splitlines val).
  { intros x. unfold enum_line. simpl.
    rewrite Egrb_typedef_enums, Egxb_typedef_enums.
    by setoid_rewrite elem_of_sorted_set. }
  assert (Hns : ∀ x, x ∈ ns ↔ x ∈ lines ∧ x ∉ seen11).
  { intros x. rewrite Ens, elem_of_sorted_set. unfold NS.
    by rewrite elem_of_difference, elem_of_list_to_set. }
  assert (Hin : ∀ x i k v, G !! i = Some (k, v) → x ∈ v →
            ∃ k l, (k, l) ∈ prod_map id (sorted_set ord sort_key) <$> G ∧ x ∈ l).
  { intros x i k v HkG Hx. exists k, (sorted_set ord sort_key v). split.
    - apply list_elem_of_fmap. exists (k, v). split; [done|].
      by eapply list_elem_of_lookup_2.
    - by apply elem_of_sorted_set. }
  assert (HinG : ∀ k l, (k, l) ∈ prod_map id (sorted_set ord sort_key) <$> G →
            ∃ i v, G !! i = Some (k, v) ∧ l = sorted_set ord sort_key v).
  { intros k l Hkl. apply list_elem_of_fmap in Hkl as ([k' v] & [= -> ->] & HkG).
    apply list_elem_of_lookup_1 in HkG as [i Hi]. eauto. }
  rewrite HG. split; [|split].
  - intros x Hx. destruct (decide (x ∈ seen11)) as [Hs|Hs].
    + apply Hseen in Hs as [Hs|Hs]; [left|right; by apply Henum].
      destruct Hs as [Hs|[Hs|[Hs|[Hs|[Hs|[Hs|[Hs|[Hs|[Hs|Hs]]]]]]]]].
      * exact (Hin x 0%nat _ _ eq_refl Hs).
      * exact (Hin x 1%nat _ _ eq_refl Hs).
      * exact (Hin x 2%nat _ _ eq_refl Hs).
      * exact (Hin x 3%nat _ _ eq_refl Hs).
      * exact (Hin x 4%nat _ _ eq_refl Hs).
      * exact (Hin x 5%nat _ _ eq_refl Hs).
      * exact (Hin x 6%nat _ _ eq_refl Hs).
      * exact (Hin x 7%nat _ _ eq_refl Hs).
      * exact (Hin x 8%nat _ _ eq_refl Hs).
      * exact (Hin x 9%nat _ _ eq_refl Hs).
    + left. apply (Hin x 10%nat "not seen" NS eq_refl).
      unfold NS. by rewrite elem_of_difference, elem_of_list_to_set.
  - intros x. cbn [not_seen]. rewrite Hns, Henum, Hseen. split.
    + intros [Hx Hnot]. split; [done|]. split; [clear -Hnot; tauto|].
      intros k l Hkl Hk Hxl. apply HinG in Hkl as (i & v & HkG & ->).
      apply elem_of_sorted_set in Hxl. apply Hnot. left.
      do 10 (destruct i as [|i]; [injection HkG as <- <-; clear -Hxl; tauto|]).
      destruct i as [|i]; [|done]. by injection HkG as <- <-.
    + intros (Hx & Hne & Hng). split; [done|]. intros [Hs|Hs]; [|done].
      assert (Hng' : ∀ i k v, G !! i = Some (k, v) → k ≠ "not seen" → x ∉ v).
      { intros i k v Hi Hk Hxv.
        apply (Hng k (sorted_set ord sort_key v)); [|done|by apply elem_of_sorted_set].
        apply list_elem_of_fmap. exists (k, v). split; [done|].
        by eapply list_elem_of_lookup_2. }
      destruct Hs as [Hs|[Hs|[Hs|[Hs|[Hs|[Hs|[Hs|[Hs|[Hs|Hs]]]]]]]]].
      * exact (Hng' 0%nat _ _ eq_refl ltac:(done) Hs).
      * exact (Hng' 1%nat _ _ eq_refl ltac:(done) Hs).
      * exact (Hng' 2%nat _ _ eq_refl ltac:(done) Hs).
      * exact (Hng' 3%nat _ _ eq_refl ltac:(done) Hs).
      * exact (Hng' 4%nat _ _ eq_refl ltac:(done) Hs).
      * exact (Hng' 5%nat _ _ eq_refl ltac:(done) Hs).
      * exact (Hng' 6%nat _ _ eq_refl ltac:(done) Hs).
      * exact (Hng' 7%nat _ _ eq_refl ltac:(done) Hs).
      * exact (Hng' 8%nat _ _ eq_refl ltac:(done) Hs).
      * exact (Hng' 9%nat _ _ eq_refl ltac:(done) Hs).
  - intros x. cbn [not_seen]. rewrite Hns. intros [Hx Hnot].
    assert (Hb : ∀ (p : string → bool) (seen' seen'' vals' : gset string),
              vals' = set_of p lines ∖ seen' → seen'' = seen' ∪ vals' →
              (∀ y, y ∈ seen'' → y ∈ seen11) → p x = false).
    { intros p s' s'' v' Ev Es Hsub. apply not_true_iff_false. intros Hp.
      apply Hnot, Hsub. by apply (Hv p s' s'' v'). }
    unfold bucket_tests.
    repeat constructor.
    all: [> apply (Hb _ _ _ _ Evals Eseen0) | apply (Hb _ _ _ _ Evals0 Eseen1)
            | apply (Hb _ _ _ _ Evals1 Eseen2) | apply (Hb _ _ _ _ Evals2 Eseen3)
            | apply (Hb _ _ _ _ Evals3 Eseen4) | apply (Hb _ _ _ _ Evals4 Eseen5)
            | apply (Hb _ _ _ _ Evals5 Eseen6) | apply (Hb _ _ _ _ Evals6 Eseen7)
            | apply (Hb _ _ _ _ Evals7 Eseen8) | apply (Hb _ _ _ _ Evals10 Eseen11) ].
    all: intros y Hy;
      repeat first [ assumption | apply M11 | apply M10 | apply M9 | apply M8
                   | apply M7 | apply M6 | apply M5 | apply M4 | apply M3
                   | apply M2 | apply M1 ].
Qed.

(** Claim C1, as the code has it.  When [get_groups] accepts a header, the
    eleven groups of lines (every group but the two groups of enum typedefs)
    are pairwise disjoint; every line of the text is a member of exactly one
    of them or, being in none, is a line of an enum typedef kept in an enum
    group; ["not seen"] holds exactly the lines that are in no other group of
    lines and are not lines of such a typedef, and none of them passes the
    test of a classification bucket. *)
Theorem get_groups_classifies ord a g :
  get_groups ord a = Ok g →
  let lines := Py.splitlines (unit_text a) in
  (∀ i j k1 l1 k2 l2,
     line_groups g !! i = Some (k1, l1) → line_groups g !! j = Some (k2, l2) →
     i ≠ j → l1 ## l2)
  ∧ (∀ x, x ∈ lines →
       (∃ i k l, line_groups g !! i = Some (k, l) ∧ x ∈ l
                 ∧ ∀ j k' l', line_groups g !! j = Some (k', l') → x ∈ l' → j = i)
       ∨ ((∀ k l, (k, l) ∈ line_groups g → x ∉ l) ∧ enum_line g x))
  ∧ (∀ x, x ∈ not_seen g ↔
       x ∈ lines ∧ ¬ enum_line g x
       ∧ ∀ k l, (k, l) ∈ line_groups g → k ≠ "not seen" → x ∉ l)
  ∧ (∀ x, x ∈ not_seen g → Forall (λ test, test x = false) bucket_tests).
Proof.
  intros Hg lines.
  destruct (get_groups_partition ord a g Hg) as (Hdisj & Hcover & Hns & Htests).
  split; [exact Hdisj|]. split; [|split; [exact Hns|exact Htests]].
  intros x Hx.
  destruct (decide (Exists (λ kl, x ∈ kl.2) (line_groups g))) as [Hin|Hout].
  - left. apply Exists_exists in Hin as ([k l] & Hkl & Hxl).
    apply list_elem_of_lookup_1 in Hkl as [i Hi].
    exists i, k, l. split; [exact Hi|]. split; [exact Hxl|].
    intros j k' l' Hj Hxl'. destruct (decide (j = i)) as [|Hne]; [assumption|].
    destruct (Hdisj j i k' l' k l Hj Hi Hne x Hxl' Hxl).
  - right. assert (Hnone : ∀ k l, (k, l) ∈ line_groups g → x ∉ l).
    { intros k l Hkl Hxl. apply Hout, Exists_exists. by exists (k, l). }
    split; [exact Hnone|].
    destruct (Hcover x Hx) as [(k & l & Hkl & Hxl)|He]; [|exact He].
    destruct (Hnone k l Hkl Hxl).
Qed.

Lemma pad8_head s t : pad8 s ≠ String "8" t.
Proof.
  destruct s as [|c s]; [done|]. simpl.
  destruct (Ascii.eqb_spec c "8") as [->|Hne]; [done|]. congruence.
Qed.

Lemma pad8_inj s1 s2 : pad8 s1 = pad8 s2 → s1 = s2.
Proof.
  revert s2. induction s1 as [|c1 t1 IH]; intros [|c2 t2]; simpl; try done.
  - by destruct (Ascii.eqb c2 "8").
  - by destruct (Ascii.eqb c1 "8").
  - destruct (Ascii.eqb_spec c1 "8") as [->|H1], (Ascii.eqb_spec c2 "8") as [->|H2].
    + intros [= Heq]. f_equal. by apply IH.
    + intros [= <- Heq]. symmetry in Heq. by apply pad8_head in Heq.
    + intros [= -> Heq]. by apply pad8_head in Heq.
    + intros [= -> Heq]. f_equal. by apply IH.
Qed.

Lemma sort_key_inj s1 s2 : sort_key s1 = sort_key s2 → s1 = s2.
Proof. rewrite !sort_key_pad8. apply pad8_inj. Qed.

(** Sorting a set gives the same list whatever the order of iteration, when
    no two elements of the set have the same key. *)
Lemma sorted_set_order_irrelevant ord1 ord2 key X :
  (∀ x y, x ∈ X → y ∈ X → key x = key y → x = y) →
  sorted_set ord1 key X = sorted_set ord2 key X.
Proof.
  intros Hinj. unfold sorted_set.
  apply (StronglySorted_unique_strong (key_le key)).
  - intros x y Hx Hy Hxy Hyx. rewrite elem_of_sorted, elem_of_iter in Hx, Hy.
    apply Hinj; [done..|]. by apply (anti_symm String.le).
  - apply sorted_StronglySorted.
  - apply sorted_StronglySorted.
  - by rewrite !sorted_perm, !iter_perm.
Qed.

Lemma sorted_set_sort_key ord1 ord2 X :
  sorted_set ord1 sort_key X = sorted_set ord2 sort_key X.
Proof. apply sorted_set_order_irrelevant. intros x y _ _. apply sort_key_inj. Qed.

Lemma forallb_perm {A} (p : A → bool) l1 l2 : l1 ≡ₚ l2 → forallb p l1 = forallb p l2.
Proof.
  induction 1; simpl; try congruence.
  by destruct (p x), (p y).
Qed.

Lemma forallb_iter ord1 ord2 p X : forallb p (iter ord1 X) = forallb p (iter ord2 X).
Proof. apply forallb_perm. by rewrite !iter_perm. Qed.

Lemma update_splitlines_order ord1 ord2 seen vals :
  update_splitlines ord1 seen vals = update_splitlines ord2 seen vals.
Proof. apply set_eq. intros x. by rewrite !elem_of_update_splitlines. Qed.

Lemma let_cong {A B} (v1 v2 : A) (f1 f2 : A → B) :
  v1 = v2 → (∀ x, x = v1 → f1 x = f2 x) →
  (let x := v1 in f1 x) = (let x := v2 in f2 x).
Proof. intros <- H. exact (H v1 eq_refl). Qed.

Lemma assert_cong {A} b1 b2 (k1 k2 : unit → result A) :
  b1 = b2 → k1 tt = k2 tt → (assert b1 ≫= k1) = (assert b2 ≫= k2).
Proof. intros <- H. destruct b1; [exact H|reflexivity]. Qed.

(** Step through two runs of the same computation, side by side. *)
Ltac step_both tac :=
  lazymatch goal with
  | |- (let x := ?v1 in @?f1 x) = (let y := ?v2 in @?f2 y) =>
      let x' := fresh x in
      let E := fresh "E" x' in
      refine (let_cong v1 v2 f1 f2 _ _); [tac | intros x' E; cbv beta]
  | |- (assert ?b1 ≫= ?k1) = (assert ?b2 ≫= ?k2) =>
      refine (assert_cong b1 b2 k1 k2 _ _); [tac | cbv beta]
  end.

Lemma get_groups_order_irrelevant ord1 ord2 a :
  enum_keys_distinct a → get_groups ord1 a = get_groups ord2 a.
Proof.
  intros Hd. cbv delta [get_groups]; cbv beta.
  do 62 try step_both ltac:(first
    [ reflexivity
    | apply sorted_set_sort_key
    | apply forallb_iter
    | apply update_splitlines_order
    | idtac ]).
  3: reflexivity.
  all: lazymatch goal with
       | |- sorted_set _ _ ?v = _ =>
           lazymatch goal with
           | E : v = set_of _ ?e |- _ =>
               rewrite E;
               lazymatch goal with E' : e = _ |- _ => rewrite E' end
           end
       end.
  all: apply sorted_set_order_irrelevant.
  all: intros x y [Hx _]%elem_of_set_of [Hy _]%elem_of_set_of; by apply Hd.
Qed.

Lemma bind_ok {A B} (r : result A) (k : A → result B) b :
  (r ≫= k) = Ok b → ∃ a, r = Ok a ∧ k a = Ok b.
Proof. destruct r as [a|e]; [eauto|discriminate]. Qed.

Lemma Ok_inj {A} (a b : A) : Ok a = Ok b → a = b.
Proof. by intros [= ->]. Qed.

Lemma assert_ok b u : assert b = Ok u → b = true.
Proof. by destruct b. Qed.

Lemma unpack_ends_ok l x m y :
  unpack_ends l = Ok (x, m, y) → l = x :: m ++ [y].
Proof.
  destruct l as [|x' [|z l]]; try done.
  unfold unpack_ends. intros Heq.
  assert (x' = x ∧ removelast (z :: l) = m ∧ List.last (z :: l) "" = y)
    as (-> & <- & <-) by (by injection Heq).
  f_equal. by apply app_removelast_last.
Qed.

Lemma drop_last_snoc s c : Py.drop_last (s +:+ String c "") = s.
Proof.
  induction s as [|c' s IH]; [done|].
  rewrite str_app_cons. simpl. rewrite IH.
  destruct (s +:+ String c "") eqn:E; [|done].
  by destruct s.
Qed.

Lemma strip_idemp_eq s t : Py.strip s = t → True.
Proof. done. Qed.

Lemma generate_cons {A B} (body : A → result (option B)) x l :
  generate body (x :: l) =
  (r ← body x; rest ← generate body l;
   Ok (match r with Some y => y :: rest | None => rest end)).
Proof. reflexivity. Qed.

Lemma kept_fields_cons skip f fields :
  kept_fields skip (f :: fields) =
  if removed skip (field_name (field_norm f)) then kept_fields skip fields
  else field_norm f :: kept_fields skip fields.
Proof.
  unfold kept_fields. rewrite fmap_cons.
  change (List.filter ?p (?x :: ?l))
    with (if p x then x :: List.filter p l else List.filter p l).
  cbv beta. by destruct (removed skip (field_name (field_norm f))).
Qed.

Lemma handle_enums_field_ok skip f r :
  handle_enums_field skip f = Ok r →
  r = if removed skip (field_name (field_norm f)) then None else Some (field_norm f).
Proof.
  unfold handle_enums_field. fold (field_norm f). unfold field_name, removed.
  destruct (Py.split " " (field_norm f)) as [|n [|e [|v [|??]]]]; try discriminate.
  intros (_ & _ & Hr)%bind_ok. cbn [List.hd].
  destruct (bool_decide (n ∈ DEPRECATED)); cbn [orb].
  - by injection Hr as <-.
  - destruct (skip && has_complex n); by injection Hr as <-.
Qed.

Lemma generate_fields skip fields new_fields :
  generate (handle_enums_field skip) fields = Ok new_fields →
  new_fields = kept_fields skip fields.
Proof.
  revert new_fields. induction fields as [|f fields IH]; intros nf.
  - by intros [= <-].
  - rewrite generate_cons, kept_fields_cons.
    intros (r & Hr & H)%bind_ok. apply bind_ok in H as (rest & Hrest & [= <-]).
    rewrite (IH _ Hrest). apply handle_enums_field_ok in Hr as ->.
    by destruct (removed skip (field_name (field_norm f))).
Qed.

Lemma drop_last_of_last_fields typedef bracket (fields : list string) :
  fields ≠ [] →
  drop_last_of_last ([typedef; bracket] ++ ((λ field, "  " +:+ field +:+ ",") <$> fields))
  = [typedef; bracket] ++ ((λ field, "  " +:+ field +:+ ",") <$> removelast fields)
    ++ ["  " +:+ List.last fields ""].
Proof.
  intros Hne. destruct (exists_last Hne) as (init & lst & ->).
  rewrite removelast_last, last_last. unfold drop_last_of_last.
  rewrite fmap_app. simpl fmap.
  rewrite !app_assoc. rewrite removelast_last, last_last.
  rewrite <- !app_assoc. do 3 f_equal.
  change ("  " +:+ lst +:+ ",") with (("  " +:+ lst) +:+ String "," "") at 1.
  apply drop_last_snoc.
Qed.

Lemma handle_enums_text_ok skip text r :
  handle_enums_text skip text = Ok r →
  ∃ typedef fields cname,
    Py.splitlines (enum_orig text) = typedef :: "{" :: fields ++ [cname]
    ∧ Py.strip typedef = "typedef enum"
    ∧ Py.startswith "}" cname = true ∧ Py.endswith ";" cname = true
    ∧ r = if removed skip (enum_name cname) then None
          else match kept_fields skip fields with
               | [] => None
               | kept => Some {| orig_text := Some (enum_orig text);
                                 text := enum_text kept cname |}
               end.
Proof.
  unfold handle_enums_text. fold nl. fold (enum_orig text).
  intros ([[typedef rest] cname] & Hun & H)%bind_ok.
  apply unpack_ends_ok in Hun. cbv beta iota in H.
  destruct rest as [|bracket fields]; [discriminate|].
  apply bind_ok in H as (_ & Ht%assert_ok & H).
  apply bind_ok in H as (_ & Hb%assert_ok & H).
  apply bind_ok in H as (_ & Hs%assert_ok & H).
  apply bind_ok in H as (_ & He%assert_ok & H).
  apply String.eqb_eq in Ht, Hb. subst bracket.
  exists typedef, fields, cname. split; [done|]. do 3 (split; [done|]).
  fold (enum_name cname) in H. unfold removed.
  destruct (bool_decide (enum_name cname ∈ DEPRECATED)); cbn [orb].
  { by injection H as <-. }
  destruct (skip && has_complex (enum_name cname)).
  { by injection H as <-. }
  do 4 apply bind_ok in H as (_ & _ & H).
  apply bind_ok in H as (new_fields & Hnf & H).
  apply generate_fields in Hnf as ->.
  destruct (kept_fields skip fields) as [|k ks] eqn:Hk.
  { by injection H as <-. }
  cbv iota in H |- *. assert (Hne : k :: ks ≠ []) by done.
  remember (k :: ks) as kept eqn:Ekept. clear Ekept Hk.
  apply Ok_inj in H as <-. do 2 f_equal.
  rewrite drop_last_of_last_fields by done.
  unfold enum_text. rewrite Ht. by rewrite <- !app_assoc.
Qed.

(** ** Generators *)
Lemma generate_filter {A B} (body : A → result (option B)) (drop : A → bool)
    (mk : A → B) l out :
  (∀ x r, body x = Ok r → r = if drop x then None else Some (mk x)) →
  generate body l = Ok out → out = mk <$> List.filter (λ x, negb (drop x)) l.
Proof.
  intros Hbody. revert out. induction l as [|x l IH]; intros out.
  - by intros [= <-].
  - rewrite generate_cons.
    intros (r & Hr & H)%bind_ok. apply bind_ok in H as (rest & Hrest & H).
    apply Ok_inj in H as <-. rewrite (IH _ Hrest), (Hbody _ _ Hr).
    change (List.filter ?p (x :: l))
      with (if p x then x :: List.filter p l else List.filter p l).
    cbv beta. destruct (drop x); reflexivity.
Qed.

Lemma elem_of_generate {A B} (body : A → result (option B)) l out y :
  generate body l = Ok out →
  y ∈ out ↔ ∃ x, x ∈ l ∧ body x = Ok (Some y).
Proof.
  revert out. induction l as [|x l IH]; intros out.
  - intros [= <-]. split; [by intros ?%elem_of_nil|].
    by intros (? & ?%elem_of_nil & _).
  - rewrite generate_cons.
    intros (r & Hr & H)%bind_ok. apply bind_ok in H as (rest & Hrest & H).
    apply Ok_inj in H as <-. specialize (IH _ Hrest).
    setoid_rewrite elem_of_cons. destruct r as [z|].
    + rewrite elem_of_cons, IH. split.
      * intros [->|(x' & ? & ?)]; eauto.
      * intros (x' & [->|?] & Hx'); [left; congruence|right; eauto].
    + rewrite IH. split.
      * intros (x' & ? & ?); eauto.
      * intros (x' & [->|?] & Hx'); [congruence|eauto].
Qed.

Lemma generate_all_ok {A B} (body : A → result (option B)) l out x :
  generate body l = Ok out → x ∈ l → ∃ r, body x = Ok r.
Proof.
  revert out. induction l as [|x' l IH]; intros out.
  - by intros _ ?%elem_of_nil.
  - rewrite generate_cons.
    intros (r & Hr & H)%bind_ok. apply bind_ok in H as (rest & Hrest & H).
    intros [->|?]%elem_of_cons; eauto.
Qed.

Lemma handle_constants_line_ok skip line r :
  handle_constants_line skip line = Ok r →
  r = if dropped skip (constant_name line) line then None
      else Some {| orig_text := None; text := line |}.
Proof.
  unfold handle_constants_line, constant_name, line_name, dropped.
  destruct (Py.split " " line) as [|e [|c [|t [|n [|??]]]]]; try discriminate.
  intros (_ & _ & H)%bind_ok. do 2 apply bind_ok in H as (_ & _ & H).
  cbn [List.last].
  destruct (bool_decide _); cbn [orb]; [by apply Ok_inj in H|].
  destruct (skip && has_complex line); by apply Ok_inj in H.
Qed.

Lemma handle_objects_line_ok skip line r :
  handle_objects_line skip line = Ok r →
  r = if dropped skip (line_name line) line then None
      else Some {| orig_text := None; text := line |}.
Proof.
  unfold handle_objects_line, line_name, dropped.
  destruct (Py.split " " line) as [|e [|t [|n [|??]]]]; try discriminate.
  intros (_ & _ & H)%bind_ok. apply bind_ok in H as (_ & _ & H).
  cbn [List.last].
  destruct (bool_decide _); cbn [orb]; [by apply Ok_inj in H|].
  destruct (skip && has_complex line); by apply Ok_inj in H.
Qed.

Lemma handle_typedefs_line_ok skip line r :
  handle_typedefs_line skip line = Ok r →
  r = if dropped skip (line_name line) line then None
      else Some {| orig_text := None; text := line |}.
Proof.
  unfold handle_typedefs_line, line_name, dropped.
  destruct (Py.split " " line) as [|t [|n rest]]; try discriminate.
  intros (_ & _ & H)%bind_ok. apply bind_ok in H as (_ & _ & H).
  change (List.last (t :: n :: rest) "") with (List.last (n :: rest) "").
  destruct (bool_decide _); cbn [orb]; [by apply Ok_inj in H|].
  destruct (skip && has_complex line); by apply Ok_inj in H.
Qed.

Lemma handle_typedef_funcs_line_ok skip line r :
  handle_typedef_funcs_line skip line = Ok r →
  r = if skip && has_complex line then None
      else Some {| orig_text := None; text := line |}.
Proof.
  unfold handle_typedef_funcs_line. intros (_ & _ & H)%bind_ok.
  destruct (skip && has_complex line); by apply Ok_inj in H.
Qed.

Lemma handle_function_node_ok skip n r :
  handle_function_node skip n = Ok r →
  if dropped skip (decl_name n) (decl_text n +:+ ";") then r = None
  else ∃ group, r = Some {| name := decl_name n; group := group; node := n;
                            func_text := decl_text n +:+ ";" |}.
Proof.
  unfold handle_function_node, dropped.
  destruct (negb _); [discriminate|].
  destruct (bool_decide _); cbn [orb]; [by intros ->%Ok_inj|].
  destruct (skip && has_complex _); [by intros ->%Ok_inj|].
  intros (g & _ & H)%bind_ok. apply Ok_inj in H as <-. eauto.
Qed.

Lemma generate_functions skip nodes fs :
  generate (handle_function_node skip) nodes = Ok fs →
  node <$> fs = kept_nodes skip nodes ∧ Forall follows_node fs.
Proof.
  revert fs. induction nodes as [|n nodes IH]; intros fs.
  - by intros [= <-].
  - rewrite generate_cons.
    intros (r & Hr & H)%bind_ok. apply bind_ok in H as (rest & Hrest & H).
    apply Ok_inj in H as <-. destruct (IH _ Hrest) as [IH1 IH2].
    apply handle_function_node_ok in Hr. unfold kept_nodes.
    change (List.filter ?p (n :: nodes))
      with (if p n then n :: List.filter p nodes else List.filter p nodes).
    cbv beta. destruct (dropped skip _ _).
    + by subst r.
    + destruct Hr as [g ->]. cbn [negb]. rewrite fmap_cons, IH1.
      split; [done|]. by constructor.
Qed.

Lemma get_group_info_ok skip groups a rv :
  get_group_info skip groups a = Ok rv →
  handle_constants skip (GrB_const groups) = Ok (rv_GrB_const rv)
  ∧ handle_constants skip (GxB_const groups) = Ok (rv_GxB_const rv)
  ∧ handle_objects skip (GrB_objects groups) = Ok (rv_GrB_objects rv)
  ∧ handle_objects skip (GxB_objects groups) = Ok (rv_GxB_objects rv)
  ∧ handle_enums skip (GrB_typedef_enums groups) = Ok (rv_GrB_typedef_enums rv)
  ∧ handle_enums skip (GxB_typedef_enums groups) = Ok (rv_GxB_typedef_enums rv)
  ∧ handle_typedefs skip (GrB_typedef groups) = Ok (rv_GrB_typedef rv)
  ∧ handle_typedefs skip (GxB_typedef groups) = Ok (rv_GxB_typedef rv)
  ∧ handle_typedef_funcs skip (GxB_typedef_funcs groups) = Ok (rv_GxB_typedef_funcs rv)
  ∧ (∃ fs, generate (handle_function_node skip) (nodes_with "GrB_" a) = Ok fs
           ∧ rv_GrB_methods rv = Py.sorted (λ x, sort_key (func_text x)) fs)
  ∧ (∃ fs, generate (handle_function_node skip) (nodes_with "GxB_" a) = Ok fs
           ∧ rv_GxB_methods rv = Py.sorted (λ x, sort_key (func_text x)) fs)
  ∧ (∃ fs, generate (handle_function_node skip) (nodes_with "GB_" a) = Ok fs
           ∧ rv_GB_methods rv = Py.sorted (λ x, sort_key (func_text x)) fs)
  ∧ rv_not_seen rv = not_seen groups.
Proof.
  unfold get_group_info. fold (nodes_with "GrB_" a) (nodes_with "GxB_" a) (nodes_with "GB_" a).
  intros (x1 & H1 & H)%bind_ok. apply bind_ok in H as (x2 & H2 & H).
  apply bind_ok in H as (x3 & H3 & H). apply bind_ok in H as (x4 & H4 & H).
  apply bind_ok in H as (x5 & H5 & H). apply bind_ok in H as (x6 & H6 & H).
  apply bind_ok in H as (x7 & H7 & H). apply bind_ok in H as (x8 & H8 & H).
  apply bind_ok in H as (x9 & H9 & H). cbv zeta in H.
  do 3 apply bind_ok in H as (_ & _ & H).
  apply bind_ok in H as (f1 & Hf1 & H). apply bind_ok in H as (f2 & Hf2 & H).
  apply bind_ok in H as (f3 & Hf3 & H). apply Ok_inj in H as <-.
  cbn [rv_GrB_const rv_GxB_const rv_GrB_objects rv_GxB_objects rv_GrB_typedef_enums
       rv_GxB_typedef_enums rv_GrB_typedef rv_GxB_typedef rv_GxB_typedef_funcs
       rv_GrB_methods rv_GxB_methods rv_GB_methods rv_not_seen].
  repeat split; eauto.
Qed.

Lemma handle_enums_ok skip group out i :
  handle_enums skip group = Ok out → i ∈ out ↔ emitted_enum skip group i.
Proof.
  intros Hout. unfold handle_enums in Hout.
  rewrite (elem_of_generate _ _ _ i Hout). split.
  - intros (text & Hin & Hi).
    apply handle_enums_text_ok in Hi as (typedef & fields & cname & Hs & _ & _ & _ & Hi).
   
    exists text, typedef, fields, cname. split; [exact Hin|]. split; [exact Hs|].
    destruct (removed skip (enum_name cname)); [discriminate Hi|].
   
    destruct (kept_fields skip fields) as [|k ks]; [discriminate Hi|].
   
    split; [reflexivity|]. split; [discriminate|]. congruence.
  - intros (text & typedef & fields & cname & Hin & Hs & Hr & Hk & ->).
    exists text. split; [done|].
    destruct (generate_all_ok _ _ _ _ Hout Hin) as [r Hr'].
    rewrite Hr'. f_equal.
    apply handle_enums_text_ok in Hr' as (typedef' & fields' & cname' & Hs' & _ & _ & _ & ->).
    rewrite Hs in Hs'. injection Hs' as <- Hs'.
    apply app_inj_tail in Hs' as [<- <-]. rewrite Hr.
    destruct (kept_fields skip fields) as [|k ks]; [by destruct Hk|].
    reflexivity.
Qed.

(** Claim C9.  An enum of the group none of whose fields survives has no
    record in the output of [handle_enums], whatever its name; an enum whose
    name is not removed and that keeps a field has the record whose text
    lists the surviving fields in their order, a comma after each but the
    last. *)
Theorem handle_enums_omits_enum_without_fields skip group out text :
  handle_enums skip group = Ok out → text ∈ group →
  ∃ typedef fields cname,
    Py.splitlines (enum_orig text) = typedef :: "{" :: fields ++ [cname]
    ∧ let kept := kept_fields skip fields in
      (kept = [] → ∀ i, i ∈ out → orig_text i ≠ Some (enum_orig text))
      ∧ (kept ≠ [] → removed skip (enum_name cname) = false →
         {| orig_text := Some (enum_orig text); text := enum_text kept cname |} ∈ out).
Proof.
  intros Hout Hin.
  destruct (generate_all_ok _ _ _ _ Hout Hin) as [r Hr].
  apply handle_enums_text_ok in Hr as (typedef & fields & cname & Hs & _ & _ & _ & _).
  exists typedef, fields, cname. split; [done|]. split.
  - intros Hk i Hi Horig.
    apply (handle_enums_ok _ _ _ _ Hout) in Hi
      as (text' & typedef' & fields' & cname' & _ & Hs' & _ & Hk' & ->).
    injection Horig as Horig. rewrite Horig, Hs in Hs'.
    injection Hs' as _ Hs'. apply app_inj_tail in Hs' as [<- _]. exact (Hk' Hk).
  - intros Hk Hr. apply (handle_enums_ok _ _ _ _ Hout).
    exists text, typedef, fields, cname.
    split; [exact Hin|]. split; [exact Hs|]. split; [exact Hr|]. split; [exact Hk|reflexivity].
Qed.

(** What [get_group_info] returns, group by group. *)
Lemma get_group_info_kept skip groups a rv :
  get_group_info skip groups a = Ok rv →
  (rv_GrB_const rv = kept_lines skip constant_name (GrB_const groups)
   ∧ rv_GxB_const rv = kept_lines skip constant_name (GxB_const groups)
   ∧ rv_GrB_objects rv = kept_lines skip line_name (GrB_objects groups)
   ∧ rv_GxB_objects rv = kept_lines skip line_name (GxB_objects groups)
   ∧ rv_GrB_typedef rv = kept_lines skip line_name (GrB_typedef groups)
   ∧ rv_GxB_typedef rv = kept_lines skip line_name (GxB_typedef groups))
  ∧ rv_GxB_typedef_funcs rv
    = Info None <$> List.filter (λ line, negb (skip && has_complex line))
                                (GxB_typedef_funcs groups)
  ∧ ((∀ i, i ∈ rv_GrB_typedef_enums rv ↔ emitted_enum skip (GrB_typedef_enums groups) i)
     ∧ (∀ i, i ∈ rv_GxB_typedef_enums rv ↔ emitted_enum skip (GxB_typedef_enums groups) i))
  ∧ (node <$> rv_GrB_methods rv ≡ₚ kept_nodes skip (nodes_with "GrB_" a)
     ∧ node <$> rv_GxB_methods rv ≡ₚ kept_nodes skip (nodes_with "GxB_" a)
     ∧ node <$> rv_GB_methods rv ≡ₚ kept_nodes skip (nodes_with "GB_" a)
     ∧ Forall follows_node (rv_GrB_methods rv ++ rv_GxB_methods rv ++ rv_GB_methods rv)).
Proof.
  intros (Hc1 & Hc2 & Ho1 & Ho2 & He1 & He2 & Ht1 & Ht2 & Htf
          & (f1 & Hf1 & Hs1) & (f2 & Hf2 & Hs2) & (f3 & Hf3 & Hs3) & _)%get_group_info_ok.
  split; [|split; [|split]].
  - unfold kept_lines. split; [|split; [|split; [|split; [|split]]]].
    + exact (generate_filter (handle_constants_line skip) (λ line, dropped skip (constant_name line) line)
               (Info None) _ _ (handle_constants_line_ok skip) Hc1).
    + exact (generate_filter (handle_constants_line skip) (λ line, dropped skip (constant_name line) line)
               (Info None) _ _ (handle_constants_line_ok skip) Hc2).
    + exact (generate_filter (handle_objects_line skip) (λ line, dropped skip (line_name line) line)
               (Info None) _ _ (handle_objects_line_ok skip) Ho1).
    + exact (generate_filter (handle_objects_line skip) (λ line, dropped skip (line_name line) line)
               (Info None) _ _ (handle_objects_line_ok skip) Ho2).
    + exact (generate_filter (handle_typedefs_line skip) (λ line, dropped skip (line_name line) line)
               (Info None) _ _ (handle_typedefs_line_ok skip) Ht1).
    + exact (generate_filter (handle_typedefs_line skip) (λ line, dropped skip (line_name line) line)
               (Info None) _ _ (handle_typedefs_line_ok skip) Ht2).
  - exact (generate_filter (handle_typedef_funcs_line skip) (λ line, skip && has_complex line)
             (Info None) _ _ (handle_typedef_funcs_line_ok skip) Htf).
  - split; intros i; by apply handle_enums_ok.
  - apply generate_functions in Hf1 as [Hn1 Hfo1].
    apply generate_functions in Hf2 as [Hn2 Hfo2].
    apply generate_functions in Hf3 as [Hn3 Hfo3].
    rewrite Hs1, Hs2, Hs3. rewrite <- Hn1, <- Hn2, <- Hn3.
    split; [by rewrite sorted_perm|]. split; [by rewrite sorted_perm|].
    split; [by rewrite sorted_perm|].
    rewrite !Forall_app. split; [|split].
    + eapply Forall_forall. intros f Hf. apply elem_of_sorted in Hf.
      by eapply Forall_forall in Hfo1.
    + eapply Forall_forall. intros f Hf. apply elem_of_sorted in Hf.
      by eapply Forall_forall in Hfo2.
    + eapply Forall_forall. intros f Hf. apply elem_of_sorted in Hf.
      by eapply Forall_forall in Hfo3.
Qed.

Lemma io_bind_ok {A B} (m : io A) (k : A → io B) s s2 b :
  (m ≫= k) s = (s2, Ok b) → ∃ s1 a, m s = (s1, Ok a) ∧ k a s1 = (s2, Ok b).
Proof.
  rewrite io_bind_eq. destruct (m s) as [s1 [a|e]]; [eauto|]. intros [= _ ?]. 
Qed.

Lemma io_bind_raise {A B} (m : io A) (k : A → io B) s s1 e :
  m s = (s1, Raise e) → (m ≫= k) s = (s1, Raise e).
Proof. intros H. by rewrite io_bind_eq, H. Qed.

Lemma io_bind_step {A B} (m : io A) (k : A → io B) s s1 a :
  m s = (s1, Ok a) → (m ≫= k) s = k a s1.
Proof. intros H. by rewrite io_bind_eq, H. Qed.



Lemma lift_ok {A} (r : result A) s s1 a : lift r s = (s1, Ok a) → s1 = s ∧ r = Ok a.
Proof. by intros [= <- <-]. Qed.

Lemma read_file_ok path s s1 content :
  read_file path s = (s1, Ok content) → s1 = s ∧ files s !! path = Some content.
Proof.
  unfold read_file. destruct (files s !! path); [|by intros [= _ ?]].
  by intros [= <- <-].
Qed.

Lemma parse_header_ok w file skip s s1 rv :
  parse_header w file skip s = (s1, Ok rv) →
  s1 = s ∧ ∃ content a groups,
    files s !! file = Some content ∧ pycparser w content = Ok a
    ∧ get_groups (order w) a = Ok groups ∧ get_group_info skip groups a = Ok rv.
Proof.
  unfold parse_header, get_ast.
  intros (s2 & a & (s3 & content & [-> Hc]%read_file_ok & [-> Ha]%lift_ok)%io_bind_ok & H)%io_bind_ok.
  apply io_bind_ok in H as (s4 & groups & [-> Hg]%lift_ok & [-> Hrv]%lift_ok).
  split; [done|]. by exists content, a, groups.
Qed.






Lemma prefix_nil_l s : String.prefix "" s = true.
Proof. by destruct s. Qed.

Lemma path_join_inj d a b :
  Py.startswith "/" a = false → Py.startswith "/" b = false →
  path_join d a = path_join d b → a = b.
Proof.
  unfold path_join. intros -> ->.
  destruct (String.eqb d "" || Py.endswith "/" d); intros H.
  - by apply (inj (String.app d)) in H.
  - apply (inj (String.app d)) in H. by apply (inj (String.app "/")) in H.
Qed.

Lemma path_join_ne d a b :
  Py.startswith "/" a = false → Py.startswith "/" b = false → a ≠ b →
  path_join d a ≠ path_join d b.
Proof. intros Ha Hb Hne H. by apply Hne, (path_join_inj d). Qed.


Lemma bind_read_file {B} path content (k : string → io B) s :
  files s !! path = Some content → (read_file path ≫= k) s = k content s.
Proof. intros H. rewrite io_bind_eq. unfold read_file. by rewrite H. Qed.

Lemma print_lines lines s :
  foldr (λ line k, print line ≫= λ _ : (), k) (mret ()) lines s
  = ({| files := files s; stdout := stdout s ++ lines |}, Ok tt).
Proof.
  revert s. induction lines as [|l lines IH]; intros s.
  - cbn [foldr]. rewrite app_nil_r. by destruct s.
  - cbn [foldr]. rewrite bind_print, IH. cbn [files stdout].
    by rewrite <- app_assoc.
Qed.

Lemma main_check_eq w groups s text :
  files s !! graphblas_h w = Some text →
  main_check w groups s =
    if bool_decide (unknown_defines (find_defines text) ≠ ∅)
    then ({| files := files s; stdout := stdout s ++ check_stdout w text |},
          Raise (ValueError (unknown_message w (unknown_defines (find_defines text)))))
    else ({| files := files s;
             stdout := stdout s ++ check_stdout w text
                       ++ ["Success! " +:+ ROCKET] ++ skipped_stdout w groups |},
          Ok tt).
Proof.
  intros Htext. unfold main_check, check_stdout, skipped_stdout.
  rewrite bind_print, (bind_read_file _ text) by exact Htext.
  cbv zeta. cbn [files stdout].
  destruct (bool_decide (extra_defines (find_defines text) ≠ ∅)).
  - rewrite bind_print. cbn [files stdout].
    destruct (bool_decide (unknown_defines (find_defines text) ≠ ∅)).
    + rewrite bind_raise. rewrite <- ?app_assoc; reflexivity.
    + rewrite bind_mret, bind_print. cbn [files stdout].
      destruct (arg_show_skipped w).
      * rewrite !bind_print, print_lines. cbn [files stdout].
        rewrite <- ?app_assoc; reflexivity.
      * rewrite <- ?app_assoc; reflexivity.
  - rewrite bind_mret.
    destruct (bool_decide (unknown_defines (find_defines text) ≠ ∅)).
    + rewrite bind_raise. rewrite <- ?app_assoc; reflexivity.
    + rewrite bind_mret, bind_print. cbn [files stdout].
      destruct (arg_show_skipped w).
      * rewrite !bind_print, print_lines. cbn [files stdout].
        rewrite <- ?app_assoc; reflexivity.
      * rewrite <- ?app_assoc; reflexivity.
Qed.

Lemma str_in_unfold d s :
  Py.str_in d s =
  String.prefix d s || match s with "" => false | String _ t => Py.str_in d t end.
Proof. by destruct s. Qed.

Lemma str_in_here d t : Py.str_in d (d +:+ t) = true.
Proof. by rewrite str_in_unfold, prefix_app. Qed.

Lemma str_in_app_r d s t : Py.str_in d t = true → Py.str_in d (s +:+ t) = true.
Proof.
  intros H. induction s as [|c s IH]; [exact H|].
  rewrite str_app_cons, str_in_unfold, IH. apply orb_true_r.
Qed.

Lemma str_in_join d sep l : d ∈ l → Py.str_in d (Py.join sep l) = true.
Proof.
  unfold Py.join. induction l as [|x l IH]; [by intros ?%elem_of_nil|].
  intros [->|Hd]%elem_of_cons.
  - simpl. destruct l; [|apply str_in_here].
    rewrite <- (str_app_nil_r x) at 2. apply str_in_here.
  - simpl. destruct l as [|y l]; [by apply elem_of_nil in Hd|].
    apply str_in_app_r, str_in_app_r, IH, Hd.
Qed.

Lemma main_generate_raise w s s1 e :
  main_generate w s = (s1, Raise e) → main w s = (s1, Raise e).
Proof. intros H. unfold main. by apply io_bind_raise. Qed.

(** Claim C3.  When a run reaches the check of the [#define] names and the
    copied header has a name that is in none of [DEFINES], [CHAR_DEFINES] and
    [IGNORE_DEFINES], [main] raises a [ValueError] whose message contains
    every such name. *)
Theorem main_unknown_defines_abort w s s1 groups text :
  main_generate w s = (s1, Ok groups) →
  files s1 !! graphblas_h w = Some text →
  unknown_defines (find_defines text) ≠ ∅ →
  main w s =
    ({| files := files s1; stdout := stdout s1 ++ check_stdout w text |},
     Raise (ValueError (unknown_message w (unknown_defines (find_defines text)))))
  ∧ ∀ name, name ∈ unknown_defines (find_defines text) →
      Py.str_in name (unknown_message w (unknown_defines (find_defines text))) = true.
Proof.
  intros Hgen Htext Hunknown. split.
  - unfold main. rewrite (io_bind_step _ _ _ _ _ Hgen).
    rewrite (main_check_eq _ _ _ _ Htext).
    by rewrite bool_decide_eq_true_2.
  - intros name Hname. unfold unknown_message.
    do 3 apply str_in_app_r. apply str_in_join.
    by apply elem_of_sorted_set.
Qed.

(** No run that succeeds has found an unknown define. *)
Lemma main_success_no_unknown w s s' :
  main w s = (s', Ok tt) →
  ∃ text, files s' !! graphblas_h w = Some text
          ∧ unknown_defines (find_defines text) = ∅.
Proof.
  unfold main. intros (s1 & groups & Hgen & Hcheck)%io_bind_ok.
  destruct (files s1 !! graphblas_h w) as [text|] eqn:Htext.
  - rewrite (main_check_eq _ _ _ _ Htext) in Hcheck.
    destruct (decide (unknown_defines (find_defines text) = ∅)) as [He|Hne].
    + rewrite bool_decide_eq_false_2 in Hcheck by (by intros []).
      injection Hcheck as <-. eauto.
    + rewrite bool_decide_eq_true_2 in Hcheck by done. by injection Hcheck.
  - unfold main_check in Hcheck. rewrite bind_print, io_bind_eq in Hcheck.
    unfold read_file in Hcheck. cbn [files] in Hcheck. rewrite Htext in Hcheck.
    by injection Hcheck.
Qed.

Lemma dropped_complex name text :
  dropped true name text = false → has_complex text = false.
Proof. unfold dropped. by intros [_ ?]%orb_false_elim. Qed.

Lemma removed_complex name :
  removed true name = false → has_complex name = false.
Proof. unfold removed. by intros [_ ?]%orb_false_elim. Qed.

Lemma kept_lines_no_complex namer group :
  Forall (λ i, has_complex (text i) = false) (kept_lines true namer group).
Proof.
  unfold kept_lines. apply Forall_fmap, Forall_forall. intros line Hline.
  apply list_elem_of_In, filter_In in Hline as [_ Hline].
  apply negb_true_iff in Hline. cbn [compose text]. by eapply dropped_complex.
Qed.

Lemma kept_fields_no_complex fields :
  Forall (λ f, has_complex (field_name f) = false) (kept_fields true fields).
Proof.
  unfold kept_fields. apply Forall_forall. intros f Hf.
  apply list_elem_of_In, filter_In in Hf as [_ Hf].
  apply negb_true_iff in Hf. by eapply removed_complex.
Qed.

Lemma methods_no_complex (fs : list func_info) nodes :
  node <$> fs ≡ₚ kept_nodes true nodes → Forall follows_node fs →
  Forall (λ f, has_complex (func_text f) = false) fs.
Proof.
  intros Hperm Hfollow. apply Forall_forall. intros f Hf.
  rewrite Forall_forall in Hfollow. destruct (Hfollow f Hf) as [_ ->].
  assert (Hn : node f ∈ kept_nodes true nodes).
  { rewrite <- Hperm. apply list_elem_of_fmap. eauto. }
  apply list_elem_of_In, filter_In in Hn as [_ Hn].
  apply negb_true_iff in Hn. by eapply dropped_complex.
Qed.

Lemma create_header_text_order ord1 ord2 rv cd d :
  create_header_text ord1 rv cd d = create_header_text ord2 rv cd d.
Proof.
  unfold create_header_text. by rewrite !(sorted_set_sort_key ord1 ord2).
Qed.

Lemma create_source_text_order ord1 ord2 cd :
  create_source_text ord1 cd = create_source_text ord2 cd.
Proof.
  unfold create_source_text. by rewrite !(sorted_set_sort_key ord1 ord2).
Qed.

(** Claim C5, as the code has it.  Two runs that differ in the order in
    which sets are iterated generate the same header text and the same source
    text from the same file, provided no two enum typedefs of the header have
    the same sort key (the text after their last closing brace). *)
Theorem generated_texts_deterministic w1 w2 file skip cd d s :
  pycparser w1 = pycparser w2 →
  (∀ content a, files s !! file = Some content → pycparser w1 content = Ok a →
                enum_keys_distinct a) →
  generated_texts w1 file skip cd d s = generated_texts w2 file skip cd d s.
Proof.
  intros Hpy Hdistinct.
  unfold generated_texts, parse_header, get_ast.
  rewrite !io_bind_eq. unfold read_file.
  destruct (files s !! file) as [content|] eqn:Hfile; [|reflexivity].
  unfold lift. rewrite <- Hpy.
  destruct (pycparser w1 content) as [a|e] eqn:Ha; [|reflexivity].
  rewrite !io_bind_eq.
  rewrite (get_groups_order_irrelevant (order w1) (order w2) a)
    by (by eapply Hdistinct).
  destruct (get_groups (order w2) a) as [g|e]; [|reflexivity].
  destruct (get_group_info skip g a) as [rv|e]; [|reflexivity].
  unfold mret, io_ret.
  by rewrite (create_header_text_order (order w1) (order w2)),
             (create_source_text_order (order w1) (order w2)).
Qed.

(** Claim C1 as stated fails.  For a header made of one enum typedef,
    [get_groups] succeeds and the line [{] of the text is a member of none of
    the thirteen groups: the enum groups hold whole typedefs, not lines.
    Counting a line of a typedef as classified by the group of the typedef
    does not give one group either: in the sample header the line [{] is a
    line of a typedef of each of the two enum groups. *)
Lemma get_groups_enum_lines_in_no_group :
  get_groups order_elements enum_only_ast = Ok enum_only_groups
  ∧ "{" ∈ Py.splitlines (unit_text enum_only_ast)
  ∧ (∀ k l, (k, l) ∈ all_groups enum_only_groups → "{" ∉ l)
  ∧ ¬ classifies_every_line enum_only_ast enum_only_groups
  ∧ get_groups order_elements sample_ast = Ok sample_groups
  ∧ ∃ e1 e2, e1 ∈ GrB_typedef_enums sample_groups ∧ e2 ∈ GxB_typedef_enums sample_groups
             ∧ "{" ∈ Py.splitlines e1 ∧ "{" ∈ Py.splitlines e2.
Proof.
  assert (Hnone : ∀ k l, (k, l) ∈ all_groups enum_only_groups → "{" ∉ l).
  { assert (H : Forall (λ kl, "{" ∉ kl.2) (all_groups enum_only_groups)).
    { apply (bool_decide_unpack _). vm_compute. exact I. }
    intros k l Hkl. rewrite Forall_forall in H. exact (H _ Hkl). }
  assert (Hline : "{" ∈ Py.splitlines (unit_text enum_only_ast)).
  { apply (bool_decide_unpack _). vm_compute. exact I. }
  split; [vm_compute; reflexivity|]. split; [exact Hline|]. split; [exact Hnone|].
  split.
  { intros [_ Hcover]. destruct (Hcover _ Hline) as (k & l & Hkl & Hx).
    exact (Hnone k l Hkl Hx). }
  split; [vm_compute; reflexivity|].
  exists (info_enum +:+ ";"), (format_enum +:+ ";").
  repeat split; apply (bool_decide_unpack _); vm_compute; exact I.
Qed.

(** Claim C1 at the sample header. *)
Lemma get_groups_classifies_witness :
  get_groups order_elements sample_ast = Ok sample_groups
  ∧ ∀ x, x ∈ not_seen sample_groups →
         Forall (λ test, test x = false) bucket_tests.
Proof.
  assert (H : get_groups order_elements sample_ast = Ok sample_groups)
    by (vm_compute; reflexivity).
  split; [exact H|].
  exact (proj2 (proj2 (proj2 (get_groups_classifies order_elements sample_ast sample_groups H)))).
Defined.

(** Claim C8 at [GrB_INT8] and [GrB_INT16]. *)
Lemma sort_key_orders_8_before_16_witness :
  Py.sorted sort_key ["GrB_INT16"; "GrB_INT8"] = ["GrB_INT8"; "GrB_INT16"]
  ∧ (0 < 1)%nat.
Proof.
  split; [vm_compute; reflexivity|].
  apply (proj2 (proj2 (proj2 sort_key_orders_8_before_16 "GrB_INT" ""))
           ["GrB_INT16"; "GrB_INT8"] 0%nat 1%nat); vm_compute; reflexivity.
Defined.

(** Claim C9 at the enum [GrB_Desc_Value], which loses [GrB_SCMP]. *)
Lemma handle_enums_omits_enum_without_fields_witness :
  handle_enums false [desc_enum +:+ ";"]
    = Ok [ {| orig_text := Some (enum_orig (desc_enum +:+ ";"));
              text := Py.join nl ["typedef enum"; "{"; "  GxB_DEFAULT = 0,";
                                  "  GrB_REPLACE = 1"; "} GrB_Desc_Value;"] |} ]
  ∧ ∃ typedef fields cname,
      Py.splitlines (enum_orig (desc_enum +:+ ";")) = typedef :: "{" :: fields ++ [cname].
Proof.
  assert (H : handle_enums false [desc_enum +:+ ";"]
    = Ok [ {| orig_text := Some (enum_orig (desc_enum +:+ ";"));
              text := Py.join nl ["typedef enum"; "{"; "  GxB_DEFAULT = 0,";
                                  "  GrB_REPLACE = 1"; "} GrB_Desc_Value;"] |} ])
    by (vm_compute; reflexivity).
  split; [exact H|].
  destruct (handle_enums_omits_enum_without_fields false _ _ (desc_enum +:+ ";") H)
    as (typedef & fields & cname & Hs & _).
  { apply list_elem_of_In. left. reflexivity. }
  eauto.
Defined.

(** Claim C2 as stated fails.  An enum whose name is not deprecated and
    whose only field is the deprecated [GrB_SCMP] is in the input and not in
    the output. *)
Lemma get_group_info_omits_enum_without_fields :
  get_groups order_elements scmp_ast = Ok scmp_groups
  ∧ ∃ rv, get_group_info false scmp_groups scmp_ast = Ok rv
      ∧ rv_GrB_typedef_enums rv = []
      ∧ ¬ emits_enums_not_dropped false (GrB_typedef_enums scmp_groups)
                                   (rv_GrB_typedef_enums rv).
Proof.
  split; [vm_compute; reflexivity|].
  eexists. split; [vm_compute; reflexivity|]. split; [reflexivity|].
  intros Hclaim.
  destruct (Hclaim (scmp_enum +:+ ";") "typedef enum" ["  GrB_SCMP = 2"] "} GrB_Desc_Value;")
    as (i & Hi & _).
  - apply list_elem_of_In. left. vm_compute. reflexivity.
  - vm_compute. reflexivity.
  - vm_compute. reflexivity.
  - cbn [rv_GrB_typedef_enums] in Hi. by apply elem_of_nil in Hi.
Qed.

(** Claim C4 as stated fails.  With complex types skipped, the enum field
    [GxB_LAST_CODE = GxB_FC64_CODE] is kept, and the text of the enum
    contains [FC64]. *)
Lemma parse_header_keeps_complex_enum_value :
  ∃ rv,
    parse_header (sample_world code_ast order_elements) "pkg/GraphBLAS-processed.h" true
                 (processed_state code_ast)
      = (processed_state code_ast, Ok rv)
    ∧ rv_GxB_typedef_enums rv
      = [ {| orig_text := Some (enum_orig (code_enum +:+ ";"));
             text := Py.join nl ["typedef enum"; "{"; "  GxB_LAST_CODE = GxB_FC64_CODE";
                                 "} GxB_Type_Code;"] |} ]
    ∧ ¬ no_complex_text rv.
Proof.
  eexists. split; [vm_compute; reflexivity|]. split; [vm_compute; reflexivity|].
  intros [H _]. revert H. apply (bool_decide_unpack _). vm_compute. exact I.
Qed.

(** Claim C5 as stated fails.  For a header with two enum typedefs named
    [GrB_Mode], two runs that iterate the set of the two typedefs in opposite
    orders generate different header texts. *)
Lemma generated_texts_depend_on_set_order :
  pycparser (sample_world tie_ast order_elements)
    = pycparser (sample_world tie_ast order_reversed)
  ∧ generated_texts (sample_world tie_ast order_elements)
      "pkg/GraphBLAS-processed.h" false None None (processed_state tie_ast)
    ≠ generated_texts (sample_world tie_ast order_reversed)
      "pkg/GraphBLAS-processed.h" false None None (processed_state tie_ast).
Proof.
  split; [reflexivity|]. intros H. apply (f_equal header_of) in H.
  revert H. apply (bool_decide_unpack _). vm_compute. exact I.
Qed.

Lemma sample_enum_keys_distinct : enum_keys_distinct sample_ast.
Proof.
  assert (H : Forall (λ x, Forall (λ y, enum_key x = enum_key y → x = y)
                                  (VisitEnumTypedef sample_ast))
                     (VisitEnumTypedef sample_ast)).
  { apply (bool_decide_unpack _). vm_compute. exact I. }
  intros x y Hx Hy. rewrite Forall_forall in H. specialize (H x Hx).
  rewrite Forall_forall in H. exact (H y Hy).
Defined.

(** Claim C5 at the sample header, for two opposite iteration orders. *)
Lemma generated_texts_deterministic_witness :
  generated_texts (sample_world sample_ast order_elements)
    "pkg/GraphBLAS-processed.h" true None None (processed_state sample_ast)
  = generated_texts (sample_world sample_ast order_reversed)
    "pkg/GraphBLAS-processed.h" true None None (processed_state sample_ast).
Proof.
  apply generated_texts_deterministic.
  - reflexivity.
  - intros content a _ [= <-]. exact sample_enum_keys_distinct.
Defined.

(** Claim C3 at a header that defines [GxB_NEW_THING]. *)
Lemma main_unknown_defines_abort_witness :
  let w := sample_world enum_only_ast order_elements in
  ∃ s1 groups,
    main_generate w (sample_state unknown_header) = (s1, Ok groups)
    ∧ files s1 !! graphblas_h w = Some unknown_header
    ∧ unknown_defines (find_defines unknown_header) = {["GxB_NEW_THING"]}
    ∧ main w (sample_state unknown_header)
      = ({| files := files s1; stdout := stdout s1 ++ check_stdout w unknown_header |},
         Raise (ValueError
           "Unknown #define values found in pkg/GraphBLAS-orig.h: GxB_NEW_THING")).
Proof.
  intros w. eexists _, _.
  split; [vm_compute; reflexivity|].
  split; [vm_compute; reflexivity|].
  split; [vm_compute; reflexivity|].
  refine (eq_trans (proj1 (main_unknown_defines_abort w (sample_state unknown_header)
                             _ _ unknown_header _ _ _)) _).
  - vm_compute. reflexivity.
  - vm_compute. reflexivity.
  - apply (bool_decide_unpack _). vm_compute. exact I.
  - vm_compute. reflexivity.
Defined.

(** Claim C7 with no file at all. *)
Lemma main_missing_input_witness :
  let w := sample_world enum_only_ast order_elements in
  let s := {| files := ∅; stdout := [] |} in
  files s !! arg_graphblas w = None
  ∧ main w s
    = ({| files := ∅;
          stdout := ["Step 1: copy /usr/include/GraphBLAS.h to pkg/GraphBLAS-orig.h"] |},
       Raise (FileNotFoundError "File not found: /usr/include/GraphBLAS.h")).
Proof.
  intros w s. split; [reflexivity|].
  exact (main_missing_input w s eq_refl).
Defined.

(** ** Further properties of the script *)

Lemma groupby_snoc {A} (index : A → string) seq x :
  groupby index (seq ++ [x]) = groupby_add (index x) x (groupby index seq).
Proof. unfold groupby. by rewrite foldl_app. Qed.

Lemma groupby_add_keys {A} k (x : A) rv :
  fst <$> groupby_add k x rv
  = if bool_decide (k ∈ fst <$> rv) then fst <$> rv else (fst <$> rv) ++ [k].
Proof.
  induction rv as [|[k' items] rv IH]; [done|].
  cbn [groupby_add]. destruct (String.eqb_spec k' k) as [->|Hne].
  - cbn. rewrite bool_decide_eq_true_2; [done|]. apply elem_of_cons. by left.
  - cbn [fmap list_fmap fst] in *. rewrite IH.
    destruct (decide (k ∈ list_fmap _ _ fst rv)) as [Hin|Hin].
    + rewrite !bool_decide_eq_true_2; [done| |done]. apply elem_of_cons. by right.
    + rewrite !bool_decide_eq_false_2; [done| |done].
      intros [?|?]%elem_of_cons; [by subst|done].
Qed.

Lemma groupby_add_get {A} k (x : A) rv k' :
  groupby_get k' (groupby_add k x rv)
  = if String.eqb k k' then groupby_get k' rv ++ [x] else groupby_get k' rv.
Proof.
  induction rv as [|[k0 items] rv IH].
  - cbn. by destruct (String.eqb k k').
  - cbn [groupby_add]. destruct (String.eqb_spec k0 k) as [->|Hne].
    + cbn [groupby_get]. by destruct (String.eqb k k').
    + cbn [groupby_get]. destruct (String.eqb_spec k0 k') as [->|Hne'].
      * destruct (String.eqb_spec k k'); [by subst|done].
      * apply IH.
Qed.

Lemma groupby_keys {A} (index : A → string) seq :
  NoDup (fst <$> groupby index seq)
  ∧ ∀ k, k ∈ fst <$> groupby index seq ↔ ∃ x, x ∈ seq ∧ index x = k.
Proof.
  induction seq as [|x seq [IHn IHk]] using rev_ind.
  - split; [constructor|]. intros k. split.
    + intros H. by apply elem_of_nil in H.
    + intros (x & H & _). by apply elem_of_nil in H.
  - rewrite groupby_snoc, groupby_add_keys.
    destruct (decide (index x ∈ fst <$> groupby index seq)) as [Hin|Hin].
    + rewrite bool_decide_eq_true_2 by done. split; [done|].
      intros k. rewrite IHk. split.
      * intros (y & Hy & <-). exists y. split; [|done]. apply elem_of_app. by left.
      * intros (y & Hy & <-). apply elem_of_app in Hy as [Hy|Hy]; [eauto|].
        apply list_elem_of_singleton in Hy as ->. by apply IHk.
    + rewrite bool_decide_eq_false_2 by done. split.
      * apply NoDup_app. split; [done|]. split; [|apply NoDup_singleton].
        intros k Hk Hk'. apply list_elem_of_singleton in Hk' as ->. done.
      * intros k. rewrite elem_of_app, IHk, list_elem_of_singleton. split.
        -- intros [(y & Hy & <-)| ->].
           ++ exists y. split; [|done]. apply elem_of_app. by left.
           ++ exists x. split; [|done]. apply elem_of_app. right.
              by apply list_elem_of_singleton.
        -- intros (y & Hy & <-). apply elem_of_app in Hy as [Hy|Hy]; [eauto|].
           apply list_elem_of_singleton in Hy as ->. by right.
Qed.

Lemma groupby_get_filter {A} (index : A → string) seq k :
  groupby_get k (groupby index seq) = List.filter (λ x, String.eqb (index x) k) seq.
Proof.
  induction seq as [|x seq IH] using rev_ind; [done|].
  rewrite groupby_snoc, groupby_add_get, IH, List.filter_app. cbn [List.filter].
  destruct (String.eqb (index x) k); [done|]. by rewrite app_nil_r.
Qed.

(** Property X1.  [groupby]: the keys of the result are the values of the index over the
    items, each once, and the list under a key holds the items of that key in
    their order in the input. *)
Theorem groupby_groups_by_key {A} (index : A → string) (seq : list A) :
  NoDup (fst <$> groupby index seq)
  ∧ (∀ k, k ∈ fst <$> groupby index seq ↔ ∃ x, x ∈ seq ∧ index x = k)
  ∧ (∀ k, groupby_get k (groupby index seq)
          = List.filter (λ x, String.eqb (index x) k) seq).
Proof.
  split; [apply groupby_keys|]. split; [apply groupby_keys|].
  apply groupby_get_filter.
Qed.

Lemma flat_map_app_perm {A B} (f g : A → list B) l :
  flat_map (λ x, f x ++ g x) l ≡ₚ flat_map f l ++ flat_map g l.
Proof.
  induction l as [|x l IH]; [done|]. cbn [flat_map]. rewrite IH.
  rewrite <- !(assoc_L (++)). f_equiv. rewrite !(assoc_L (++)). f_equiv.
  apply Permutation_app_comm.
Qed.

Lemma flat_map_fmap {A B C} (f : B → C) (g : A → list B) l :
  flat_map (λ x, f <$> g x) l = f <$> flat_map g l.
Proof.
  induction l as [|x l IH]; [done|]. cbn [flat_map]. by rewrite fmap_app, IH.
Qed.

Lemma flat_map_ext_elem {A B} (f g : A → list B) l :
  (∀ x, x ∈ l → f x = g x) → flat_map f l = flat_map g l.
Proof.
  induction l as [|x l IH]; [done|]. intros H. cbn [flat_map].
  rewrite (H x) by (apply elem_of_cons; by left).
  rewrite IH; [done|]. intros y Hy. apply H. apply elem_of_cons. by right.
Qed.

Lemma flat_map_filter_key {A} (index : A → string) seq ks :
  NoDup ks → (∀ x, x ∈ seq → index x ∈ ks) →
  flat_map (λ k, List.filter (λ x, String.eqb (index x) k) seq) ks ≡ₚ seq.
Proof.
  intros Hnd. revert seq. induction Hnd as [|k ks Hk Hnd IH]; intros seq Hcov.
  - destruct seq as [|x seq]; [done|].
    exfalso. eapply elem_of_nil, (Hcov x). apply elem_of_cons. by left.
  - cbn [flat_map].
    assert (Hsplit : seq ≡ₚ List.filter (λ x, String.eqb (index x) k) seq
                         ++ List.filter (λ x, negb (String.eqb (index x) k)) seq).
    { clear. induction seq as [|x seq IHs]; [done|]. cbn [List.filter].
      destruct (String.eqb (index x) k); cbn [negb].
      - cbn. by f_equiv.
      - rewrite <- Permutation_middle. by f_equiv. }
    etrans; [|symmetry; exact Hsplit]. f_equiv.
    rewrite <- (IH (List.filter (λ x, negb (String.eqb (index x) k)) seq)).
    + apply reflexive_eq. apply flat_map_ext_elem. intros k' Hk'.
      clear -Hk Hk'. induction seq as [|x seq IHs]; [done|]. cbn [List.filter].
      destruct (String.eqb_spec (index x) k) as [<-|Hne]; cbn [negb List.filter].
      * destruct (String.eqb_spec (index x) k') as [<-|_]; [done|apply IHs].
      * destruct (String.eqb (index x) k'); [by rewrite IHs|apply IHs].
    + intros x Hx. apply list_elem_of_In, filter_In in Hx as [Hx Hne].
      apply list_elem_of_In in Hx.
      specialize (Hcov x Hx). apply elem_of_cons in Hcov as [Heq|?]; [|done].
      rewrite Heq, String.eqb_refl in Hne. done.
Qed.

Lemma handle_funcs_perm (infos : list func_info) :
  handle_funcs infos
  ≡ₚ (func_text <$> infos)
     ++ flat_map (λ name, [""; "/* " +:+ name +:+ " */"])
                 (fst <$> groupby group infos).
Proof.
  unfold handle_funcs. cbv zeta.
  rewrite (Permutation_flat_map _ (sorted_perm sort_key (fst <$> groupby group infos))).
  rewrite flat_map_app_perm, Permutation_app_comm. f_equiv.
  rewrite flat_map_fmap. f_equiv.
  rewrite (flat_map_ext _ (λ k, List.filter (λ x, String.eqb (group x) k) infos))
    by (intros k; apply groupby_get_filter).
  apply flat_map_filter_key; [apply groupby_keys|].
  intros x Hx. apply groupby_keys. eauto.
Qed.

(** Property X2.  [handle_funcs]: the lines it yields are the texts of the functions, each
    function once, and an empty line and a comment for each group of
    functions. *)
Theorem handle_funcs_each_function_once (infos : list func_info) :
  handle_funcs infos
  ≡ₚ (func_text <$> infos)
     ++ flat_map (λ name, [""; "/* " +:+ name +:+ " */"])
                 (fst <$> groupby group infos).
Proof. apply handle_funcs_perm. Qed.

Lemma elem_of_handle_funcs infos f :
  f ∈ infos → func_text f ∈ handle_funcs infos.
Proof.
  intros Hf. rewrite handle_funcs_perm. apply elem_of_app. left.
  apply list_elem_of_fmap. eauto.
Qed.

Lemma elem_of_texts (l : list info) i : i ∈ l → text i ∈ text <$> l.
Proof. intros Hi. apply list_elem_of_fmap. eauto. Qed.

Lemma elem_of_enum_texts (l : list info) i :
  i ∈ l → text i ∈ flat_map (λ group, [text group; ""]) l.
Proof.
  intros Hi. apply list_elem_of_In, in_flat_map. exists i.
  split; [by apply list_elem_of_In|]. by left.
Qed.

(** Find a member of one of the lists appended into a text. *)
Ltac in_app tac :=
  first [ tac | apply elem_of_app; first [ right; tac | left; in_app tac ] ].

(** Property X3.  [create_header_text]: the text of every record of the groups is a line of
    the header, and so are a [#define] line for every name of [defines] and a
    declaration for every name of [char_defines]. *)
Theorem create_header_text_keeps_every_record ord rv cd d :
  (∀ i, i ∈ line_infos rv ++ enum_infos rv → text i ∈ create_header_text ord rv cd d)
  ∧ (∀ f, f ∈ method_infos rv → func_text f ∈ create_header_text ord rv cd d)
  ∧ (∀ n, n ∈ default DEFINES d →
          "#define " +:+ n +:+ " ..." ∈ create_header_text ord rv cd d)
  ∧ (∀ n, n ∈ default CHAR_DEFINES cd →
          "extern char *" +:+ n +:+ "_STR;" ∈ create_header_text ord rv cd d).
Proof.
  unfold create_header_text; cbv zeta. repeat split.
  - intros i Hi. unfold line_infos, enum_infos in Hi. rewrite !elem_of_app in Hi.
    destruct Hi as [[Hi|[Hi|[Hi|[Hi|[Hi|[Hi|Hi]]]]]]|[Hi|Hi]].
    + in_app ltac:(exact (elem_of_texts _ _ Hi)).
    + in_app ltac:(exact (elem_of_texts _ _ Hi)).
    + destruct (Py.str_in "GxB" (text i)) eqn:Hx.
      * in_app ltac:(apply list_elem_of_In, filter_In; split;
                     [apply list_elem_of_In; exact (elem_of_texts _ _ Hi)|exact Hx]).
      * in_app ltac:(apply list_elem_of_In, filter_In; split;
                     [apply list_elem_of_In; exact (elem_of_texts _ _ Hi)|by rewrite Hx]).
    + in_app ltac:(exact (elem_of_texts _ _ Hi)).
    + in_app ltac:(exact (elem_of_texts _ _ Hi)).
    + in_app ltac:(exact (elem_of_texts _ _ Hi)).
    + in_app ltac:(exact (elem_of_texts _ _ Hi)).
    + in_app ltac:(exact (elem_of_enum_texts _ _ Hi)).
    + in_app ltac:(exact (elem_of_enum_texts _ _ Hi)).
  - intros f Hf. unfold method_infos in Hf. rewrite !elem_of_app in Hf.
    destruct Hf as [Hf|[Hf|Hf]].
    + in_app ltac:(exact (elem_of_handle_funcs _ _ Hf)).
    + in_app ltac:(exact (elem_of_handle_funcs _ _ Hf)).
    + in_app ltac:(exact (elem_of_handle_funcs _ _ Hf)).
  - intros n Hn.
    in_app ltac:(apply list_elem_of_fmap; exists n; split;
                 [reflexivity|by apply elem_of_sorted_set]).
  - intros n Hn.
    in_app ltac:(apply list_elem_of_fmap; exists n; split;
                 [reflexivity|by apply elem_of_sorted_set]).
Qed.

Lemma prefix_split p s : String.prefix p s = true → ∃ r, s = p +:+ r.
Proof.
  revert s. induction p as [|c p IH]; intros s; [by exists s|].
  destruct s as [|c' s]; [done|]. simpl.
  destruct (ascii_dec c c') as [<-|]; [|done].
  intros [r ->]%IH. by exists r.
Qed.

Lemma str_app_inv_head p x y : p +:+ x = p +:+ y → x = y.
Proof.
  induction p as [|c p IH]; [done|]. rewrite !str_app_cons. intros [= H]. auto.
Qed.

Lemma str_app_length s t : String.length (s +:+ t) = (String.length s + String.length t)%nat.
Proof.
  induction s as [|c s IH]; [done|]. rewrite str_app_cons. cbn [String.length].
  by rewrite IH.
Qed.

Lemma str_app_inv_length a b x y :
  a +:+ x = b +:+ y → String.length a = String.length b → a = b.
Proof.
  revert b. induction a as [|c a IH]; intros [|c' b]; try done.
  rewrite !str_app_cons. intros [= -> H] [= Hl]. f_equal. by apply IH.
Qed.

Lemma source_line_inj a b :
  "char *" +:+ a +:+ "_STR = " +:+ a +:+ ";" = "char *" +:+ b +:+ "_STR = " +:+ b +:+ ";"
  → a = b.
Proof.
  intros H%str_app_inv_head. apply (str_app_inv_length _ _ _ _ H).
  apply (f_equal String.length) in H. rewrite !str_app_length in H.
  cbn [String.length] in H. lia.
Qed.

Lemma sorted_set_length ord key X : List.length (sorted_set ord key X) = size X.
Proof.
  unfold sorted_set. rewrite sorted_perm, (iter_perm ord X). reflexivity.
Qed.

(** Property X4.  [create_source_text]: after the marker and the include line there is one
    line for each name of [char_defines], which defines the string the
    header declares for that name, and no other line. *)
Theorem create_source_text_defines_each_name ord cd rv d :
  List.length (create_source_text ord cd) = (2 + size (default CHAR_DEFINES cd))%nat
  ∧ (∀ n, "char *" +:+ n +:+ "_STR = " +:+ n +:+ ";" ∈ create_source_text ord cd
          ↔ n ∈ default CHAR_DEFINES cd)
  ∧ (∀ n, "char *" +:+ n +:+ "_STR = " +:+ n +:+ ";" ∈ create_source_text ord cd
          → "extern char *" +:+ n +:+ "_STR;" ∈ create_header_text ord rv cd d).
Proof.
  assert (Hiff : ∀ n, "char *" +:+ n +:+ "_STR = " +:+ n +:+ ";" ∈ create_source_text ord cd
                      ↔ n ∈ default CHAR_DEFINES cd).
  { intros n. unfold create_source_text; cbv zeta.
    rewrite elem_of_app, list_elem_of_fmap. split.
    - intros [Hn|(m & Heq & Hm)].
      + apply elem_of_cons in Hn as [Hn|Hn]; [discriminate Hn|].
        apply list_elem_of_singleton in Hn. discriminate Hn.
      + apply source_line_inj in Heq as ->. by apply elem_of_sorted_set in Hm.
    - intros Hn. right. exists n. split; [done|]. by apply elem_of_sorted_set. }
  split; [|split; [exact Hiff|]].
  - unfold create_source_text; cbv zeta.
    rewrite length_app, length_fmap, sorted_set_length. reflexivity.
  - intros n Hn%Hiff. unfold create_header_text; cbv zeta.
    in_app ltac:(apply list_elem_of_fmap; exists n; split;
                 [reflexivity|by apply elem_of_sorted_set]).
Qed.

(** Property X5.  [sort_key] gives different keys to different names, so that a list sorted
    with [sort_key] does not depend on the order its elements came in. *)
Theorem sorted_sort_key_canonical (l1 l2 : list string) :
  (∀ s1 s2, sort_key s1 = sort_key s2 → s1 = s2)
  ∧ (l1 ≡ₚ l2 → Py.sorted sort_key l1 = Py.sorted sort_key l2).
Proof.
  split; [apply sort_key_inj|]. intros Hp.
  apply (StronglySorted_unique_strong (key_le sort_key)).
  - intros x y _ _ Hxy Hyx. apply sort_key_inj. by apply (anti_symm String.le).
  - apply sorted_StronglySorted.
  - apply sorted_StronglySorted.
  - by rewrite !sorted_perm.
Qed.

Lemma bool_decide_empty (X : gset string) :
  bool_decide (X = ∅) = true → ∀ x, x ∉ X.
Proof. intros H%bool_decide_eq_true_1 x. rewrite H. apply not_elem_of_empty. Qed.

Lemma elem_of_bucket (p : string → bool) lines (seen : gset string) x :
  x ∈ set_of p lines ∖ seen ↔ x ∈ lines ∧ p x = true ∧ x ∉ seen.
Proof. rewrite elem_of_difference, elem_of_set_of. tauto. Qed.

Lemma get_groups_facts ord a g :
  get_groups ord a = Ok g →
  let lines := Py.splitlines (unit_text a) in
  (* the function lines *)
  ((∀ x, x ∈ GxB_methods g ↔ x ∈ lines ∧ Py.str_in "extern GrB_Info GxB" x = true)
   ∧ (∀ x, x ∈ GrB_methods g ↔
           x ∈ lines ∧ Py.str_in "extern GrB_Info GrB" x = true ∧ x ∉ GxB_methods g)
   ∧ (∀ x, x ∈ GB_methods g ↔
           x ∈ lines ∧ Py.str_in "extern GrB_Info GB" x = true
           ∧ (x ∉ GxB_methods g) ∧ (x ∉ GrB_methods g))
   ∧ (∀ x, x ∈ lines → Py.str_in "extern GrB_Info " x = true →
           x ∈ GxB_methods g ∨ x ∈ GrB_methods g ∨ x ∈ GB_methods g))
  (* every group of lines holds lines that pass its test *)
  ∧ (∀ i k l test x, (line_groups g !! i) = Some (k, l) → (bucket_tests !! i) = Some test →
        x ∈ l → x ∈ lines ∧ test x = true)
  (* the sanity check *)
  ∧ (∀ x, x ∈ declaration_lines g → Py.endswith ";" x = true)
  (* the enum typedefs *)
  ∧ ((∀ x, x ∈ GrB_typedef_enums g ↔ x ∈ VisitEnumTypedef a ∧ Py.str_in "} GrB" x = true)
     ∧ (∀ x, x ∈ GxB_typedef_enums g ↔ x ∈ VisitEnumTypedef a ∧ Py.str_in "} GxB" x = true)
     ∧ (∀ x, x ∈ VisitEnumTypedef a → x ∈ GrB_typedef_enums g ∨ x ∈ GxB_typedef_enums g))
  (* the last two checks *)
  ∧ (∀ x, x ∈ lines → Py.str_in "typedef" x = true → Py.str_in "GrB" x = true →
          x ∈ declaration_lines g ∨ x ∈ GxB_typedef_funcs g ∨ enum_line g x)
  ∧ (∀ x, x ∈ not_seen g → Py.str_in "extern" x = false)
  (* how the groups are built *)
  ∧ (∀ k l, (k, l) ∈ line_groups g → ∃ X, l = sorted_set ord sort_key X)
  ∧ (∀ k l, (k, l) ∈ enum_groups g → ∃ X, l = sorted_set ord enum_key X).
Proof.
  cbv delta [get_groups]; cbv beta.
  do 62 try intro_let.
  lazymatch goal with
  | H : ?n = sorted_set _ sort_key (list_to_set _ ∖ _) |- _ =>
      rename n into ns; rename H into Ens
  end.
  intros [= <-]. intros lines'. subst lines'. rewrite <- Elines.
  unfold declaration_lines, line_groups, enum_groups, enum_line.
  cbn [GxB_methods GrB_methods GB_methods GrB_objects GxB_objects GxB_const
       GrB_const GxB_typedef GrB_typedef GxB_typedef_funcs not_seen
       GrB_typedef_enums GxB_typedef_enums].
  assert (G1 : ∀ x, x ∈ gxb_methods ↔ x ∈ vals)
    by (intros x; rewrite Egxb_methods; apply elem_of_sorted_set).
  assert (G2 : ∀ x, x ∈ grb_methods ↔ x ∈ vals0)
    by (intros x; rewrite Egrb_methods; apply elem_of_sorted_set).
  assert (G3 : ∀ x, x ∈ gb_methods ↔ x ∈ vals1)
    by (intros x; rewrite Egb_methods; apply elem_of_sorted_set).
  assert (G4 : ∀ x, x ∈ grb_objects ↔ x ∈ vals2)
    by (intros x; rewrite Egrb_objects; apply elem_of_sorted_set).
  assert (G5 : ∀ x, x ∈ gxb_objects ↔ x ∈ vals3)
    by (intros x; rewrite Egxb_objects; apply elem_of_sorted_set).
  assert (G6 : ∀ x, x ∈ gxb_const ↔ x ∈ vals4)
    by (intros x; rewrite Egxb_const; apply elem_of_sorted_set).
  assert (G7 : ∀ x, x ∈ grb_const ↔ x ∈ vals5)
    by (intros x; rewrite Egrb_const; apply elem_of_sorted_set).
  assert (G8 : ∀ x, x ∈ gxb_typedef ↔ x ∈ vals6)
    by (intros x; rewrite Egxb_typedef; apply elem_of_sorted_set).
  assert (G9 : ∀ x, x ∈ grb_typedef ↔ x ∈ vals7)
    by (intros x; rewrite Egrb_typedef; apply elem_of_sorted_set).
  assert (G10 : ∀ x, x ∈ gxb_typedef_funcs ↔ x ∈ vals10)
    by (intros x; rewrite Egxb_typedef_funcs; apply elem_of_sorted_set).
  assert (GE1 : ∀ x, x ∈ grb_typedef_enums ↔ x ∈ vals8)
    by (intros x; rewrite Egrb_typedef_enums; apply elem_of_sorted_set).
  assert (GE2 : ∀ x, x ∈ gxb_typedef_enums ↔ x ∈ vals9)
    by (intros x; rewrite Egxb_typedef_enums; apply elem_of_sorted_set).
  assert (V1 : ∀ x, x ∈ vals ↔ x ∈ lines ∧ Py.str_in "extern GrB_Info GxB" x = true ∧ x ∉ seen)
    by (intros x; rewrite Evals; apply elem_of_bucket).
  assert (V2 : ∀ x, x ∈ vals0 ↔ x ∈ lines ∧ Py.str_in "extern GrB_Info GrB" x = true ∧ x ∉ seen0)
    by (intros x; rewrite Evals0; apply elem_of_bucket).
  assert (V3 : ∀ x, x ∈ vals1 ↔ x ∈ lines ∧ Py.str_in "extern GrB_Info GB" x = true ∧ x ∉ seen1)
    by (intros x; rewrite Evals1; apply elem_of_bucket).
  assert (V4 : ∀ x, x ∈ vals2 ↔ x ∈ lines ∧ Py.str_in "extern GrB" x = true ∧ x ∉ seen2)
    by (intros x; rewrite Evals2; apply elem_of_bucket).
  assert (V5 : ∀ x, x ∈ vals3 ↔ x ∈ lines ∧ Py.str_in "extern GxB" x = true ∧ x ∉ seen3)
    by (intros x; rewrite Evals3; apply elem_of_bucket).
  assert (V6 : ∀ x, x ∈ vals4 ↔ x ∈ lines
             ∧ Py.str_in "extern const" x && Py.str_in "GxB" x = true ∧ x ∉ seen4)
    by (intros x; rewrite Evals4; apply elem_of_bucket).
  assert (V7 : ∀ x, x ∈ vals5 ↔ x ∈ lines
             ∧ Py.str_in "extern const" x && Py.str_in "GrB" x = true ∧ x ∉ seen5)
    by (intros x; rewrite Evals5; apply elem_of_bucket).
  assert (V8 : ∀ x, x ∈ vals6 ↔ x ∈ lines
             ∧ Py.str_in "typedef" x && Py.str_in "GxB" x && negb (Py.str_in "(" x) = true
             ∧ x ∉ seen6)
    by (intros x; rewrite Evals6; apply elem_of_bucket).
  assert (V9 : ∀ x, x ∈ vals7 ↔ x ∈ lines
             ∧ Py.str_in "typedef" x && Py.str_in "GrB" x && negb (Py.str_in "(" x) = true
             ∧ x ∉ seen7)
    by (intros x; rewrite Evals7; apply elem_of_bucket).
  assert (V10 : ∀ x, x ∈ vals10 ↔ x ∈ lines
             ∧ Py.str_in "typedef" x && Py.str_in "GxB" x = true ∧ x ∉ seen10)
    by (intros x; rewrite Evals10; apply elem_of_bucket).
  assert (S0 : ∀ x, x ∈ seen0 ↔ x ∈ vals).
  { intros x. rewrite Eseen0, Eseen, elem_of_union, elem_of_empty. tauto. }
  assert (S1 : ∀ x, x ∈ seen1 ↔ x ∈ seen0 ∨ x ∈ vals0)
    by (intros x; rewrite Eseen1; apply elem_of_union).
  assert (S2 : ∀ x, x ∈ seen2 ↔ x ∈ seen1 ∨ x ∈ vals1)
    by (intros x; rewrite Eseen2; apply elem_of_union).
  assert (S3 : ∀ x, x ∈ seen3 ↔ x ∈ seen2 ∨ x ∈ vals2)
    by (intros x; rewrite Eseen3; apply elem_of_union).
  assert (S4 : ∀ x, x ∈ seen4 ↔ x ∈ seen3 ∨ x ∈ vals3)
    by (intros x; rewrite Eseen4; apply elem_of_union).
  assert (S5 : ∀ x, x ∈ seen5 ↔ x ∈ seen4 ∨ x ∈ vals4)
    by (intros x; rewrite Eseen5; apply elem_of_union).
  assert (S6 : ∀ x, x ∈ seen6 ↔ x ∈ seen5 ∨ x ∈ vals5)
    by (intros x; rewrite Eseen6; apply elem_of_union).
  assert (S7 : ∀ x, x ∈ seen7 ↔ x ∈ seen6 ∨ x ∈ vals6)
    by (intros x; rewrite Eseen7; apply elem_of_union).
  assert (S8 : ∀ x, x ∈ seen8 ↔ x ∈ seen7 ∨ x ∈ vals7)
    by (intros x; rewrite Eseen8; apply elem_of_union).
  assert (S9 : ∀ x, x ∈ seen9 ↔ x ∈ seen8 ∨ ∃ val, val ∈ vals8 ∧ x ∈ Py.splitlines val)
    by (intros x; rewrite Eseen9; apply elem_of_update_splitlines).
  assert (S10 : ∀ x, x ∈ seen10 ↔ x ∈ seen9 ∨ ∃ val, val ∈ vals9 ∧ x ∈ Py.splitlines val)
    by (intros x; rewrite Eseen10; apply elem_of_update_splitlines).
  assert (S11 : ∀ x, x ∈ seen11 ↔ x ∈ seen10 ∨ x ∈ vals10)
    by (intros x; rewrite Eseen11; apply elem_of_union).
  assert (Sempty : ∀ x, x ∉ seen) by (intros x; rewrite Eseen; apply not_elem_of_empty).
  pose proof (bool_decide_empty _ Hassert) as Hmethods.
  pose proof (bool_decide_empty _ Hassert3) as Henums.
  pose proof (bool_decide_empty _ Hassert4) as Hfuncs.
  clear Hassert Hassert0 Hassert1 Hassert3 Hassert4.
  clear Evals Evals0 Evals1 Evals2 Evals3 Evals4 Evals5 Evals6 Evals7 Evals10
        Eseen Eseen0 Eseen1 Eseen2 Eseen3 Eseen4 Eseen5 Eseen6 Eseen7 Eseen8
        Eseen9 Eseen10 Eseen11.
  split; [|split; [|split; [|split; [|split; [|split; [|split]]]]]].
  - (* the function lines *)
    split; [|split; [|split]].
    + intros x. rewrite G1, V1. specialize (Sempty x). tauto.
    + intros x. rewrite G2, V2, G1, S0. tauto.
    + intros x. rewrite G3, V3, G1, G2, S1, S0. tauto.
    + intros x Hx Hp. rewrite G1, G2, G3.
      destruct (decide (x ∈ seen2)) as [Hs|Hs].
      * apply S2 in Hs. rewrite S1, S0 in Hs. tauto.
      * exfalso. apply (Hmethods x). rewrite Emissing_methods.
        apply elem_of_bucket. done.
  - (* the tests *)
    intros i k l test x Hi Ht Hx.
    do 10 (destruct i as [|i];
           [injection Hi as <- <-; injection Ht as <-;
            first [ apply G1, V1 in Hx | apply G2, V2 in Hx | apply G3, V3 in Hx
                  | apply G4, V4 in Hx | apply G5, V5 in Hx | apply G6, V6 in Hx
                  | apply G7, V7 in Hx | apply G8, V8 in Hx | apply G9, V9 in Hx
                  | apply G10, V10 in Hx ]; tauto|]).
    destruct i; discriminate Ht.
  - (* the sanity check *)
    intros x Hx.
    assert (Hs : x ∈ seen8).
    { rewrite !elem_of_app, G1, G2, G3, G4, G5, G6, G7, G8, G9 in Hx.
      rewrite S8, S7, S6, S5, S4, S3, S2, S1, S0. tauto. }
    rewrite forallb_forall in Hassert2. apply Hassert2.
    by apply list_elem_of_In, elem_of_iter.
  - (* the enum typedefs *)
    assert (Ve1 : ∀ x, x ∈ vals8 ↔ x ∈ enums ∧ Py.str_in "} GrB" x = true)
      by (intros x; rewrite Evals8; apply elem_of_set_of).
    assert (Ve2 : ∀ x, x ∈ vals9 ↔ x ∈ enums ∧ Py.str_in "} GxB" x = true)
      by (intros x; rewrite Evals9; apply elem_of_set_of).
    rewrite <- Eenums. split; [|split].
    + intros x. by rewrite GE1, Ve1.
    + intros x. by rewrite GE2, Ve2.
    + intros x Hx.
      destruct (decide (x ∈ grb_typedef_enums)) as [?|H1]; [by left|].
      destruct (decide (x ∈ gxb_typedef_enums)) as [?|H2]; [by right|].
      exfalso. apply (Henums x). rewrite Emissing_enums.
      rewrite !elem_of_difference, !elem_of_list_to_set. done.
  - (* no function typedef in GrB *)
    intros x Hx Ht Hg.
    assert (Hs : x ∈ seen11).
    { destruct (decide (x ∈ seen11)) as [?|Hs]; [done|].
      exfalso. apply (Hfuncs x). rewrite Evals11. apply elem_of_bucket.
      by rewrite Ht, Hg. }
    apply S11 in Hs. rewrite S10, S9, S8, S7, S6, S5, S4, S3, S2, S1, S0 in Hs.
    rewrite !elem_of_app, G1, G2, G3, G4, G5, G6, G7, G8, G9, G10.
    setoid_rewrite GE1. setoid_rewrite GE2.
    destruct Hs as [[[Hs|(val & Hv & Hl)]|(val & Hv & Hl)]|Hs].
    + left. tauto.
    + right. right. exists val. tauto.
    + right. right. exists val. tauto.
    + right. by left.
  - (* no extern line is left *)
    intros x Hx. rewrite forallb_forall in Hassert5.
    apply list_elem_of_In, Hassert5 in Hx. by apply negb_true_iff in Hx.
  - intros k l Hkl. rewrite !elem_of_cons in Hkl.
    destruct Hkl as [Hkl|[Hkl|[Hkl|[Hkl|[Hkl|[Hkl|[Hkl|[Hkl|[Hkl|[Hkl|[Hkl|Hkl]]]]]]]]]]];
      [injection Hkl as -> ->; eauto..|].
    by apply elem_of_nil in Hkl.
  - intros k l Hkl. rewrite !elem_of_cons in Hkl.
    destruct Hkl as [Hkl|[Hkl|Hkl]]; [injection Hkl as -> ->; eauto..|].
    by apply elem_of_nil in Hkl.
Qed.

Lemma prefix_app_l a b s : String.prefix (a +:+ b) s = true → String.prefix a s = true.
Proof.
  revert s. induction a as [|c a IH]; intros s; [by destruct s|].
  rewrite str_app_cons. destruct s as [|c' s]; [done|]. simpl.
  destruct (ascii_dec c c'); [apply IH|done].
Qed.

Lemma str_in_app_l a b s : Py.str_in (a +:+ b) s = true → Py.str_in a s = true.
Proof.
  induction s as [|c s IH]; rewrite !(str_in_unfold _ (String c s)) || rewrite !(str_in_unfold _ "").
  - rewrite !orb_false_r. apply prefix_app_l.
  - intros [H|H]%orb_true_iff; apply orb_true_iff; [left|right; auto].
    by apply prefix_app_l in H.
Qed.

Lemma sorted_set_NoDup ord key X : NoDup (sorted_set ord key X).
Proof.
  unfold sorted_set. rewrite sorted_perm, (iter_perm ord X). apply NoDup_elements.
Qed.

(** Property X6.  [get_groups]: each group is in the order of its sort key and holds no
    line or typedef twice, even where the text repeats it. *)
Theorem get_groups_sorted_without_duplicates ord a g :
  get_groups ord a = Ok g →
  (∀ k l, (k, l) ∈ line_groups g → NoDup l ∧ StronglySorted (key_le sort_key) l)
  ∧ (∀ k l, (k, l) ∈ enum_groups g → NoDup l ∧ StronglySorted (key_le enum_key) l).
Proof.
  intros H. destruct (get_groups_facts _ _ _ H) as (_ & _ & _ & _ & _ & _ & Hl & He).
  split; intros k l Hkl.
  - destruct (Hl k l Hkl) as [X ->]. split; [apply sorted_set_NoDup|].
    apply sorted_StronglySorted.
  - destruct (He k l Hkl) as [X ->]. split; [apply sorted_set_NoDup|].
    apply sorted_StronglySorted.
Qed.

(** Property X7.  [get_groups]: when it succeeds, the three groups of methods hold exactly
    the lines that contain [extern GrB_Info ], and no line left in
    ["not seen"] contains [extern]. *)
Theorem get_groups_function_lines ord a g :
  get_groups ord a = Ok g →
  (∀ x, x ∈ GxB_methods g ∨ x ∈ GrB_methods g ∨ x ∈ GB_methods g
        ↔ x ∈ Py.splitlines (unit_text a) ∧ Py.str_in "extern GrB_Info " x = true)
  ∧ (∀ x, x ∈ not_seen g → Py.str_in "extern" x = false).
Proof.
  intros H.
  destruct (get_groups_facts _ _ _ H) as ((H1 & H2 & H3 & Hm) & _ & _ & _ & _ & Hns & _).
  split; [|exact Hns]. intros x. split.
  - intros [Hx|[Hx|Hx]].
    + apply H1 in Hx as [? Hx]. split; [done|].
      exact (str_in_app_l "extern GrB_Info " "GxB" x Hx).
    + apply H2 in Hx as (? & Hx & _). split; [done|].
      exact (str_in_app_l "extern GrB_Info " "GrB" x Hx).
    + apply H3 in Hx as (? & Hx & _). split; [done|].
      exact (str_in_app_l "extern GrB_Info " "GB" x Hx).
  - intros [Hx Hp]. by apply Hm.
Qed.

(** Property X9.  [get_groups]: when it succeeds, every function, object, constant and
    typedef line it has grouped ends with a semicolon. *)
Theorem get_groups_declarations_end_with_semicolon ord a g x :
  get_groups ord a = Ok g → x ∈ declaration_lines g → Py.endswith ";" x = true.
Proof.
  intros H. destruct (get_groups_facts _ _ _ H) as (_ & _ & Hsemi & _). apply Hsemi.
Qed.

(** Property X10.  [get_groups]: when it succeeds, the two enum groups hold the enum
    typedefs of the tree whose text contains [} GrB], respectively [} GxB],
    and every enum typedef of the tree is in one of them. *)
Theorem get_groups_enum_typedefs ord a g :
  get_groups ord a = Ok g →
  (∀ x, x ∈ GrB_typedef_enums g ↔ x ∈ VisitEnumTypedef a ∧ Py.str_in "} GrB" x = true)
  ∧ (∀ x, x ∈ GxB_typedef_enums g ↔ x ∈ VisitEnumTypedef a ∧ Py.str_in "} GxB" x = true)
  ∧ (∀ x, x ∈ VisitEnumTypedef a → x ∈ GrB_typedef_enums g ∨ x ∈ GxB_typedef_enums g).
Proof.
  intros H. destruct (get_groups_facts _ _ _ H) as (_ & _ & _ & He & _). exact He.
Qed.

Lemma assert_bind_raise {A} b (k : unit → result A) e :
  (assert b ≫= k) = Raise e → e = AssertionError ∨ k tt = Raise e.
Proof. destruct b; [by right|]. intros [= <-]. by left. Qed.

(** Pass the next [let] or [assert] of a computation that raises. *)
Ltac raise_step :=
  lazymatch goal with
  | |- (let x := ?v in @?f x) = ?r → ?P =>
      refine (let_elim v f r P _); intros ? _; cbv beta
  | |- (assert ?b ≫= ?k) = _ → _ =>
      let H := fresh "H" in
      intros H; apply assert_bind_raise in H as [H|H];
      [exact H|revert H; cbv beta]
  end.

Lemma get_groups_raises ord a e : get_groups ord a = Raise e → e = AssertionError.
Proof.
  cbv delta [get_groups]; cbv beta. do 62 try raise_step. discriminate.
Qed.

(** Property X11.  [get_groups]: a line that contains [extern GrB_Info ] followed by none of
    [GxB], [GrB] and [GB] makes it raise [AssertionError]. *)
Theorem get_groups_rejects_unprefixed_function ord a x :
  x ∈ Py.splitlines (unit_text a) →
  Py.str_in "extern GrB_Info " x = true →
  Py.str_in "extern GrB_Info GxB" x = false →
  Py.str_in "extern GrB_Info GrB" x = false →
  Py.str_in "extern GrB_Info GB" x = false →
  get_groups ord a = Raise AssertionError.
Proof.
  intros Hx Hp H1 H2 H3. destruct (get_groups ord a) as [g|e] eqn:Hg.
  - exfalso.
    destruct (get_groups_facts _ _ _ Hg) as ((G1 & G2 & G3 & Hm) & _).
    destruct (Hm x Hx Hp) as [Hi|[Hi|Hi]].
    + apply G1 in Hi as [_ Hi]. congruence.
    + apply G2 in Hi as (_ & Hi & _). congruence.
    + apply G3 in Hi as (_ & Hi & _). congruence.
  - by rewrite (get_groups_raises _ _ _ Hg).
Qed.

(** Property X12.  [get_groups]: a typedef line of a function type (it contains an opening
    parenthesis) that names [GrB] and not [GxB] makes it raise
    [AssertionError]: only [GxB] function typedefs have a group. *)
Theorem get_groups_rejects_GrB_function_typedef ord a x :
  x ∈ Py.splitlines (unit_text a) →
  Py.str_in "typedef" x = true → Py.str_in "GrB" x = true → Py.str_in "(" x = true →
  Py.str_in "GxB" x = false → Py.str_in "extern" x = false →
  (∀ e, e ∈ VisitEnumTypedef a → x ∉ Py.splitlines e) →
  get_groups ord a = Raise AssertionError.
Proof.
  intros Hx Ht Hg Hp Hgxb Hext Henum. destruct (get_groups ord a) as [g|e] eqn:Hgr.
  - exfalso.
    destruct (get_groups_facts _ _ _ Hgr) as (_ & Htest & _ & (E1 & E2 & _) & Hfun & _).
    assert (He : ∀ s, Py.str_in ("extern" +:+ s) x = true → False).
    { intros s Hs. apply str_in_app_l in Hs. congruence. }
    destruct (Hfun x Hx Ht Hg) as [Hi|[Hi|(e & [Hi|Hi] & Hl)]].
    + unfold declaration_lines in Hi. rewrite !elem_of_app in Hi.
      destruct Hi as [Hi|[Hi|[Hi|[Hi|[Hi|[Hi|[Hi|[Hi|Hi]]]]]]]].
      * destruct (Htest 0%nat _ _ _ x eq_refl eq_refl Hi) as [_ T].
        exact (He " GrB_Info GxB" T).
      * destruct (Htest 1%nat _ _ _ x eq_refl eq_refl Hi) as [_ T].
        exact (He " GrB_Info GrB" T).
      * destruct (Htest 2%nat _ _ _ x eq_refl eq_refl Hi) as [_ T].
        exact (He " GrB_Info GB" T).
      * destruct (Htest 3%nat _ _ _ x eq_refl eq_refl Hi) as [_ T].
        exact (He " GrB" T).
      * destruct (Htest 4%nat _ _ _ x eq_refl eq_refl Hi) as [_ T].
        exact (He " GxB" T).
      * destruct (Htest 5%nat _ _ _ x eq_refl eq_refl Hi) as [_ T].
        apply andb_true_iff in T as [T _]. exact (He " const" T).
      * destruct (Htest 6%nat _ _ _ x eq_refl eq_refl Hi) as [_ T].
        apply andb_true_iff in T as [T _]. exact (He " const" T).
      * destruct (Htest 7%nat _ _ _ x eq_refl eq_refl Hi) as [_ T].
        apply andb_true_iff in T as [_ T]. rewrite Hp in T. discriminate T.
      * destruct (Htest 8%nat _ _ _ x eq_refl eq_refl Hi) as [_ T].
        apply andb_true_iff in T as [_ T]. rewrite Hp in T. discriminate T.
    + destruct (Htest 9%nat _ _ _ x eq_refl eq_refl Hi) as [_ T].
      apply andb_true_iff in T as [_ T]. congruence.
    + apply E1 in Hi as [Hi _]. exact (Henum e Hi Hl).
    + apply E2 in Hi as [Hi _]. exact (Henum e Hi Hl).
  - by rewrite (get_groups_raises _ _ _ Hgr).
Qed.

(** Property X8.  [get_groups]: when it succeeds, every member of a group of lines other
    than ["not seen"] is a line of the text that passes the test of the
    group. *)
Theorem get_groups_members_pass_their_test ord a g i k l test x :
  get_groups ord a = Ok g →
  line_groups g !! i = Some (k, l) → bucket_tests !! i = Some test → x ∈ l →
  x ∈ Py.splitlines (unit_text a) ∧ test x = true.
Proof.
  intros H. destruct (get_groups_facts _ _ _ H) as (_ & Htest & _). apply Htest.
Qed.

Lemma generate_skip {A B} (bf bt : A → result (option B)) (c : B → bool) l out :
  (∀ x r, bf x = Ok r → bt x = Ok (skip_complex_of c r)) →
  generate bf l = Ok out →
  generate bt l = Ok (List.filter (λ y, negb (c y)) out).
Proof.
  intros Hb. revert out. induction l as [|x l IH]; intros out.
  - by intros [= <-].
  - rewrite !generate_cons.
    intros (r & Hr & H)%bind_ok. apply bind_ok in H as (rest & Hrest & H).
    apply Ok_inj in H as <-. rewrite (Hb _ _ Hr), (IH _ Hrest).
    cbn [mbind result_bind]. destruct r as [y|]; cbn [skip_complex_of]; [|done].
    cbn [List.filter]. by destruct (c y).
Qed.

Lemma handle_constants_line_skip line r :
  handle_constants_line false line = Ok r →
  handle_constants_line true line = Ok (skip_complex_of (λ i, has_complex (text i)) r).
Proof.
  unfold handle_constants_line.
  destruct (Py.split " " line) as [|e [|c [|t [|n [|??]]]]]; try discriminate.
  destruct (Py.endswith ";" n); [|discriminate].
  destruct (String.eqb e "extern"); [|discriminate].
  destruct (String.eqb c "const"); [|discriminate].
  cbn [assert mbind result_bind andb].
  destruct (bool_decide _); [by intros [= <-]|].
  intros [= <-]. cbn [skip_complex_of text]. by destruct (has_complex line).
Qed.

Lemma handle_objects_line_skip line r :
  handle_objects_line false line = Ok r →
  handle_objects_line true line = Ok (skip_complex_of (λ i, has_complex (text i)) r).
Proof.
  unfold handle_objects_line.
  destruct (Py.split " " line) as [|e [|t [|n [|??]]]]; try discriminate.
  destruct (Py.endswith ";" n); [|discriminate].
  destruct (String.eqb e "extern"); [|discriminate].
  cbn [assert mbind result_bind andb].
  destruct (bool_decide _); [by intros [= <-]|].
  intros [= <-]. cbn [skip_complex_of text]. by destruct (has_complex line).
Qed.

Lemma handle_typedefs_line_skip line r :
  handle_typedefs_line false line = Ok r →
  handle_typedefs_line true line = Ok (skip_complex_of (λ i, has_complex (text i)) r).
Proof.
  unfold handle_typedefs_line.
  destruct (Py.split " " line) as [|t [|n rest]]; try discriminate.
  destruct (String.eqb t "typedef"); [|discriminate].
  destruct (Py.endswith ";" _); [|discriminate].
  cbn [assert mbind result_bind andb].
  destruct (bool_decide _); [by intros [= <-]|].
  intros [= <-]. cbn [skip_complex_of text]. by destruct (has_complex line).
Qed.

Lemma handle_typedef_funcs_line_skip line r :
  handle_typedef_funcs_line false line = Ok r →
  handle_typedef_funcs_line true line = Ok (skip_complex_of (λ i, has_complex (text i)) r).
Proof.
  unfold handle_typedef_funcs_line.
  destruct (Py.endswith ";" line && Py.startswith "typedef" line); [|discriminate].
  cbn [assert mbind result_bind andb].
  intros [= <-]. cbn [skip_complex_of text]. by destruct (has_complex line).
Qed.

Lemma function_groups_known k v :
  function_groups !! k = Some v → v ∈ known_function_groups.
Proof.
  assert (H : map_Forall (λ _ v, v ∈ known_function_groups) function_groups).
  { apply (bool_decide_unpack _). vm_compute. exact I. }
  apply H.
Qed.

Lemma handle_function_node_skip n r :
  handle_function_node false n = Ok r →
  handle_function_node true n = Ok (skip_complex_of (λ f, has_complex (func_text f)) r).
Proof.
  unfold handle_function_node.
  destruct (negb _); [discriminate|].
  destruct (bool_decide _); [by intros [= <-]|].
  cbn [andb].
  intros (g & Hg & H)%bind_ok. apply Ok_inj in H as <-.
  cbn [skip_complex_of func_text].
  destruct (has_complex (decl_text n +:+ ";")); [done|].
  by rewrite Hg.
Qed.

Lemma handle_function_node_group skip n f :
  handle_function_node skip n = Ok (Some f) →
  decl_return n = "GrB_Info"
  ∧ group f ∈ known_function_groups
  ∧ (if Py.str_in "GrB_Matrix" (func_text f) then group f = "matrix"
     else if Py.str_in "GrB_Vector" (func_text f) then group f = "vector"
     else if Py.str_in "GxB_Scalar" (func_text f) then group f = "scalar"
     else function_groups !! (Py.split "_" (name f) !!! 1%nat) = Some (group f)).
Proof.
  unfold handle_function_node.
  destruct (String.eqb_spec (decl_return n) "GrB_Info") as [Hret|]; [|discriminate].
  cbn [negb].
  destruct (bool_decide _); [discriminate|].
  destruct (skip && has_complex _); [discriminate|].
  intros (g & Hg & H)%bind_ok. apply Ok_inj in H. injection H as <-.
  cbn [group func_text name]. split; [done|].
  destruct (Py.str_in "GrB_Matrix" _).
  { injection Hg as <-. split; [|done]. apply (bool_decide_unpack _). vm_compute. exact I. }
  destruct (Py.str_in "GrB_Vector" _).
  { injection Hg as <-. split; [|done]. apply (bool_decide_unpack _). vm_compute. exact I. }
  destruct (Py.str_in "GxB_Scalar" _).
  { injection Hg as <-. split; [|done]. apply (bool_decide_unpack _). vm_compute. exact I. }
  destruct (Py.split "_" (decl_name n) !! 1%nat) as [k|] eqn:Hk; [|discriminate].
  destruct (function_groups !! k) as [v|] eqn:Hv; [|discriminate].
  injection Hg as <-. split; [by eapply function_groups_known|].
  by rewrite (list_lookup_total_correct _ _ _ Hk).
Qed.

Lemma get_group_info_counts skip groups a rv :
  get_group_info skip groups a = Ok rv →
  List.length (nodes_with "GrB_" a) = List.length (GrB_methods groups)
  ∧ List.length (nodes_with "GxB_" a) = List.length (GxB_methods groups)
  ∧ List.length (nodes_with "GB_" a) = List.length (GB_methods groups).
Proof.
  unfold get_group_info. fold (nodes_with "GrB_" a) (nodes_with "GxB_" a) (nodes_with "GB_" a).
  intros H. do 9 apply bind_ok in H as (? & _ & H). cbv zeta in H.
  apply bind_ok in H as (_ & H1%assert_ok & H).
  apply bind_ok in H as (_ & H2%assert_ok & H).
  apply bind_ok in H as (_ & H3%assert_ok & H).
  by apply Nat.eqb_eq in H1, H2, H3.
Qed.

Lemma handle_enums_field_skip f r :
  handle_enums_field false f = Ok r →
  handle_enums_field true f = Ok (skip_complex_of (λ fld, has_complex (field_name fld)) r).
Proof.
  unfold handle_enums_field. fold (field_norm f). unfold field_name.
  destruct (Py.split " " (field_norm f)) as [|n [|e [|v [|??]]]] eqn:Hs; try discriminate.
  destruct (String.eqb e "="); [|discriminate].
  cbn [assert mbind result_bind andb].
  destruct (bool_decide _); [by intros [= <-]|].
  intros [= <-]. cbn [skip_complex_of]. rewrite Hs. cbn [List.hd].
  by destruct (has_complex n).
Qed.

Lemma handle_enums_text_skip text r :
  handle_enums_text false text = Ok r → ∃ r', handle_enums_text true text = Ok r'.
Proof.
  unfold handle_enums_text.
  destruct (unpack_ends _) as [[[typedef rest] cname]|]; [|discriminate].
  cbn [mbind result_bind]. destruct rest as [|bracket fields]; [discriminate|].
  destruct (String.eqb (Py.strip typedef) "typedef enum") eqn:Ht; [|discriminate].
  destruct (String.eqb bracket "{"); [|discriminate].
  destruct (Py.startswith "}" cname); [|discriminate].
  destruct (Py.endswith ";" cname); [|discriminate].
  cbn [assert mbind result_bind andb].
  destruct (bool_decide _); [eauto|].
  destruct (has_complex _); [eauto|].
  destruct (String.eqb (Py.strip (Py.strip typedef)) "typedef enum"); [|discriminate].
  cbn [assert mbind result_bind].
  intros (nf & Hnf & H)%bind_ok.
  rewrite (generate_skip _ _ _ _ _ handle_enums_field_skip Hnf).
  cbn [mbind result_bind]. destruct (List.filter _ nf); eauto.
Qed.

Lemma handle_enums_skip group out :
  handle_enums false group = Ok out → ∃ out', handle_enums true group = Ok out'.
Proof.
  unfold handle_enums. revert out. induction group as [|x l IH]; intros out.
  - intros _. by exists [].
  - rewrite !generate_cons.
    intros (r & Hr & H)%bind_ok. apply bind_ok in H as (rest & Hrest & _).
    destruct (handle_enums_text_skip _ _ Hr) as [r' ->].
    destruct (IH _ Hrest) as [out' ->]. cbn [mbind result_bind]. eauto.
Qed.

Lemma insert_by_head {A} (key : A → string) x l :
  Forall (λ z, String.ltb (key z) (key x) = false) l → Py.insert_by key x l = x :: l.
Proof. destruct 1 as [|z l Hz _]; [done|]. cbn [Py.insert_by]. by rewrite Hz. Qed.

Lemma insert_by_filter {A} (key : A → string) (p : A → bool) x l :
  StronglySorted (key_le key) l →
  List.filter p (Py.insert_by key x l)
  = if p x then Py.insert_by key x (List.filter p l) else List.filter p l.
Proof.
  induction 1 as [|y l Hs IH Hy]; cbn [Py.insert_by List.filter].
  { by destruct (p x). }
  destruct (String.ltb (key y) (key x)) eqn:Hlt.
  - cbn [List.filter]. rewrite IH.
    destruct (p y), (p x); try done. cbn [Py.insert_by]. by rewrite Hlt.
  - cbn [List.filter]. destruct (p x); [|done].
    rewrite insert_by_head; [done|].
    assert (Hall : Forall (λ z, String.ltb (key z) (key x) = false) (y :: l)).
    { constructor; [done|]. rewrite Forall_forall in Hy |- *. intros z Hz.
      apply not_true_iff_false. intros Hzx%ltb_not_le. apply Hzx.
      trans (key y); [by apply not_ltb_le|]. apply (Hy z Hz). }
    rewrite Forall_forall in Hall |- *. intros z Hz. apply Hall.
    change (z ∈ List.filter p (y :: l)) in Hz.
    by apply list_elem_of_In, filter_In in Hz as [Hz%list_elem_of_In _].
Qed.

Lemma sorted_filter {A} (key : A → string) (p : A → bool) l :
  List.filter p (Py.sorted key l) = Py.sorted key (List.filter p l).
Proof.
  induction l as [|x l IH]; [done|].
  change (Py.sorted key (x :: l)) with (Py.insert_by key x (Py.sorted key l)).
  rewrite insert_by_filter by apply sorted_StronglySorted. rewrite IH.
  cbn [List.filter]. by destruct (p x).
Qed.

Lemma get_group_info_skip groups a rv :
  get_group_info false groups a = Ok rv →
  ∃ rv', get_group_info true groups a = Ok rv'
    ∧ (let keep := List.filter (λ i, negb (has_complex (text i))) in
       rv_GrB_const rv' = keep (rv_GrB_const rv)
       ∧ rv_GxB_const rv' = keep (rv_GxB_const rv)
       ∧ rv_GrB_objects rv' = keep (rv_GrB_objects rv)
       ∧ rv_GxB_objects rv' = keep (rv_GxB_objects rv)
       ∧ rv_GrB_typedef rv' = keep (rv_GrB_typedef rv)
       ∧ rv_GxB_typedef rv' = keep (rv_GxB_typedef rv)
       ∧ rv_GxB_typedef_funcs rv' = keep (rv_GxB_typedef_funcs rv))
    ∧ (let keep := List.filter (λ f, negb (has_complex (func_text f))) in
       rv_GrB_methods rv' = keep (rv_GrB_methods rv)
       ∧ rv_GxB_methods rv' = keep (rv_GxB_methods rv)
       ∧ rv_GB_methods rv' = keep (rv_GB_methods rv))
    ∧ rv_not_seen rv' = rv_not_seen rv.
Proof.
  intros H. pose proof (get_group_info_counts _ _ _ _ H) as (C1 & C2 & C3).
  apply get_group_info_ok in H
    as (H1 & H2 & H3 & H4 & H5 & H6 & H7 & H8 & H9 & (f1 & Hf1 & E1) & (f2 & Hf2 & E2)
        & (f3 & Hf3 & E3) & Hns).
  destruct (handle_enums_skip _ _ H5) as [e1 He1].
  destruct (handle_enums_skip _ _ H6) as [e2 He2].
  unfold get_group_info.
  fold (nodes_with "GrB_" a) (nodes_with "GxB_" a) (nodes_with "GB_" a).
  unfold handle_constants, handle_objects, handle_typedefs, handle_typedef_funcs in *.
  rewrite (generate_skip _ _ _ _ _ handle_constants_line_skip H1).
  rewrite (generate_skip _ _ _ _ _ handle_constants_line_skip H2).
  rewrite (generate_skip _ _ _ _ _ handle_objects_line_skip H3).
  rewrite (generate_skip _ _ _ _ _ handle_objects_line_skip H4).
  rewrite He1, He2.
  rewrite (generate_skip _ _ _ _ _ handle_typedefs_line_skip H7).
  rewrite (generate_skip _ _ _ _ _ handle_typedefs_line_skip H8).
  rewrite (generate_skip _ _ _ _ _ handle_typedef_funcs_line_skip H9).
  cbn [mbind result_bind]. cbv zeta.
  rewrite C1, C2, C3, !Nat.eqb_refl. cbn [assert mbind result_bind].
  rewrite (generate_skip _ _ _ _ _ handle_function_node_skip Hf1).
  rewrite (generate_skip _ _ _ _ _ handle_function_node_skip Hf2).
  rewrite (generate_skip _ _ _ _ _ handle_function_node_skip Hf3).
  cbn [mbind result_bind].
  eexists. split; [reflexivity|].
  cbn [rv_GrB_const rv_GxB_const rv_GrB_objects rv_GxB_objects rv_GrB_typedef_enums
       rv_GxB_typedef_enums rv_GrB_typedef rv_GxB_typedef rv_GxB_typedef_funcs
       rv_GrB_methods rv_GxB_methods rv_GB_methods rv_not_seen].
  rewrite E1, E2, E3, !sorted_filter, Hns. done.
Qed.

(** Property X13.  [get_group_info]: when it succeeds with the complex types, it succeeds
    without them on the same input, and it then returns, group by group, the
    constants, objects, typedefs and functions of the first result whose text
    contains neither [FC32] nor [FC64], in the same order. *)
Theorem get_group_info_no_complex_from_full groups a rv :
  get_group_info false groups a = Ok rv →
  ∃ rv', get_group_info true groups a = Ok rv'
    ∧ (let keep := List.filter (λ i, negb (has_complex (text i))) in
       rv_GrB_const rv' = keep (rv_GrB_const rv)
       ∧ rv_GxB_const rv' = keep (rv_GxB_const rv)
       ∧ rv_GrB_objects rv' = keep (rv_GrB_objects rv)
       ∧ rv_GxB_objects rv' = keep (rv_GxB_objects rv)
       ∧ rv_GrB_typedef rv' = keep (rv_GrB_typedef rv)
       ∧ rv_GxB_typedef rv' = keep (rv_GxB_typedef rv)
       ∧ rv_GxB_typedef_funcs rv' = keep (rv_GxB_typedef_funcs rv))
    ∧ (let keep := List.filter (λ f, negb (has_complex (func_text f))) in
       rv_GrB_methods rv' = keep (rv_GrB_methods rv)
       ∧ rv_GxB_methods rv' = keep (rv_GxB_methods rv)
       ∧ rv_GB_methods rv' = keep (rv_GB_methods rv))
    ∧ rv_not_seen rv' = rv_not_seen rv.
Proof. apply get_group_info_skip. Qed.

Lemma elem_of_methods skip nodes fs f :
  generate (handle_function_node skip) nodes = Ok fs →
  f ∈ Py.sorted (λ x, sort_key (func_text x)) fs →
  ∃ n, n ∈ nodes ∧ handle_function_node skip n = Ok (Some f).
Proof.
  intros Hg Hf. rewrite sorted_perm in Hf. by apply (elem_of_generate _ _ _ _ Hg).
Qed.

(** Property X14.  [get_group_info]: every function it returns is in one of the eleven
    groups of the naming scheme.  A function whose text names [GrB_Matrix] is
    in ["matrix"] whatever its name, then [GrB_Vector] gives ["vector"] and
    [GxB_Scalar] gives ["scalar"]; any other function is filed under the
    second component of its name, which the table must hold. *)
Theorem get_group_info_function_groups skip groups a rv f :
  get_group_info skip groups a = Ok rv →
  f ∈ method_infos rv →
  group f ∈ known_function_groups
  ∧ (if Py.str_in "GrB_Matrix" (func_text f) then group f = "matrix"
     else if Py.str_in "GrB_Vector" (func_text f) then group f = "vector"
     else if Py.str_in "GxB_Scalar" (func_text f) then group f = "scalar"
     else ∃ k, Py.split "_" (name f) !! 1%nat = Some k
               ∧ function_groups !! k = Some (group f)).
Proof.
  intros H Hf.
  apply get_group_info_ok in H
    as (_ & _ & _ & _ & _ & _ & _ & _ & _ & (f1 & Hf1 & E1) & (f2 & Hf2 & E2)
        & (f3 & Hf3 & E3) & _).
  assert (Hn : ∃ n, handle_function_node skip n = Ok (Some f)).
  { unfold method_infos in Hf. rewrite !elem_of_app, E1, E2, E3 in Hf.
    destruct Hf as [Hf|[Hf|Hf]].
    - destruct (elem_of_methods _ _ _ _ Hf1 Hf) as (n & _ & Hn). eauto.
    - destruct (elem_of_methods _ _ _ _ Hf2 Hf) as (n & _ & Hn). eauto.
    - destruct (elem_of_methods _ _ _ _ Hf3 Hf) as (n & _ & Hn). eauto. }
  destruct Hn as [n Hn]. apply handle_function_node_group in Hn as (_ & Hk & Hg).
  split; [exact Hk|].
  destruct (Py.str_in "GrB_Matrix" _); [exact Hg|].
  destruct (Py.str_in "GrB_Vector" _); [exact Hg|].
  destruct (Py.str_in "GxB_Scalar" _); [exact Hg|].
  destruct (Py.split "_" (name f) !! 1%nat) as [k|] eqn:Ek.
  - exists k. split; [done|]. by rewrite (list_lookup_total_correct _ _ _ Ek) in Hg.
  - exfalso. rewrite list_lookup_total_alt, Ek in Hg. cbn in Hg.
    revert Hg. apply eq_None_ne_Some_1. apply (bool_decide_unpack _). vm_compute. exact I.
Qed.

Lemma handle_function_node_return skip n r :
  handle_function_node skip n = Ok r → decl_return n = "GrB_Info".
Proof.
  unfold handle_function_node.
  by destruct (String.eqb_spec (decl_return n) "GrB_Info").
Qed.

(** Property X15.  [get_group_info]: when it succeeds, the tree has as many [extern]
    function declarations whose name starts with [GrB_] as there are lines
    in ["GrB methods"], and likewise for [GxB_] and [GB_]; each of these
    declarations returns [GrB_Info]. *)
Theorem get_group_info_checks_functions skip groups a rv :
  get_group_info skip groups a = Ok rv →
  (List.length (nodes_with "GrB_" a) = List.length (GrB_methods groups)
   ∧ List.length (nodes_with "GxB_" a) = List.length (GxB_methods groups)
   ∧ List.length (nodes_with "GB_" a) = List.length (GB_methods groups))
  ∧ ∀ n, n ∈ nodes_with "GrB_" a ++ nodes_with "GxB_" a ++ nodes_with "GB_" a →
         decl_return n = "GrB_Info".
Proof.
  intros H. split; [exact (get_group_info_counts _ _ _ _ H)|].
  apply get_group_info_ok in H
    as (_ & _ & _ & _ & _ & _ & _ & _ & _ & (f1 & Hf1 & _) & (f2 & Hf2 & _)
        & (f3 & Hf3 & _) & _).
  intros n. rewrite !elem_of_app. intros [Hn|[Hn|Hn]].
  - destruct (generate_all_ok _ _ _ _ Hf1 Hn) as [r Hr].
    exact (handle_function_node_return _ _ _ Hr).
  - destruct (generate_all_ok _ _ _ _ Hf2 Hn) as [r Hr].
    exact (handle_function_node_return _ _ _ Hr).
  - destruct (generate_all_ok _ _ _ _ Hf3 Hn) as [r Hr].
    exact (handle_function_node_return _ _ _ Hr).
Qed.

Lemma handle_enums_field_form skip f r :
  handle_enums_field skip f = Ok r →
  ∃ n v, Py.split " " (field_norm f) = [n; "="; v].
Proof.
  unfold handle_enums_field. fold (field_norm f).
  destruct (Py.split " " (field_norm f)) as [|n [|e [|v [|??]]]]; try discriminate.
  destruct (String.eqb_spec e "=") as [->|]; [eauto|discriminate].
Qed.

Lemma handle_enums_text_form skip text r :
  handle_enums_text skip text = Ok r →
  ∃ typedef fields cname,
    Py.splitlines (enum_orig text) = typedef :: "{" :: fields ++ [cname]
    ∧ Py.strip typedef = "typedef enum"
    ∧ Py.startswith "}" cname = true ∧ Py.endswith ";" cname = true
    ∧ (removed skip (enum_name cname) = false →
       Forall (λ f, ∃ n v, Py.split " " (field_norm f) = [n; "="; v]) fields).
Proof.
  unfold handle_enums_text. fold nl. fold (enum_orig text).
  intros ([[typedef rest] cname] & Hun & H)%bind_ok.
  apply unpack_ends_ok in Hun. cbv beta iota in H.
  destruct rest as [|bracket fields]; [discriminate|].
  apply bind_ok in H as (_ & Ht%assert_ok & H).
  apply bind_ok in H as (_ & Hb%assert_ok & H).
  apply bind_ok in H as (_ & Hs%assert_ok & H).
  apply bind_ok in H as (_ & He%assert_ok & H).
  apply String.eqb_eq in Ht, Hb. subst bracket.
  exists typedef, fields, cname. split; [done|]. do 3 (split; [done|]).
  fold (enum_name cname) in H. unfold removed.
  destruct (bool_decide (enum_name cname ∈ DEPRECATED)); cbn [orb]; [discriminate|].
  destruct (skip && has_complex (enum_name cname)); [discriminate|]. intros _.
  do 4 apply bind_ok in H as (_ & _ & H).
  apply bind_ok in H as (new_fields & Hnf & _).
  apply Forall_forall. intros f Hf.
  destruct (generate_all_ok _ _ _ _ Hnf Hf) as [r' Hr'].
  exact (handle_enums_field_form _ _ _ Hr').
Qed.

(** Property X16.  [handle_enums]: when it succeeds, every enum typedef of the group reads
    [typedef enum], [{], the fields and [} name;] on lines of their own, and
    every field of an enum that is not dropped by its name reads
    [name = value] with single spaces and none inside the value: a field
    without a value, or with a value that holds a space, makes it raise. *)
Theorem handle_enums_field_form_checked skip group out text :
  handle_enums skip group = Ok out → text ∈ group →
  ∃ typedef fields cname,
    Py.splitlines (enum_orig text) = typedef :: "{" :: fields ++ [cname]
    ∧ Py.strip typedef = "typedef enum"
    ∧ Py.startswith "}" cname = true ∧ Py.endswith ";" cname = true
    ∧ (removed skip (enum_name cname) = false →
       Forall (λ f, ∃ n v, Py.split " " (field_norm f) = [n; "="; v]) fields).
Proof.
  intros H Ht. destruct (generate_all_ok _ _ _ _ H Ht) as [r Hr].
  exact (handle_enums_text_form _ _ _ Hr).
Qed.

Lemma bind_raise_inv {A B} (r : result A) (k : A → result B) e :
  (r ≫= k) = Raise e → r = Raise e ∨ ∃ a, r = Ok a ∧ k a = Raise e.
Proof. destruct r as [a|e']; [eauto|]. intros [= <-]. by left. Qed.

Lemma generate_raise {A B} (body : A → result (option B)) l e :
  generate body l = Raise e → ∃ x, x ∈ l ∧ body x = Raise e.
Proof.
  induction l as [|x l IH]; [discriminate|]. rewrite generate_cons.
  intros [H|(r & _ & H)]%bind_raise_inv.
  - exists x. split; [apply elem_of_cons; by left|done].
  - apply bind_raise_inv in H as [H|(rest & _ & H)]; [|discriminate].
    destruct (IH H) as (y & Hy & He). exists y. split; [|done].
    apply elem_of_cons. by right.
Qed.

Lemma checked_assert : checked_error AssertionError.
Proof. by left. Qed.

Lemma checked_value msg : checked_error (ValueError msg).
Proof. right. left. eauto. Qed.

(** Pass an [assert] of a loop body that raises. *)
Ltac raise_assert H :=
  apply assert_bind_raise in H as [->|H]; [apply checked_assert|].

Lemma handle_constants_line_raise skip line e :
  handle_constants_line skip line = Raise e → checked_error e.
Proof.
  unfold handle_constants_line.
  destruct (Py.split " " line) as [|x [|c [|t [|n [|??]]]]];
    try (intros [= <-]; apply checked_value).
  intros H. do 3 raise_assert H.
  destruct (bool_decide _); [discriminate|]. by destruct (skip && has_complex line).
Qed.

Lemma handle_objects_line_raise skip line e :
  handle_objects_line skip line = Raise e → checked_error e.
Proof.
  unfold handle_objects_line.
  destruct (Py.split " " line) as [|x [|t [|n [|??]]]];
    try (intros [= <-]; apply checked_value).
  intros H. do 2 raise_assert H.
  destruct (bool_decide _); [discriminate|]. by destruct (skip && has_complex line).
Qed.

Lemma handle_typedefs_line_raise skip line e :
  handle_typedefs_line skip line = Raise e → checked_error e.
Proof.
  unfold handle_typedefs_line.
  destruct (Py.split " " line) as [|t [|n rest]];
    try (intros [= <-]; apply checked_value).
  intros H. do 2 raise_assert H.
  destruct (bool_decide _); [discriminate|]. by destruct (skip && has_complex line).
Qed.

Lemma handle_typedef_funcs_line_raise skip line e :
  handle_typedef_funcs_line skip line = Raise e → checked_error e.
Proof.
  unfold handle_typedef_funcs_line. intros H. raise_assert H.
  by destruct (skip && has_complex line).
Qed.

Lemma handle_enums_field_raise skip f e :
  handle_enums_field skip f = Raise e → checked_error e.
Proof.
  unfold handle_enums_field.
  destruct (Py.split " " _) as [|n [|x [|v [|??]]]];
    try (intros [= <-]; apply checked_value).
  intros H. raise_assert H.
  destruct (bool_decide _); [discriminate|]. by destruct (skip && has_complex n).
Qed.

Lemma handle_enums_text_raise skip text e :
  handle_enums_text skip text = Raise e → checked_error e.
Proof.
  unfold handle_enums_text.
  destruct (unpack_ends _) as [[[typedef rest] cname]|e'] eqn:Hun.
  2:{ unfold unpack_ends in Hun. intros [= <-].
      destruct (Py.splitlines _) as [|? [|??]]; try discriminate;
        injection Hun as <-; apply checked_value. }
  cbn [mbind result_bind]. destruct rest as [|bracket fields].
  { intros [= <-]. apply checked_value. }
  intros H. do 4 raise_assert H.
  destruct (bool_decide _); [discriminate|].
  destruct (skip && has_complex _); [discriminate|].
  do 4 raise_assert H.
  apply bind_raise_inv in H as [H|(nf & _ & H)].
  - apply generate_raise in H as (f & _ & H). by eapply handle_enums_field_raise.
  - by destruct nf.
Qed.

Lemma split_not_nil sep s : Py.split sep s ≠ [].
Proof.
  induction s as [|c s IH]; [done|]. cbn [Py.split].
  destruct (Ascii.eqb c sep); [done|]. by destruct (Py.split sep s).
Qed.

Lemma split_second sep s :
  Py.str_in (String sep "") s = true → is_Some (Py.split sep s !! 1%nat).
Proof.
  induction s as [|c s IH]; [done|]. rewrite str_in_unfold. cbn [Py.split].
  destruct (Ascii.eqb_spec c sep) as [->|Hne].
  - intros _. pose proof (split_not_nil sep s). destruct (Py.split sep s); [done|eauto].
  - simpl. destruct (ascii_dec sep c) as [->|_]; [done|]. cbn [orb].
    intros H%IH. pose proof (split_not_nil sep s).
    destruct (Py.split sep s) as [|l ls]; [done|exact H].
Qed.

Lemma prefix_app_r d p r :
  String.prefix d p = true → String.prefix d (p +:+ r) = true.
Proof.
  revert p. induction d as [|c d IH]; intros p; [intros _; apply prefix_nil_l|].
  destruct p as [|c' p]; [done|]. rewrite str_app_cons. simpl.
  destruct (ascii_dec c c'); [apply IH|done].
Qed.

Lemma str_in_app_prefix d p r : Py.str_in d p = true → Py.str_in d (p +:+ r) = true.
Proof.
  induction p as [|c p IH].
  - rewrite str_in_unfold, orb_false_r. intros H. rewrite str_in_unfold.
    apply orb_true_iff. left. by apply prefix_app_r.
  - rewrite str_app_cons, !(str_in_unfold d (String c _)).
    intros [H|H]%orb_true_iff; apply orb_true_iff; [left|right; by apply IH].
    by apply (prefix_app_r d (String c p) r).
Qed.

Lemma startswith_split prefix s :
  Py.str_in "_" prefix = true → Py.startswith prefix s = true →
  is_Some (Py.split "_" s !! 1%nat).
Proof.
  intros Hp [r ->]%prefix_split. apply split_second. by apply str_in_app_prefix.
Qed.

Lemma handle_function_node_raise skip n e :
  is_Some (Py.split "_" (decl_name n) !! 1%nat) →
  handle_function_node skip n = Raise e → checked_error e.
Proof.
  intros [k Hk]. unfold handle_function_node.
  destruct (negb _); [intros [= <-]; apply checked_value|].
  destruct (bool_decide _); [discriminate|].
  destruct (skip && has_complex _); [discriminate|].
  intros [H|(g & _ & H)]%bind_raise_inv; [|discriminate].
  destruct (Py.str_in "GrB_Matrix" _); [discriminate|].
  destruct (Py.str_in "GrB_Vector" _); [discriminate|].
  destruct (Py.str_in "GxB_Scalar" _); [discriminate|].
  rewrite Hk in H. destruct (function_groups !! k); [discriminate|].
  injection H as <-. right. right. eauto.
Qed.

Lemma generate_functions_raise skip prefix a e :
  Py.str_in "_" prefix = true →
  generate (handle_function_node skip) (nodes_with prefix a) = Raise e →
  checked_error e.
Proof.
  intros Hp (n & Hn & H)%generate_raise.
  apply (handle_function_node_raise skip n); [|done].
  apply list_elem_of_In, filter_In in Hn as [_ Hn].
  by apply (startswith_split prefix).
Qed.

(** Property X17.  [get_group_info]: the only errors it raises are [AssertionError],
    [ValueError] and [KeyError]; the lookup of the second component of a
    function name cannot fail, every such name starts with [GrB_], [GxB_] or
    [GB_]. *)
Theorem get_group_info_raises_checked_errors skip groups a e :
  get_group_info skip groups a = Raise e → checked_error e.
Proof.
  unfold get_group_info. fold (nodes_with "GrB_" a) (nodes_with "GxB_" a) (nodes_with "GB_" a).
  unfold handle_constants, handle_objects, handle_enums, handle_typedefs,
    handle_typedef_funcs.
  intros H.
  apply bind_raise_inv in H as [(? & _ & H)%generate_raise|(? & _ & H)];
    [by eapply handle_constants_line_raise|].
  apply bind_raise_inv in H as [(? & _ & H)%generate_raise|(? & _ & H)];
    [by eapply handle_constants_line_raise|].
  apply bind_raise_inv in H as [(? & _ & H)%generate_raise|(? & _ & H)];
    [by eapply handle_objects_line_raise|].
  apply bind_raise_inv in H as [(? & _ & H)%generate_raise|(? & _ & H)];
    [by eapply handle_objects_line_raise|].
  apply bind_raise_inv in H as [(? & _ & H)%generate_raise|(? & _ & H)];
    [by eapply handle_enums_text_raise|].
  apply bind_raise_inv in H as [(? & _ & H)%generate_raise|(? & _ & H)];
    [by eapply handle_enums_text_raise|].
  apply bind_raise_inv in H as [(? & _ & H)%generate_raise|(? & _ & H)];
    [by eapply handle_typedefs_line_raise|].
  apply bind_raise_inv in H as [(? & _ & H)%generate_raise|(? & _ & H)];
    [by eapply handle_typedefs_line_raise|].
  apply bind_raise_inv in H as [(? & _ & H)%generate_raise|(? & _ & H)];
    [by eapply handle_typedef_funcs_line_raise|].
  cbv zeta in H. do 3 raise_assert H.
  apply bind_raise_inv in H as [H|(? & _ & H)];
    [by apply (generate_functions_raise skip "GrB_" a)|].
  apply bind_raise_inv in H as [H|(? & _ & H)];
    [by apply (generate_functions_raise skip "GxB_" a)|].
  apply bind_raise_inv in H as [H|(? & _ & H)];
    [by apply (generate_functions_raise skip "GB_" a)|].
  discriminate H.
Qed.

Lemma parse_header_eq w file skip s :
  parse_header w file skip s = (s, parse_files w file skip (files s)).
Proof.
  unfold parse_header, get_ast, parse_files, read_file.
  rewrite !io_bind_eq. destruct (files s !! file) as [content|]; [|done].
  unfold lift. destruct (pycparser w content) as [a|e]; [|done].
  cbn [mbind result_bind]. by destruct (get_groups (order w) a).
Qed.

Lemma bind_parse_header {B} w file skip (k : group_info → io B) s :
  (parse_header w file skip ≫= k) s =
  match parse_files w file skip (files s) with
  | Ok rv => k rv s
  | Raise e => (s, Raise e)
  end.
Proof. by rewrite io_bind_eq, parse_header_eq. Qed.

Lemma bind_copyfile {B} src dst (k : unit → io B) s :
  (copyfile src dst ≫= k) s =
  if bool_decide (src = dst) then (s, Raise SameFileError)
  else match files s !! src with
       | Some content =>
           k tt {| files := <[dst := content]> (files s); stdout := stdout s |}
       | None => (s, Raise (FileNotFoundError src))
       end.
Proof.
  rewrite io_bind_eq. unfold copyfile. destruct (bool_decide (src = dst)); [done|].
  by destruct (files s !! src).
Qed.

Lemma bind_subprocess_run {B} w command (k : Z → io B) s :
  (subprocess_run w command ≫= k) s =
  k (shell w command (files s)).1
    {| files := (shell w command (files s)).2; stdout := stdout s |}.
Proof.
  rewrite io_bind_eq. unfold subprocess_run. by destruct (shell w command (files s)).
Qed.

Lemma bind_write_file {B} path content (k : unit → io B) s :
  (write_file path content ≫= k) s =
  k tt {| files := <[path := content]> (files s); stdout := stdout s |}.
Proof. reflexivity. Qed.

Lemma parse_files_skip w file fs rv :
  parse_files w file false fs = Ok rv → ∃ rv', parse_files w file true fs = Ok rv'.
Proof.
  unfold parse_files. destruct (fs !! file) as [content|]; [|discriminate].
  destruct (pycparser w content) as [a|]; [|discriminate]. cbn [mbind result_bind].
  destruct (get_groups (order w) a) as [g|]; [|discriminate]. cbn [mbind result_bind].
  intros H. destruct (get_group_info_skip _ _ _ H) as (rv' & H' & _). eauto.
Qed.

Lemma parse_files_insert w file skip fs path content :
  path ≠ file →
  parse_files w file skip (<[path := content]> fs) = parse_files w file skip fs.
Proof. intros Hne. unfold parse_files. by rewrite lookup_insert_ne. Qed.

Lemma processed_ne_final w : final_h w ≠ processed_h w.
Proof. by apply path_join_ne. Qed.

Lemma main_generate_eq w s :
  main_generate w s =
  let step1 := "Step 1: copy " +:+ arg_graphblas w +:+ " to " +:+ graphblas_h w in
  let step2 := "Step 2: run preprocessor to create " +:+ processed_h w in
  let step3 := "Step 3: parse header file to create " +:+ final_h w in
  let step4 := "Step 4: parse header file to create " +:+ final_no_complex_h w in
  match files s !! arg_graphblas w with
  | None =>
      ({| files := files s; stdout := stdout s ++ [step1] |},
       Raise (FileNotFoundError ("File not found: " +:+ arg_graphblas w)))
  | Some content =>
      if bool_decide (arg_graphblas w = graphblas_h w)
      then ({| files := files s; stdout := stdout s ++ [step1] |}, Raise SameFileError)
      else
        let run := shell w (preprocess_command w)
                         (<[graphblas_h w := content]> (files s)) in
        if bool_decide (run.1 ≠ 0%Z)
        then ({| files := run.2; stdout := (stdout s ++ [step1]) ++ [step2] |},
              Raise (RuntimeError "Subprocess command failed"))
        else
          match parse_files w (processed_h w) false run.2 with
          | Raise e =>
              ({| files := run.2;
                  stdout := ((stdout s ++ [step1]) ++ [step2]) ++ [step3] |}, Raise e)
          | Ok rv =>
              let fs3 :=
                <[final_h w := Py.join nl (create_header_text (order w) rv None None)]>
                  run.2 in
              match parse_files w (processed_h w) true fs3 with
              | Raise e =>
                  ({| files := fs3;
                      stdout := (((stdout s ++ [step1]) ++ [step2]) ++ [step3])
                                ++ [step4] |}, Raise e)
              | Ok rv' =>
                  ({| files := with_outputs w rv rv' run.2;
                      stdout := stdout s ++ generate_stdout w |}, Ok rv)
              end
          end
  end.
Proof.
  cbv zeta. unfold main_generate. fold (preprocess_command w). fold nl.
  rewrite bind_print, bind_path_exists. cbn [files stdout].
  destruct (files s !! arg_graphblas w) as [content|] eqn:Hc.
  2:{ rewrite bool_decide_eq_false_2 by (by intros [? ?]).
      cbn [negb]. by rewrite bind_raise. }
  rewrite bool_decide_eq_true_2 by eauto. cbn [negb].
  rewrite bind_mret, bind_copyfile. cbn [files stdout]. rewrite Hc.
  destruct (bool_decide (arg_graphblas w = graphblas_h w)); [done|].
  rewrite bind_print. cbv zeta. rewrite bind_subprocess_run. cbn [files stdout].
  destruct (bool_decide ((shell w _ _).1 ≠ 0%Z)); [by rewrite bind_raise|].
  rewrite bind_mret, bind_print, bind_parse_header. cbn [files stdout].
  destruct (parse_files w (processed_h w) false _) as [rv|e]; [|done].
  rewrite bind_write_file, bind_print, bind_parse_header. cbn [files stdout].
  destruct (parse_files w (processed_h w) true _) as [rv'|e]; [|done].
  rewrite bind_write_file, bind_print, bind_write_file. cbn [files stdout].
  unfold with_outputs, generate_stdout. rewrite <- !app_assoc. reflexivity.
Qed.

Lemma main_check_files w groups s s' r :
  main_check w groups s = (s', r) → files s' = files s.
Proof.
  destruct (files s !! graphblas_h w) as [text|] eqn:Ht.
  - rewrite (main_check_eq _ _ _ _ Ht).
    destruct (bool_decide _); by intros [= <- _].
  - unfold main_check. rewrite bind_print, io_bind_eq. unfold read_file.
    cbn [files]. rewrite Ht. by intros [= <- _].
Qed.

Lemma main_eq w s :
  main w s =
  match main_generate w s with
  | (s1, Ok groups) => main_check w groups s1
  | (s1, Raise e) => (s1, Raise e)
  end.
Proof. reflexivity. Qed.

(** Property X18.  [main]: when the preprocessor returns a code other than 0, [main] raises
    [RuntimeError] after the messages of steps 1 and 2; it has copied the
    header and written no output of its own. *)
Theorem main_preprocessor_failure w s content :
  files s !! arg_graphblas w = Some content →
  arg_graphblas w ≠ graphblas_h w →
  let run := shell w (preprocess_command w) (<[graphblas_h w := content]> (files s)) in
  run.1 ≠ 0%Z →
  main w s =
    ({| files := run.2;
        stdout := stdout s
          ++ [ "Step 1: copy " +:+ arg_graphblas w +:+ " to " +:+ graphblas_h w;
               "Step 2: run preprocessor to create " +:+ processed_h w ] |},
     Raise (RuntimeError "Subprocess command failed")).
Proof.
  intros Hc Hne run Hrc. rewrite main_eq, main_generate_eq. cbv zeta. rewrite Hc.
  rewrite bool_decide_eq_false_2 by done. fold run.
  rewrite bool_decide_eq_true_2 by done. by rewrite <- app_assoc.
Qed.

(** Property X19.  [main]: when [--graphblas] names the very file the header is copied to,
    [main] raises [SameFileError] after the message of step 1 and changes no
    file. *)
Theorem main_input_is_the_copy w s content :
  files s !! arg_graphblas w = Some content →
  arg_graphblas w = graphblas_h w →
  main w s =
    ({| files := files s;
        stdout := stdout s
          ++ ["Step 1: copy " +:+ arg_graphblas w +:+ " to " +:+ graphblas_h w] |},
     Raise SameFileError).
Proof.
  intros Hc Heq. rewrite main_eq, main_generate_eq. cbv zeta. rewrite Hc.
  by rewrite bool_decide_eq_true_2.
Qed.

(** Property X21.  [main]: it writes its three output files or none of them.  Whatever a
    run returns, its files are those it started with, or those the
    preprocessor left, or those with all three outputs written over them; a
    run that returns normally is of the last kind. *)
Theorem main_writes_all_outputs_or_none w s s1 r :
  main w s = (s1, r) →
  (files s1 = files s ∧ r ≠ Ok tt)
  ∨ ∃ content,
      files s !! arg_graphblas w = Some content
      ∧ let run := shell w (preprocess_command w)
                         (<[graphblas_h w := content]> (files s)) in
        (files s1 = run.2 ∧ r ≠ Ok tt)
        ∨ ∃ rv rv',
            run.1 = 0%Z
            ∧ parse_files w (processed_h w) false run.2 = Ok rv
            ∧ parse_files w (processed_h w) true run.2 = Ok rv'
            ∧ files s1 = with_outputs w rv rv' run.2.
Proof.
  rewrite main_eq, main_generate_eq. cbv zeta.
  destruct (files s !! arg_graphblas w) as [content|]; [|intros [= <- <-]; by left].
  destruct (bool_decide _); [intros [= <- <-]; by left|].
  destruct (bool_decide_reflect ((shell w (preprocess_command w)
              (<[graphblas_h w := content]> (files s))).1 ≠ 0%Z)) as [Hrc|Hrc].
  { intros [= <- <-]. right. exists content. split; [done|]. by left. }
  apply dec_stable in Hrc.
  destruct (parse_files w (processed_h w) false _) as [rv|e] eqn:Hrv.
  2:{ intros [= <- <-]. right. exists content. split; [done|]. by left. }
  rewrite parse_files_insert by apply processed_ne_final.
  destruct (parse_files_skip _ _ _ _ Hrv) as [rv' Hrv']. rewrite Hrv'.
  intros Hcheck%main_check_files. right. exists content. split; [done|].
  right. by exists rv, rv'.
Qed.

(** Property X20.  [main]: when parsing the preprocessed header fails in step 3, whether the
    file is missing, the parser rejects it or a check of [get_groups] or
    [get_group_info] fails, [main] raises that error after the messages of
    steps 1 to 3 and has written none of its outputs. *)
Theorem main_parse_failure w s content e :
  files s !! arg_graphblas w = Some content →
  arg_graphblas w ≠ graphblas_h w →
  let run := shell w (preprocess_command w) (<[graphblas_h w := content]> (files s)) in
  run.1 = 0%Z →
  parse_files w (processed_h w) false run.2 = Raise e →
  main w s =
    ({| files := run.2;
        stdout := stdout s
          ++ [ "Step 1: copy " +:+ arg_graphblas w +:+ " to " +:+ graphblas_h w;
               "Step 2: run preprocessor to create " +:+ processed_h w;
               "Step 3: parse header file to create " +:+ final_h w ] |},
     Raise e).
Proof.
  intros Hc Hne run Hrc He. rewrite main_eq, main_generate_eq. cbv zeta. rewrite Hc.
  rewrite bool_decide_eq_false_2 by done. fold run.
  rewrite bool_decide_eq_false_2 by (intros H; exact (H Hrc)). rewrite He.
  by rewrite <- !app_assoc.
Qed.

Lemma word_not_space c : Py.is_word c = true → Py.is_space c = false.
Proof.
  destruct c as [b0 b1 b2 b3 b4 b5 b6 b7].
  destruct b0, b1, b2, b3, b4, b5, b6, b7; vm_compute; congruence.
Qed.

Lemma space_not_word c : Py.is_space c = true → Py.is_word c = false.
Proof.
  intros Hs. destruct (Py.is_word c) eqn:Hw; [|done].
  apply word_not_space in Hw. congruence.
Qed.

Lemma all_chars_app p a b : all_chars p (a +:+ b) = all_chars p a && all_chars p b.
Proof.
  induction a as [|c a IH]; [done|]. rewrite str_app_cons. cbn [all_chars].
  by rewrite IH, andb_assoc.
Qed.

Lemma all_chars_impl (p q : ascii → bool) s :
  (∀ c, p c = true → q c = true) → all_chars p s = true → all_chars q s = true.
Proof.
  intros Hpq. induction s as [|c s IH]; [done|]. cbn [all_chars].
  intros [Hc Hs]%andb_true_iff. by rewrite (Hpq _ Hc), IH.
Qed.

Lemma span_spec p s a b :
  span p s = (a, b) →
  s = a +:+ b ∧ all_chars p a = true
  ∧ match b with "" => True | String c _ => p c = false end.
Proof.
  revert a b. induction s as [|c s IH]; intros a b.
  - by intros [= <- <-].
  - cbn [span]. destruct (p c) eqn:Hc.
    + destruct (span p s) as [a' b'] eqn:Hs. intros [= <- <-].
      destruct (IH _ _ eq_refl) as (-> & Ha & Hb).
      rewrite str_app_cons. cbn [all_chars]. by rewrite Hc, Ha.
    + intros [= <- <-]. by rewrite str_app_nil_l, Hc.
Qed.

Lemma span_app p a b :
  all_chars p a = true →
  match b with "" => True | String c _ => p c = false end →
  span p (a +:+ b) = (a, b).
Proof.
  intros Ha Hb. induction a as [|c a IH].
  - rewrite str_app_nil_l. destruct b as [|c b]; [done|]. cbn [span]. by rewrite Hb.
  - cbn [all_chars] in Ha. apply andb_true_iff in Ha as [Hc Ha].
    rewrite str_app_cons. cbn [span]. by rewrite Hc, (IH Ha).
Qed.

Lemma lstrip_app ws s :
  all_chars Py.is_space ws = true →
  match s with "" => True | String c _ => Py.is_space c = false end →
  Py.lstrip (ws +:+ s) = s.
Proof.
  intros Hws Hs. induction ws as [|c ws IH].
  - rewrite str_app_nil_l. destruct s as [|c s]; [done|]. cbn [Py.lstrip]. by rewrite Hs.
  - cbn [all_chars] in Hws. apply andb_true_iff in Hws as [Hc Hws].
    rewrite str_app_cons. cbn [Py.lstrip]. by rewrite Hc, (IH Hws).
Qed.

Lemma rstrip_spaces ws : all_chars Py.is_space ws = true → Py.rstrip ws = "".
Proof.
  induction ws as [|c ws IH]; [done|]. cbn [all_chars Py.rstrip].
  intros [Hc Hws]%andb_true_iff. by rewrite (IH Hws), Hc.
Qed.

Lemma rstrip_app w ws :
  all_chars Py.is_word w = true → all_chars Py.is_space ws = true →
  Py.rstrip (w +:+ ws) = w.
Proof.
  intros Hw Hws. induction w as [|c w IH].
  - rewrite str_app_nil_l. by apply rstrip_spaces.
  - cbn [all_chars] in Hw. apply andb_true_iff in Hw as [Hc Hw].
    rewrite str_app_cons. cbn [Py.rstrip]. rewrite (IH Hw).
    by rewrite (word_not_space _ Hc).
Qed.

Lemma strip_name ws1 w ws2 :
  all_chars Py.is_space ws1 = true → w ≠ "" → all_chars Py.is_word w = true →
  all_chars Py.is_space ws2 = true →
  Py.strip (ws1 +:+ w +:+ ws2) = w.
Proof.
  intros H1 Hne Hw H2. unfold Py.strip. rewrite lstrip_app; [by apply rstrip_app|done|].
  destruct w as [|c w]; [done|]. rewrite str_app_cons.
  cbn [all_chars] in Hw. apply andb_true_iff in Hw as [Hc _].
  by apply word_not_space.
Qed.

Lemma str_app_assoc a b c : (a +:+ b) +:+ c = a +:+ (b +:+ c).
Proof. induction a as [|x a IH]; [done|]. by rewrite !str_app_cons, IH. Qed.

Lemma drop_chars_app p s : Py.drop_chars (String.length p) (p +:+ s) = s.
Proof. induction p as [|c p IH]; [by destruct s|]. by rewrite str_app_cons. Qed.

Lemma eqb_empty s : String.eqb s "" = false → s ≠ "".
Proof. by intros H%String.eqb_neq. Qed.

(** What a match of the pattern is made of. *)
Lemma match_define_spec s m :
  match_define s = Some m →
  ∃ ws1 w ws2 rest,
    s = m +:+ rest ∧ m = "#define" +:+ ws1 +:+ w +:+ ws2
    ∧ (ws1 ≠ "" ∧ all_chars Py.is_space ws1 = true)
    ∧ (w ≠ "" ∧ all_chars Py.is_word w = true)
    ∧ (ws2 ≠ "" ∧ all_chars Py.is_space ws2 = true).
Proof.
  unfold match_define. destruct (String.prefix "#define" s) eqn:Hp; [|done].
  apply prefix_split in Hp as [r ->].
  change 7%nat with (String.length "#define"). rewrite drop_chars_app.
  destruct (span Py.is_space r) as [ws1 r1] eqn:H1.
  destruct (span Py.is_word r1) as [w r2] eqn:H2.
  destruct (span Py.is_space r2) as [ws2 rest] eqn:H3.
  apply span_spec in H1 as (-> & Hws1 & _).
  apply span_spec in H2 as (-> & Hw & _).
  apply span_spec in H3 as (-> & Hws2 & _).
  destruct (String.eqb ws1 "") eqn:E1; [done|].
  destruct (String.eqb w "") eqn:E2; [done|].
  destruct (String.eqb ws2 "") eqn:E3; [done|].
  cbn [orb]. intros [= <-]. exists ws1, w, ws2, rest.
  split; [|repeat split; try done; by apply eqb_empty].
  by rewrite !str_app_assoc.
Qed.

Lemma match_define_name s m :
  match_define s = Some m →
  ∃ ws1 w ws2 rest,
    s = "#define" +:+ ws1 +:+ w +:+ ws2 +:+ rest
    ∧ Py.strip (Py.drop_chars (String.length "#define") m) = w
    ∧ (ws1 ≠ "" ∧ all_chars Py.is_space ws1 = true)
    ∧ (w ≠ "" ∧ all_chars Py.is_word w = true)
    ∧ (ws2 ≠ "" ∧ all_chars Py.is_space ws2 = true).
Proof.
  intros (ws1 & w & ws2 & rest & -> & -> & H1 & Hw & H2)%match_define_spec.
  exists ws1, w, ws2, rest. split; [by rewrite !str_app_assoc|].
  split; [|done]. rewrite drop_chars_app. apply strip_name; tauto.
Qed.

Lemma findall_define_sound k text m :
  m ∈ findall_define k text →
  ∃ pre rest, text = pre +:+ rest ∧ match_define rest = Some m.
Proof.
  revert k. induction text as [|c t IH]; intros k; cbn [findall_define].
  { by intros ?%elem_of_nil. }
  assert (Hrec : ∀ k', m ∈ findall_define k' t →
            ∃ pre rest, String c t = pre +:+ rest ∧ match_define rest = Some m).
  { intros k' (pre & rest & -> & Hm)%IH. by exists (String c pre), rest. }
  destruct k as [|k]; [|apply Hrec].
  destruct (match_define (String c t)) as [m'|] eqn:Hm; [|apply Hrec].
  intros [->|Hin]%elem_of_cons; [|by eapply Hrec].
  by exists "", (String c t).
Qed.

Lemma no_hash_app a b :
  all_chars (λ c, negb (Ascii.eqb c "#")) a = true →
  no_hash (String.length a) (a +:+ b) = true.
Proof.
  induction a as [|c a IH]; [done|]. cbn [all_chars].
  intros [Hc Ha]%andb_true_iff. rewrite str_app_cons. cbn [String.length no_hash].
  by rewrite Hc, IH.
Qed.

Lemma space_not_hash c : Py.is_space c = true → negb (Ascii.eqb c "#") = true.
Proof. destruct (Ascii.eqb_spec c "#") as [->|]; [discriminate|done]. Qed.

Lemma word_not_hash c : Py.is_word c = true → negb (Ascii.eqb c "#") = true.
Proof. destruct (Ascii.eqb_spec c "#") as [->|]; [discriminate|done]. Qed.

Lemma match_define_no_hash s m :
  match_define s = Some m →
  ∃ t, s = String "#" t ∧ no_hash (String.length m - 1) t = true.
Proof.
  intros (ws1 & w & ws2 & rest & -> & -> & [_ H1] & [_ Hw] & [_ H2])%match_define_spec.
  exists ("define" +:+ ws1 +:+ w +:+ ws2 +:+ rest). split.
  - by rewrite !str_app_assoc.
  - replace (String.length ("#define" +:+ ws1 +:+ w +:+ ws2) - 1)%nat
      with (String.length ("define" +:+ ws1 +:+ w +:+ ws2))
      by (rewrite !str_app_length; cbn [String.length]; lia).
    replace ("define" +:+ ws1 +:+ w +:+ ws2 +:+ rest)
      with (("define" +:+ ws1 +:+ w +:+ ws2) +:+ rest) by (by rewrite !str_app_assoc).
    apply no_hash_app. rewrite !all_chars_app.
    rewrite (all_chars_impl _ _ _ space_not_hash H1),
      (all_chars_impl _ _ _ word_not_hash Hw), (all_chars_impl _ _ _ space_not_hash H2).
    reflexivity.
Qed.

Lemma findall_define_complete pre k M m :
  match_define M = Some m → no_hash k (pre +:+ M) = true →
  m ∈ findall_define k (pre +:+ M).
Proof.
  intros Hm. revert k. induction pre as [|c pre IH]; intros k Hk.
  - rewrite str_app_nil_l in *.
    destruct (match_define_no_hash _ _ Hm) as (t & -> & _).
    destruct k as [|k]; [|discriminate Hk].
    cbn [findall_define]. rewrite Hm. apply elem_of_cons. by left.
  - rewrite str_app_cons in *. cbn [findall_define].
    destruct k as [|k].
    + destruct (match_define (String c (pre +:+ M))) as [m'|] eqn:Hm'.
      * apply elem_of_cons. right. apply IH.
        destruct (match_define_no_hash _ _ Hm') as (t & [= _ <-] & Ht). exact Ht.
      * by apply IH.
    + cbn [no_hash] in Hk. apply andb_true_iff in Hk as [_ Hk]. by apply IH.
Qed.

Lemma match_define_here ws n c post :
  ws ≠ "" → all_chars Py.is_space ws = true →
  n ≠ "" → all_chars Py.is_word n = true → Py.is_space c = true →
  ∃ m, match_define ("#define" +:+ ws +:+ n +:+ String c post) = Some m
       ∧ Py.strip (Py.drop_chars (String.length "#define") m) = n.
Proof.
  intros Hws1 Hws2 Hn1 Hn2 Hc. unfold match_define.
  rewrite prefix_app. change 7%nat with (String.length "#define").
  rewrite drop_chars_app.
  rewrite (span_app Py.is_space ws (n +:+ String c post)); [|done|].
  2:{ destruct n as [|x n]; [done|]. rewrite str_app_cons.
      cbn [all_chars] in Hn2. apply andb_true_iff in Hn2 as [Hx _].
      by apply word_not_space. }
  rewrite (span_app Py.is_word n (String c post)); [|done|by apply space_not_word].
  cbn [span]. rewrite Hc. destruct (span Py.is_space post) as [ws2 rest] eqn:Hs.
  apply span_spec in Hs as (_ & Hws & _).
  destruct (String.eqb_spec ws ""); [done|]. destruct (String.eqb_spec n ""); [done|].
  cbn [orb String.eqb]. eexists. split; [reflexivity|].
  rewrite drop_chars_app. apply strip_name; [done..|].
  cbn [all_chars]. by rewrite Hc.
Qed.

Lemma elem_of_find_defines text n :
  n ∈ find_defines text ↔
  ∃ m, m ∈ findall_define 0 text
       ∧ n = Py.strip (Py.drop_chars (String.length "#define") m).
Proof.
  unfold find_defines. rewrite elem_of_list_to_set, list_elem_of_fmap.
  split; [intros (x & -> & Hx); eauto|intros (m & Hm & ->); eauto].
Qed.

(** Property X22.  [find_defines]: the names found in a text are the non-empty words that
    follow [#define] and white space somewhere in the text and are followed
    by a space character; matches never overlap, so none is missed. *)
Theorem find_defines_finds_defined_names text n :
  n ∈ find_defines text
  ↔ n ≠ "" ∧ all_chars Py.is_word n = true ∧ defines_name text n.
Proof.
  rewrite elem_of_find_defines. split.
  - intros (m & (pre & rest & -> & Hm)%findall_define_sound & ->).
    apply match_define_name in Hm
      as (ws1 & w & ws2 & rest' & -> & -> & [Hne1 H1] & [Hnw Hw] & [Hne2 H2]).
    split; [done|]. split; [done|].
    destruct ws2 as [|c ws2]; [done|].
    cbn [all_chars] in H2. apply andb_true_iff in H2 as [Hc _].
    exists pre, ws1, c, (ws2 +:+ rest'). by rewrite !str_app_cons.
  - intros (Hne & Hw & pre & ws & c & post & -> & Hws & Hsp & Hc).
    destruct (match_define_here ws n c post) as (m & Hm & Hn); [done..|].
    exists m. split; [|done]. by apply findall_define_complete.
Qed.

Lemma sample_groups_ok : get_groups order_elements sample_ast = Ok sample_groups.
Proof. vm_compute. reflexivity. Defined.

(** Property X6 at an input: The groups of the sample header are sorted and without duplicates. *)
Lemma get_groups_sorted_without_duplicates_witness :
  get_groups order_elements sample_ast = Ok sample_groups
  ∧ NoDup (GrB_objects sample_groups)
  ∧ StronglySorted (key_le sort_key) (GrB_objects sample_groups).
Proof.
  split; [exact sample_groups_ok|].
  apply (proj1 (get_groups_sorted_without_duplicates _ _ _ sample_groups_ok) "GrB objects").
  apply (bool_decide_unpack _). vm_compute. exact I.
Defined.

(** Property X7 at an input: The line of [GrB_init] of the sample header is in a group of methods. *)
Lemma get_groups_function_lines_witness :
  get_groups order_elements sample_ast = Ok sample_groups
  ∧ ("extern GrB_Info GrB_init(GrB_Mode mode);" ∈ GxB_methods sample_groups
     ∨ "extern GrB_Info GrB_init(GrB_Mode mode);" ∈ GrB_methods sample_groups
     ∨ "extern GrB_Info GrB_init(GrB_Mode mode);" ∈ GB_methods sample_groups).
Proof.
  split; [exact sample_groups_ok|].
  apply (proj1 (get_groups_function_lines _ _ _ sample_groups_ok)).
  split; [apply (bool_decide_unpack _); vm_compute; exact I|vm_compute; reflexivity].
Defined.

(** Property X9 at an input: An object line of the sample header ends with a semicolon. *)
Lemma get_groups_declarations_end_with_semicolon_witness :
  get_groups order_elements sample_ast = Ok sample_groups
  ∧ Py.endswith ";" "extern GrB_Type GrB_INT8;" = true.
Proof.
  split; [exact sample_groups_ok|].
  apply (get_groups_declarations_end_with_semicolon _ _ _ _ sample_groups_ok).
  apply (bool_decide_unpack _). vm_compute. exact I.
Defined.

(** Property X10 at an input: The enum [GrB_Info] of the sample header is in the [GrB] enum group. *)
Lemma get_groups_enum_typedefs_witness :
  get_groups order_elements sample_ast = Ok sample_groups
  ∧ info_enum +:+ ";" ∈ GrB_typedef_enums sample_groups.
Proof.
  split; [exact sample_groups_ok|].
  apply (proj1 (get_groups_enum_typedefs _ _ _ sample_groups_ok)).
  split; [apply (bool_decide_unpack _); vm_compute; exact I|vm_compute; reflexivity].
Defined.

(** Property X11 at an input: [extern GrB_Info foo(void);] makes [get_groups] raise. *)
Lemma get_groups_rejects_unprefixed_function_witness :
  get_groups order_elements unprefixed_ast = Raise AssertionError.
Proof.
  apply (get_groups_rejects_unprefixed_function _ _ "extern GrB_Info foo(void);");
    [apply (bool_decide_unpack _); vm_compute; exact I|vm_compute; reflexivity..].
Defined.

(** Property X12 at an input: A typedef of [GrB_unary_function] makes [get_groups] raise. *)
Lemma get_groups_rejects_GrB_function_typedef_witness :
  get_groups order_elements function_typedef_ast = Raise AssertionError.
Proof.
  apply (get_groups_rejects_GrB_function_typedef _ _
           "typedef void (*GrB_unary_function)(void *, const void *);");
    [apply (bool_decide_unpack _); vm_compute; exact I|vm_compute; reflexivity..|].
  intros e He. change (e ∈ []) in He. by apply elem_of_nil in He.
Defined.

(** Property X13 at an input: The sample header without the complex types. *)
Lemma get_group_info_no_complex_from_full_witness :
  ∃ rv, get_group_info false sample_groups sample_ast = Ok rv
    ∧ ∃ rv', get_group_info true sample_groups sample_ast = Ok rv'
        ∧ rv_GrB_objects rv' =
            List.filter (λ i, negb (has_complex (text i))) (rv_GrB_objects rv).
Proof.
  eexists. split; [vm_compute; reflexivity|].
  destruct (get_group_info_no_complex_from_full sample_groups sample_ast _
              ltac:(vm_compute; reflexivity)) as (rv' & H & (_ & _ & Ho & _) & _).
  exists rv'. split; [exact H|exact Ho].
Defined.

(** Property X14 at an input: The functions of the sample header are in known groups. *)
Lemma get_group_info_function_groups_witness :
  ∃ rv, get_group_info false sample_groups sample_ast = Ok rv
    ∧ Forall (λ f, group f ∈ known_function_groups) (method_infos rv).
Proof.
  eexists. split; [vm_compute; reflexivity|].
  apply Forall_forall. intros f Hf.
  refine (proj1 (get_group_info_function_groups false sample_groups sample_ast _ f _ Hf)).
  vm_compute. reflexivity.
Defined.

(** Property X15 at an input: The counts of the sample header agree. *)
Lemma get_group_info_checks_functions_witness :
  ∃ rv, get_group_info false sample_groups sample_ast = Ok rv
    ∧ List.length (nodes_with "GrB_" sample_ast)
      = List.length (GrB_methods sample_groups).
Proof.
  eexists. split; [vm_compute; reflexivity|].
  refine (proj1 (proj1 (get_group_info_checks_functions false sample_groups sample_ast _ _))).
  vm_compute. reflexivity.
Defined.

(** Property X16 at an input: The fields of [GrB_Desc_Value] read [name = value]. *)
Lemma handle_enums_field_form_checked_witness :
  ∃ out, handle_enums false [desc_enum +:+ ";"] = Ok out
    ∧ ∃ typedef fields cname,
        Py.splitlines (enum_orig (desc_enum +:+ ";")) = typedef :: "{" :: fields ++ [cname]
        ∧ Py.strip typedef = "typedef enum"
        ∧ Py.startswith "}" cname = true ∧ Py.endswith ";" cname = true
        ∧ (removed false (enum_name cname) = false →
           Forall (λ f, ∃ n v, Py.split " " (field_norm f) = [n; "="; v]) fields).
Proof.
  eexists. split; [vm_compute; reflexivity|].
  refine (handle_enums_field_form_checked false [desc_enum +:+ ";"] _ (desc_enum +:+ ";") _ _).
  - vm_compute. reflexivity.
  - apply list_elem_of_In. left. reflexivity.
Defined.

(** Property X17 at an input: [GrB_Context_engage] has no group: [KeyError]. *)
Lemma get_group_info_raises_checked_errors_witness :
  get_group_info false unknown_group_groups unknown_group_ast = Raise (KeyError "Context")
  ∧ checked_error (KeyError "Context").
Proof.
  assert (H : get_group_info false unknown_group_groups unknown_group_ast
              = Raise (KeyError "Context")) by (vm_compute; reflexivity).
  split; [exact H|]. exact (get_group_info_raises_checked_errors _ _ _ _ H).
Defined.

(** Property X18 at an input: A preprocessor that returns 1. *)
Lemma main_preprocessor_failure_witness :
  main failing_world (sample_state known_header) =
    ({| files := <["pkg/GraphBLAS-orig.h" := known_header]>
                   (files (sample_state known_header));
        stdout := [ "Step 1: copy /usr/include/GraphBLAS.h to pkg/GraphBLAS-orig.h";
                    "Step 2: run preprocessor to create pkg/GraphBLAS-processed.h" ] |},
     Raise (RuntimeError "Subprocess command failed")).
Proof.
  refine (eq_trans (main_preprocessor_failure failing_world (sample_state known_header)
                      known_header _ _ _) _).
  - vm_compute. reflexivity.
  - apply (bool_decide_unpack _). vm_compute. exact I.
  - apply (bool_decide_unpack _). vm_compute. exact I.
  - vm_compute. reflexivity.
Defined.

(** Property X19 at an input: The input is [pkg/GraphBLAS-orig.h] itself. *)
Lemma main_input_is_the_copy_witness :
  main copy_world {| files := {[ "pkg/GraphBLAS-orig.h" := known_header ]}; stdout := [] |} =
    ({| files := {[ "pkg/GraphBLAS-orig.h" := known_header ]};
        stdout := ["Step 1: copy pkg/GraphBLAS-orig.h to pkg/GraphBLAS-orig.h"] |},
     Raise SameFileError).
Proof.
  refine (eq_trans (main_input_is_the_copy copy_world _ known_header _ _) _).
  - vm_compute. reflexivity.
  - vm_compute. reflexivity.
  - vm_compute. reflexivity.
Defined.

(** Property X21 at an input: A run that succeeds has written its three outputs. *)
Lemma main_writes_all_outputs_or_none_witness :
  let w := sample_world enum_only_ast order_elements in
  ∃ s1, main w (sample_state known_header) = (s1, Ok tt)
    ∧ is_Some (files s1 !! final_h w)
    ∧ is_Some (files s1 !! final_no_complex_h w)
    ∧ is_Some (files s1 !! source_c w).
Proof.
  intros w. eexists. split; [vm_compute; reflexivity|].
  destruct (main_writes_all_outputs_or_none w (sample_state known_header) _ (Ok tt)
              ltac:(vm_compute; reflexivity))
    as [[_ Hr]|(content & _ & [[_ Hr]|(rv & rv' & _ & _ & _ & Hf)])];
    [by destruct Hr..|].
  cbn [files] in Hf |- *. rewrite Hf. unfold with_outputs.
  repeat split; apply (bool_decide_unpack _); vm_compute; exact I.
Defined.

(** Property X20 at an input: A parser that rejects the header. *)
Lemma main_parse_failure_witness :
  main unparsable_world (sample_state known_header) =
    ({| files := <["pkg/GraphBLAS-processed.h" := "int"]>
                   (<["pkg/GraphBLAS-orig.h" := known_header]>
                      (files (sample_state known_header)));
        stdout := [ "Step 1: copy /usr/include/GraphBLAS.h to pkg/GraphBLAS-orig.h";
                    "Step 2: run preprocessor to create pkg/GraphBLAS-processed.h";
                    "Step 3: parse header file to create pkg/suitesparse_graphblas.h" ] |},
     Raise ParseError).
Proof.
  refine (eq_trans (main_parse_failure unparsable_world (sample_state known_header)
                      known_header ParseError _ _ _ _) _).
  - vm_compute. reflexivity.
  - apply (bool_decide_unpack _). vm_compute. exact I.
  - vm_compute. reflexivity.
  - vm_compute. reflexivity.
  - vm_compute. reflexivity.
Defined.

(** Property X8 at an input: The objects of the sample header contain [extern GrB]. *)
Lemma get_groups_members_pass_their_test_witness :
  get_groups order_elements sample_ast = Ok sample_groups
  ∧ Py.str_in "extern GrB" "extern GrB_Type GrB_INT8;" = true.
Proof.
  split; [exact sample_groups_ok|].
  refine (proj2 (get_groups_members_pass_their_test _ _ _ 3%nat "GrB objects"
                   (GrB_objects sample_groups) (Py.str_in "extern GrB")
                   "extern GrB_Type GrB_INT8;" sample_groups_ok _ _ _)).
  - reflexivity.
  - reflexivity.
  - apply (bool_decide_unpack _). vm_compute. exact I.
Defined.

(** ** The claims on deprecated names, complex types, warnings and the marker *)

Lemma splitlines_line x rest :
  no_linebreak x → Py.splitlines (x +:+ nl +:+ rest) = x :: Py.splitlines rest.
Proof.
  unfold no_linebreak. induction x as [|c x IH].
  - intros _. rewrite str_app_nil_l. unfold nl. rewrite str_app_cons, str_app_nil_l.
    cbn [Py.splitlines]. change (Py.is_linebreak "010") with true. cbv iota.
    destruct rest as [|c' rest']; [done|].
    change (Ascii.eqb "010" "013") with false. reflexivity.
  - cbn [all_chars]. intros [Hc Hx]%andb_true_iff. apply negb_true_iff in Hc.
    rewrite str_app_cons. cbn [Py.splitlines]. rewrite Hc, (IH Hx). reflexivity.
Qed.

Lemma splitlines_single x :
  no_linebreak x → x ≠ "" → Py.splitlines x = [x].
Proof.
  unfold no_linebreak. induction x as [|c x IH]; [done|].
  cbn [all_chars]. intros [Hc Hx]%andb_true_iff _. apply negb_true_iff in Hc.
  cbn [Py.splitlines]. rewrite Hc. destruct x as [|c' x']; [done|].
  by rewrite IH.
Qed.

Lemma splitlines_join l :
  Forall no_linebreak l → List.last l "" ≠ "" →
  Py.splitlines (Py.join nl l) = l.
Proof.
  unfold Py.join. induction l as [|x l IH]; [done|].
  intros [Hx Hl]%Forall_cons_1 Hlast. destruct l as [|y l].
  - cbn [String.concat]. by apply splitlines_single.
  - change (String.concat nl (x :: y :: l)) with (x +:+ nl +:+ String.concat nl (y :: l)).
    rewrite splitlines_line by done. f_equal. by apply IH.
Qed.

Lemma splitlines_no_linebreak s : Forall no_linebreak (Py.splitlines s).
Proof.
  unfold no_linebreak.
  assert (H : ∀ n s, (String.length s < n)%nat →
            Forall (λ x, all_chars (λ c, negb (Py.is_linebreak c)) x = true)
                   (Py.splitlines s)); [|apply (H (S (String.length s))); lia].
  clear s. induction n as [|n IH]; intros s Hn; [lia|].
  destruct s as [|c s]; [constructor|]. cbn [String.length] in Hn.
  cbn [Py.splitlines]. destruct (Py.is_linebreak c) eqn:Hc.
  - constructor; [done|]. destruct s as [|c' s']; [constructor|].
    cbn [String.length] in Hn.
    destruct (Ascii.eqb c "013" && Ascii.eqb c' "010").
    + apply IH. lia.
    + apply IH. cbn [String.length]. lia.
  - assert (Hs : Forall (λ x, all_chars (λ c, negb (Py.is_linebreak c)) x = true)
                        (Py.splitlines s)) by (apply IH; lia).
    destruct (Py.splitlines s) as [|l ls].
    + constructor; [|constructor]. cbn [all_chars]. by rewrite Hc.
    + apply Forall_cons_1 in Hs as [Hl Hls]. constructor; [|done].
      cbn [all_chars]. by rewrite Hc, Hl.
Qed.

Lemma all_chars_lstrip p s : all_chars p s = true → all_chars p (Py.lstrip s) = true.
Proof.
  induction s as [|c s IH]; [done|]. cbn [Py.lstrip]. destruct (Py.is_space c); [|done].
  cbn [all_chars]. intros [_ Hs]%andb_true_iff. by apply IH.
Qed.

Lemma all_chars_rstrip p s : all_chars p s = true → all_chars p (Py.rstrip s) = true.
Proof.
  induction s as [|c s IH]; [done|]. cbn [Py.rstrip all_chars].
  intros [Hc Hs]%andb_true_iff. destruct (Py.is_space c && _); [done|].
  cbn [all_chars]. by rewrite Hc, IH.
Qed.

Lemma all_chars_drop_last p s : all_chars p s = true → all_chars p (Py.drop_last s) = true.
Proof.
  induction s as [|c s IH]; [done|]. cbn [Py.drop_last all_chars].
  intros [Hc Hs]%andb_true_iff. destruct s as [|c' s']; [done|].
  cbn [all_chars]. rewrite Hc. by apply IH.
Qed.

Lemma no_linebreak_field_norm f : no_linebreak f → no_linebreak (field_norm f).
Proof.
  unfold no_linebreak, field_norm, Py.strip. intros Hf.
  apply all_chars_rstrip, all_chars_lstrip.
  destruct (Py.endswith "," f); [by apply all_chars_drop_last|done].
Qed.

(** Claim C10.  The marker [AUTO] is the line
    [/* This file is automatically generated */]; the list returned by
    [create_header_text] and the list returned by [create_source_text] begin
    with it, for all groups and tables, and it is the first line of the texts
    written from them. *)
Theorem generated_text_begins_with_AUTO ord (groups : group_info)
    (char_defines defines : option (gset string)) :
  let marker := "/* This file is automatically generated */" in
  let header := create_header_text ord groups char_defines defines in
  let source := create_source_text ord char_defines in
  AUTO = marker
  ∧ (∃ rest, header = marker :: rest)
  ∧ (∃ rest, source = marker :: rest)
  ∧ Py.startswith marker (Py.join nl header) = true
  ∧ Py.startswith marker (Py.join nl source) = true
  ∧ List.head (Py.splitlines (Py.join nl header)) = Some marker
  ∧ List.head (Py.splitlines (Py.join nl source)) = Some marker.
Proof.
  intros marker header source.
  assert (Hh : ∃ x rest, header = marker :: x :: rest).
  { unfold header, create_header_text. cbn zeta. rewrite <- !app_assoc. simpl. eauto. }
  assert (Hs : ∃ x rest, source = marker :: x :: rest).
  { unfold source, create_source_text. simpl. eauto. }
  assert (Hline : ∀ x rest,
            List.head (Py.splitlines (Py.join nl (marker :: x :: rest))) = Some marker).
  { intros x rest. unfold Py.join.
    change (String.concat nl (marker :: x :: rest))
      with (marker +:+ nl +:+ String.concat nl (x :: rest)).
    rewrite splitlines_line; [done|]. vm_compute. reflexivity. }
  destruct Hh as (x1 & rest1 & ->), Hs as (x2 & rest2 & ->).
  split; [reflexivity|]. split; [eauto|]. split; [eauto|].
  split; [apply join_cons_prefix|]. split; [apply join_cons_prefix|].
  split; apply Hline.
Qed.



Lemma handle_enums_emitted skip group out i :
  handle_enums skip group = Ok out → i ∈ out →
  ∃ text0 typedef fields0 cname,
    text0 ∈ group
    ∧ Py.splitlines (enum_orig text0) = typedef :: "{" :: fields0 ++ [cname]
    ∧ Py.startswith "}" cname = true
    ∧ removed skip (enum_name cname) = false
    ∧ kept_fields skip fields0 ≠ []
    ∧ i = {| orig_text := Some (enum_orig text0);
             text := enum_text (kept_fields skip fields0) cname |}
    ∧ Forall (λ f, ∃ n v, Py.split " " (field_norm f) = [n; "="; v]) fields0.
Proof.
  intros Hout Hi. apply (elem_of_generate _ _ _ _ Hout) in Hi as (text0 & Ht & Hr).
  pose proof (handle_enums_text_ok _ _ _ Hr)
    as (typedef & fields0 & cname & Hs & _ & Hstart & _ & Hsome).
  pose proof (handle_enums_text_form _ _ _ Hr)
    as (typedef' & fields' & cname' & Hs' & _ & _ & _ & Hform).
  rewrite Hs in Hs'. injection Hs' as _ Hs'. apply app_inj_tail in Hs' as [<- <-].
  exists text0, typedef, fields0, cname.
  destruct (removed skip (enum_name cname)); [discriminate Hsome|].
  destruct (kept_fields skip fields0) as [|k ks] eqn:Hk; [discriminate Hsome|].
  injection Hsome as <-. repeat split; auto.
Qed.

Lemma enum_text_lines fields cname :
  fields ≠ [] → Forall no_linebreak fields → no_linebreak cname → cname ≠ "" →
  Py.splitlines (enum_text fields cname)
  = ["typedef enum"; "{"] ++ ((λ f, "  " +:+ f +:+ ",") <$> removelast fields)
    ++ ["  " +:+ List.last fields ""; cname].
Proof.
  intros Hne Hf Hc Hcne. unfold enum_text.
  replace (["typedef enum"; "{"] ++ ((λ f, "  " +:+ f +:+ ",") <$> removelast fields)
           ++ ["  " +:+ List.last fields ""] ++ [cname])
    with (["typedef enum"; "{"] ++ ((λ f, "  " +:+ f +:+ ",") <$> removelast fields)
          ++ ["  " +:+ List.last fields ""; cname]) by reflexivity.
  apply splitlines_join.
  - rewrite (app_removelast_last "" Hne) in Hf.
    apply Forall_app in Hf as [Hinit Hlast]. apply Forall_cons_1 in Hlast as [Hlast _].
    unfold no_linebreak in *.
    apply Forall_app. split; [repeat constructor|].
    apply Forall_app. split.
    + apply Forall_fmap. eapply Forall_impl; [exact Hinit|].
      intros f Hx. cbn. rewrite !all_chars_app, Hx. reflexivity.
    + repeat constructor; [|done]. rewrite all_chars_app, Hlast. reflexivity.
  - rewrite !app_assoc.
    change (?l ++ ["  " +:+ List.last fields ""; cname])
      with (l ++ ["  " +:+ List.last fields ""] ++ [cname]).
    rewrite app_assoc, last_last. exact Hcne.
Qed.

Lemma startswith_nonempty p s : p ≠ "" → Py.startswith p s = true → s ≠ "".
Proof. intros Hp Hs ->. by destruct p. Qed.

Lemma emitted_enum_no_complex group out i :
  handle_enums true group = Ok out → i ∈ out →
  ∃ fields cname,
    fields ≠ []
    ∧ Py.splitlines (text i)
      = ["typedef enum"; "{"] ++ ((λ f, "  " +:+ f +:+ ",") <$> removelast fields)
        ++ ["  " +:+ List.last fields ""; cname]
    ∧ has_complex (enum_name cname) = false
    ∧ Forall (λ f, ∃ n v, Py.split " " f = [n; "="; v] ∧ has_complex n = false) fields.
Proof.
  intros Hout Hi.
  destruct (handle_enums_emitted _ _ _ _ Hout Hi)
    as (text0 & typedef & fields0 & cname & _ & Hs & Hstart & Hname & Hne & -> & Hform).
  pose proof (splitlines_no_linebreak (enum_orig text0)) as Hnl. rewrite Hs in Hnl.
  apply Forall_cons_1 in Hnl as [_ Hnl]. apply Forall_cons_1 in Hnl as [_ Hnl].
  apply Forall_app in Hnl as [Hf0 Hc]. apply Forall_cons_1 in Hc as [Hc _].
  exists (kept_fields true fields0), cname. cbn [text].
  split; [exact Hne|]. split; [|split; [by apply removed_complex|]].
  - apply enum_text_lines; [exact Hne| |exact Hc|by apply (startswith_nonempty "}")].
    unfold kept_fields. apply Forall_forall. intros f Hf.
    apply list_elem_of_In, filter_In in Hf as [Hf%list_elem_of_In _].
    apply list_elem_of_fmap in Hf as (f0 & -> & Hf0').
    apply no_linebreak_field_norm. rewrite Forall_forall in Hf0. by apply Hf0.
  - unfold kept_fields. apply Forall_forall. intros f Hf.
    apply list_elem_of_In, filter_In in Hf as [Hf%list_elem_of_In Hkeep].
    apply list_elem_of_fmap in Hf as (f0 & -> & Hf0').
    rewrite Forall_forall in Hform. destruct (Hform f0 Hf0') as (n & v & Hsplit).
    exists n, v. split; [exact Hsplit|].
    apply negb_true_iff, removed_complex in Hkeep.
    unfold field_name in Hkeep. by rewrite Hsplit in Hkeep.
Qed.

(** Claim C4, as the code has it.  When complex types are skipped, no
    constant, object, typedef, function typedef or function returned by
    [parse_header] has [FC32] or [FC64] in its text.  The text of every enum
    returned has these lines: [typedef enum], [{], one line for each field,
    which reads [name = value] after two spaces and before a comma (none on
    the last), and [} name;]; neither the name of the enum nor the name of
    a field has [FC32] or [FC64] in it.  The value of a field is not looked
    at. *)
Theorem parse_header_skip_complex w file s s1 rv :
  parse_header w file true s = (s1, Ok rv) →
  Forall (λ i, has_complex (text i) = false) (line_infos rv)
  ∧ Forall (λ f, has_complex (func_text f) = false) (method_infos rv)
  ∧ Forall (λ i, ∃ fields cname,
              fields ≠ []
              ∧ Py.splitlines (text i)
                = ["typedef enum"; "{"]
                  ++ ((λ f, "  " +:+ f +:+ ",") <$> removelast fields)
                  ++ ["  " +:+ List.last fields ""; cname]
              ∧ has_complex (enum_name cname) = false
              ∧ Forall (λ f, ∃ n v, Py.split " " f = [n; "="; v]
                                    ∧ has_complex n = false) fields)
           (enum_infos rv).
Proof.
  intros [_ (content & a & g & _ & _ & _ & Hrv)]%parse_header_ok.
  unfold line_infos, method_infos, enum_infos.
  pose proof (get_group_info_ok _ _ _ _ Hrv)
    as (_ & _ & _ & _ & He1 & He2 & _).
  apply get_group_info_kept in Hrv
    as ((-> & -> & -> & -> & -> & ->) & Htf & _ & (Hm1 & Hm2 & Hm3 & Hfo)).
  split; [|split].
  - rewrite !Forall_app. repeat (split; [apply kept_lines_no_complex|]).
    rewrite Htf. apply Forall_fmap, Forall_forall. intros line Hline.
    apply list_elem_of_In, filter_In in Hline as [_ Hline].
    by apply negb_true_iff in Hline.
  - rewrite !Forall_app in Hfo |- *. destruct Hfo as (Hf1 & Hf2 & Hf3).
    split; [|split]; by eapply methods_no_complex.
  - rewrite Forall_app, !Forall_forall.
    split; intros i Hi;
      [exact (emitted_enum_no_complex _ _ _ He1 Hi)|exact (emitted_enum_no_complex _ _ _ He2 Hi)].
Qed.

Lemma drop_stars_id s : starts_with_star s = false → drop_stars s = s.
Proof. destruct s as [|c s]; [done|]. cbn. by intros ->. Qed.

Lemma starts_with_star_drop_last s :
  starts_with_star s = false → starts_with_star (Py.drop_last s) = false.
Proof. destruct s as [|c [|c' s]]; try done. Qed.

Lemma starts_with_star_constant s :
  starts_with_star s = false →
  starts_with_star (Py.replace "(void)" "()" s) = false.
Proof.
  destruct s as [|c s]; [done|]. unfold Py.replace. cbn [Py.replace_from].
  destruct (String.prefix "(void)" (String c s)); [|done].
  intros _. reflexivity.
Qed.

Lemma DEPRECATED_no_star d : d ∈ DEPRECATED → starts_with_star d = false.
Proof.
  assert (H : set_Forall (λ d, starts_with_star d = false) DEPRECATED).
  { apply (bool_decide_unpack _). vm_compute. exact I. }
  apply H.
Qed.

Lemma kept_lines_emits skip namer group :
  (∀ line, pointer_declarator line = false → starts_with_star (namer line) = false) →
  emits_lines skip (λ line, drop_stars (namer line)) group (kept_lines skip namer group).
Proof.
  intros Hstar.
  assert (Hin : ∀ line, {| orig_text := None; text := line |} ∈ kept_lines skip namer group
                        ↔ line ∈ group ∧ dropped skip (namer line) line = false).
  { intros line. unfold kept_lines. rewrite list_elem_of_fmap. split.
    - intros (line' & [= ->] & Hl). apply list_elem_of_In, filter_In in Hl as [Hl Hd].
      split; [by apply list_elem_of_In|]. by apply negb_true_iff in Hd.
    - intros [Hl Hd]. exists line. split; [done|].
      apply list_elem_of_In, filter_In. split; [by apply list_elem_of_In|].
      by rewrite Hd. }
  split; [|split].
  - intros i Hi. pose proof Hi as Hi'. unfold kept_lines in Hi'.
    apply list_elem_of_fmap in Hi' as (line & -> & _).
    apply Hin in Hi as [Hl Hd]. exists line. split; [done|]. split; [done|].
    intros ->. unfold dropped in Hd. by apply orb_false_elim in Hd as [_ Hd].
  - intros line Hl Hdep Hc. apply Hin. split; [done|]. unfold dropped.
    apply orb_false_intro.
    + apply bool_decide_eq_false_2. intros Hn. apply Hdep.
      by rewrite (drop_stars_id _ (DEPRECATED_no_star _ Hn)).
    + destruct skip; [|done]. by rewrite Hc.
  - intros line Hl Hp Hdep Hi. apply Hin in Hi as [_ Hd].
    rewrite (drop_stars_id _ (Hstar _ Hp)) in Hdep.
    unfold dropped in Hd. apply orb_false_elim in Hd as [Hd _].
    apply bool_decide_eq_false_1 in Hd. exact (Hd Hdep).
Qed.

Lemma line_name_no_star line :
  pointer_declarator line = false → starts_with_star (line_name line) = false.
Proof. apply starts_with_star_drop_last. Qed.

Lemma constant_name_no_star line :
  pointer_declarator line = false → starts_with_star (constant_name line) = false.
Proof. intros H. by apply starts_with_star_constant, starts_with_star_drop_last. Qed.

Lemma function_typedefs_emits skip group :
  emits_function_typedefs skip group
    (Info None <$> List.filter (λ line, negb (skip && has_complex line)) group).
Proof.
  split.
  - intros i (line & -> & Hl)%list_elem_of_fmap.
    apply list_elem_of_In, filter_In in Hl as [Hl Hc].
    exists line. split; [by apply list_elem_of_In|]. split; [done|].
    intros ->. by apply negb_true_iff in Hc.
  - intros line Hl _ Hc. apply list_elem_of_fmap. exists line. split; [done|].
    apply list_elem_of_In, filter_In. split; [by apply list_elem_of_In|].
    destruct skip; [|done]. by rewrite Hc.
Qed.

Lemma functions_return_GrB_Info skip nodes fs n :
  generate (handle_function_node skip) nodes = Ok fs → n ∈ nodes →
  decl_return n = "GrB_Info".
Proof.
  intros Hg Hn. destruct (generate_all_ok _ _ _ _ Hg Hn) as [r Hr].
  exact (handle_function_node_return _ _ _ Hr).
Qed.

(** Claim C2, as the code has it.  When [get_group_info] succeeds:
    a record of a group of constants, objects or typedefs is a line of that
    group which, when complex types are skipped, has no complex type in it; a
    line that passes this test and declares a name that is not deprecated
    has a record; a line that declares a deprecated name without a pointer
    declarator has none.  A record of the function typedefs is such a line
    too, and a line in which no deprecated name occurs has one.  The
    functions are the [extern] function declarations of the tree whose name
    starts with [GrB_], [GxB_] or [GB_], which all return [GrB_Info], less
    those of a deprecated name and, when complex types are skipped, those
    with a complex type in their text.  An enum is returned when its name
    passes both tests and at least one of its fields survives them, with the
    surviving fields only. *)
Theorem get_group_info_emitted skip groups a rv :
  get_group_info skip groups a = Ok rv →
  (emits_lines skip declared_constant_name (GrB_const groups) (rv_GrB_const rv)
   ∧ emits_lines skip declared_constant_name (GxB_const groups) (rv_GxB_const rv)
   ∧ emits_lines skip declared_name (GrB_objects groups) (rv_GrB_objects rv)
   ∧ emits_lines skip declared_name (GxB_objects groups) (rv_GxB_objects rv)
   ∧ emits_lines skip declared_name (GrB_typedef groups) (rv_GrB_typedef rv)
   ∧ emits_lines skip declared_name (GxB_typedef groups) (rv_GxB_typedef rv))
  ∧ emits_function_typedefs skip (GxB_typedef_funcs groups) (rv_GxB_typedef_funcs rv)
  ∧ ((∀ i, i ∈ rv_GrB_typedef_enums rv ↔ emitted_enum skip (GrB_typedef_enums groups) i)
     ∧ (∀ i, i ∈ rv_GxB_typedef_enums rv ↔ emitted_enum skip (GxB_typedef_enums groups) i))
  ∧ (node <$> rv_GrB_methods rv ≡ₚ kept_nodes skip (nodes_with "GrB_" a)
     ∧ node <$> rv_GxB_methods rv ≡ₚ kept_nodes skip (nodes_with "GxB_" a)
     ∧ node <$> rv_GB_methods rv ≡ₚ kept_nodes skip (nodes_with "GB_" a)
     ∧ Forall follows_node (rv_GrB_methods rv ++ rv_GxB_methods rv ++ rv_GB_methods rv)
     ∧ ∀ n, n ∈ nodes_with "GrB_" a ++ nodes_with "GxB_" a ++ nodes_with "GB_" a →
            decl_return n = "GrB_Info").
Proof.
  intros H.
  pose proof (get_group_info_ok _ _ _ _ H)
    as (_ & _ & _ & _ & _ & _ & _ & _ & _ & (f1 & Hf1 & _) & (f2 & Hf2 & _)
        & (f3 & Hf3 & _) & _).
  apply get_group_info_kept in H
    as ((-> & -> & -> & -> & -> & ->) & -> & He & (Hm1 & Hm2 & Hm3 & Hfo)).
  split; [|split; [|split; [exact He|]]].
  - split; [apply (kept_lines_emits skip constant_name), constant_name_no_star|].
    split; [apply (kept_lines_emits skip constant_name), constant_name_no_star|].
    split; [apply (kept_lines_emits skip line_name), line_name_no_star|].
    split; [apply (kept_lines_emits skip line_name), line_name_no_star|].
    split; [apply (kept_lines_emits skip line_name), line_name_no_star|].
    apply (kept_lines_emits skip line_name), line_name_no_star.
  - apply function_typedefs_emits.
  - do 4 (split; [assumption|]).
    intros n. rewrite !elem_of_app. intros [Hn|[Hn|Hn]].
    + exact (functions_return_GrB_Info _ _ _ _ Hf1 Hn).
    + exact (functions_return_GrB_Info _ _ _ _ Hf2 Hn).
    + exact (functions_return_GrB_Info _ _ _ _ Hf3 Hn).
Qed.

(** A deprecated name declared through a pointer is compared with its star:
    the line is kept. *)
Example deprecated_pointer_object_is_kept :
  "GxB_ABS_BOOL" ∈ DEPRECATED
  ∧ handle_objects false ["extern GrB_UnaryOp *GxB_ABS_BOOL;"]
    = Ok [ {| orig_text := None; text := "extern GrB_UnaryOp *GxB_ABS_BOOL;" |} ]
  ∧ handle_objects false ["extern GrB_UnaryOp GxB_ABS_BOOL;"] = Ok [].
Proof.
  split; [apply (bool_decide_unpack _); vm_compute; exact I|].
  split; vm_compute; reflexivity.
Qed.

(** Claim C2 at the sample header: the object [GrB_INT8] is returned. *)
Lemma get_group_info_emitted_witness :
  ∃ rv, get_group_info true sample_groups sample_ast = Ok rv
    ∧ {| orig_text := None; text := "extern GrB_Type GrB_INT8;" |} ∈ rv_GrB_objects rv.
Proof.
  eexists. split; [vm_compute; reflexivity|].
  refine (proj1 (proj2 (proj1 (proj2 (proj2 (proj1
    (get_group_info_emitted true sample_groups sample_ast _ _))))))
    "extern GrB_Type GrB_INT8;" _ _ _).
  - vm_compute. reflexivity.
  - apply (bool_decide_unpack _). vm_compute. exact I.
  - apply (bool_decide_unpack _). vm_compute. exact I.
  - intros _. vm_compute. reflexivity.
Defined.

(** Claim C4 at the sample header. *)
Lemma parse_header_skip_complex_witness :
  ∃ rv,
    parse_header (sample_world sample_ast order_elements) "pkg/GraphBLAS-processed.h" true
                 (processed_state sample_ast)
      = (processed_state sample_ast, Ok rv)
    ∧ Forall (λ i, has_complex (text i) = false) (line_infos rv).
Proof.
  eexists. split; [vm_compute; reflexivity|].
  refine (proj1 (parse_header_skip_complex
    (sample_world sample_ast order_elements) "pkg/GraphBLAS-processed.h"
    (processed_state sample_ast) (processed_state sample_ast) _ _)).
  vm_compute. reflexivity.
Defined.

